(** * Product listings of the marketplace backend

    A shallow embedding of [src/routes/products.routes.js] together with
    the part of the SQL schema it runs against (the [products] table, its
    constraints, its row-level-security policies and its [updated_at]
    trigger), of the route of the caller's own listings in
    [src/routes/profile.routes.js], and of the favorites routes.  Route
    handlers are functions from a request and a database to a response
    and a database; the store calls they await are the functions of
    [Module Store]. *)

From Stdlib Require Import ZArith Lia Bool Ascii String.
From stdpp Require Import base option list strings pretty gmap sorting.

Local Open Scope string_scope.
Local Open Scope Z_scope.

(** ** JavaScript values that reach the handlers' arithmetic *)

Module Js.

(** [limit] and [offset] of the list route are either the numeric defaults
    of the destructuring ([20], [0]) or the raw text of the query string. *)
Inductive value :=
| Num (n : Z)
| Str (s : string).

(** A number, or [None] for NaN. *)
Definition number := option Z.

Fixpoint digits_acc (acc : Z) (s : string) : option Z :=
  match s with
  | "" => Some acc
  | String c s' =>
      match Ascii.is_nat c with
      | Some d => digits_acc (10 * acc + Z.of_nat d) s'
      | None => None
      end
  end.

Definition digits (s : string) : option Z :=
  match s with
  | "" => None
  | _ => digits_acc 0 s
  end.

(** The integer written by a string of the shape [[-+]?[0-9]+]; [None] for
    every other string.  On the strings built from sign and digit
    characters, the only ones that reach the arithmetic below, this is
    JavaScript's string-to-number conversion, with [None] for NaN. *)
Definition int_literal (s : string) : number :=
  match s with
  | String "-"%char r => Z.opp <$> digits r
  | String "+"%char r => digits r
  | _ => digits s
  end.

Definition to_string (v : value) : string :=
  match v with
  | Num n => pretty n
  | Str s => s
  end.

Definition to_number (v : value) : number :=
  match v with
  | Num n => Some n
  | Str s => int_literal s
  end.

(** [a + b]: numeric addition of two numbers, concatenation as soon as
    one operand is a string. *)
Definition plus (a b : value) : value :=
  match a, b with
  | Num x, Num y => Num (x + y)
  | _, _ => Str (to_string a +:+ to_string b)
  end.

(** [a - b] converts both operands to numbers. *)
Definition minus (a b : value) : number :=
  x ← to_number a; y ← to_number b; Some (x - y).

(** [parseInt(v)] on the values that pass [isInt]. *)
Definition parseInt (v : value) : number := to_number v.

(** Addition of two numbers; NaN if either is. *)
Definition add (a b : number) : number :=
  x ← a; y ← b; Some (x + y).

(** [a > b] for a number [a]; false when [b] is NaN. *)
Definition gt (a : Z) (b : number) : bool :=
  match b with
  | Some y => Z.ltb y a
  | None => false
  end.

(** Truthiness of a string: every string but the empty one. *)
Definition truthy (s : string) : bool :=
  match s with
  | "" => false
  | _ => true
  end.

(** Truthiness of a field that may be absent ([undefined]). *)
Definition present (field : option string) : bool :=
  match field with
  | Some s => truthy s
  | None => false
  end.

End Js.

(** ** The validators and sanitizers of the validation chains *)

Module Validator.

Definition isIn (allowed : list string) (s : string) : bool :=
  existsb (String.eqb s) allowed.

Definition in_range (min max : option Z) (n : Z) : bool :=
  match min with Some lo => Z.leb lo n | None => true end
  && match max with Some hi => Z.leb n hi | None => true end.

(** [isInt({min, max})]: the text is [[-+]?[0-9]+] and its value lies
    within the bounds given. *)
Definition isInt (min max : option Z) (s : string) : bool :=
  match Js.int_literal s with
  | Some n => in_range min max n
  | None => false
  end.

Definition is_hex (c : ascii) : bool :=
  let n := Ascii.N_of_ascii c in
  ((48 <=? n) && (n <=? 57) || (65 <=? n) && (n <=? 70)
   || (97 <=? n) && (n <=? 102))%N.

Fixpoint hex_run (n : nat) (s : string) : option string :=
  match n with
  | O => Some s
  | S n' =>
      match s with
      | String c r => if is_hex c then hex_run n' r else None
      | "" => None
      end
  end.

Definition dash (s : string) : option string :=
  match s with
  | String "-"%char r => Some r
  | _ => None
  end.

Definition hex_group (n : nat) (s : option string) : option string :=
  match s with
  | Some r => hex_run n r
  | None => None
  end.

Definition then_dash (s : option string) : option string :=
  match s with
  | Some r => dash r
  | None => None
  end.

(** [isUUID()] as older releases of the validator define it: eight,
    four, four, four and twelve hexadecimal digits separated by dashes.
    Release 13.15 also looks at the version and variant digits.  Which
    release is installed is not fixed by the sources, so the routes take
    their [isUUID] from the environment (see [Products.environment]);
    this one serves in the sample data. *)
Definition isUUID (s : string) : bool :=
  let g1 := then_dash (hex_run 8 s) in
  let g2 := then_dash (hex_group 4 g1) in
  let g3 := then_dash (hex_group 4 g2) in
  let g4 := then_dash (hex_group 4 g3) in
  match hex_group 12 g4 with
  | Some "" => true
  | _ => false
  end.

(** The characters of JavaScript's [\s], which [trim()] strips.  Text is
    carried as its UTF-8 bytes, so a character is one, two or three of
    them: tab to carriage return and the space; U+00A0; U+1680, U+2000
    to U+200A, U+2028, U+2029, U+202F, U+205F, U+3000 and U+FEFF. *)
Definition space1 (a : ascii) : bool :=
  let x := Ascii.N_of_ascii a in
  ((9 <=? x) && (x <=? 13) || (x =? 32))%N.

Definition space2 (a b : ascii) : bool :=
  ((Ascii.N_of_ascii a =? 194) && (Ascii.N_of_ascii b =? 160))%N.

Definition space3 (a b c : ascii) : bool :=
  let x := Ascii.N_of_ascii a in
  let y := Ascii.N_of_ascii b in
  let z := Ascii.N_of_ascii c in
  ((x =? 225) && (y =? 154) && (z =? 128)
   || (x =? 226) && (y =? 128)
      && ((128 <=? z) && (z <=? 138) || (z =? 168) || (z =? 169)
          || (z =? 175))
   || (x =? 226) && (y =? 129) && (z =? 159)
   || (x =? 227) && (y =? 128) && (z =? 128)
   || (x =? 239) && (y =? 187) && (z =? 191))%N.

(** The text without the white space at its head.  With [backwards] the
    text is read from its end, each character's bytes last one first. *)
Fixpoint strip (backwards : bool) (s : string) : string :=
  match s with
  | String a r =>
      if space1 a then strip backwards r
      else
        match r with
        | String b r' =>
            if (if backwards then space2 b a else space2 a b)
            then strip backwards r'
            else
              match r' with
              | String c r'' =>
                  if (if backwards then space3 c b a else space3 a b c)
                  then strip backwards r''
                  else s
              | "" => s
              end
        | "" => s
        end
  | "" => ""
  end.

Definition ltrim (s : string) : string := strip false s.

Definition rtrim (s : string) : string :=
  String.rev (strip true (String.rev s)).

(** The [trim()] sanitizer; it rewrites the field in the request body. *)
Definition trim (s : string) : string := rtrim (ltrim s).

Definition notEmpty (s : string) : bool := Js.truthy s.

(** An [optional()] chain is skipped when the field is absent. *)
Definition optional {A} (check : A → bool) (field : option A) : bool :=
  match field with
  | Some x => check x
  | None => true
  end.

(** A chain without [optional()] fails on an absent field. *)
Definition required {A} (check : A → bool) (field : option A) : bool :=
  match field with
  | Some x => check x
  | None => false
  end.

(** [isFloat({ min: 0 })] on an amount carried in hundredths. *)
Definition isFloat_min0 (hundredths : Z) : bool := Z.leb 0 hundredths.

(** [validationResult(req)]: the fields whose chain failed. *)
Definition validationResult (chains : list (string * bool)) : list string :=
  (filter (λ c, negb c.2) chains).*1.

End Validator.

(** ** The data store: schema, constraints, policies, statements *)

Module Store.

(** Identifiers are uuid values, carried in the text the store prints
    them in (lower-case digits in groups of eight, four, four, four and
    twelve).  Timestamps are instants on a single time line. *)
Definition uuid := string.
Definition timestamp := Z.

Definition lower (c : ascii) : ascii :=
  let n := Ascii.N_of_ascii c in
  if ((65 <=? n) && (n <=? 90))%N then Ascii.ascii_of_N (n + 32) else c.

(** The next [n] bytes of a uuid, each written as two hexadecimal
    digits; a dash may follow every second byte but the last. *)
Fixpoint uuid_bytes (n : nat) (s : string) : option (list ascii * string) :=
  match n with
  | O => Some ([], s)
  | S n' =>
      match s with
      | String a (String b r) =>
          if Validator.is_hex a && Validator.is_hex b
          then
            let r :=
              match r with
              | String "-"%char r' =>
                  if Nat.odd n && Nat.ltb 1 n then r' else r
              | _ => r
              end in
            match uuid_bytes n' r with
            | Some (digits, rest) => Some (lower a :: lower b :: digits, rest)
            | None => None
            end
          else None
      | _ => None
      end
  end.

Definition uuid_out (digits : list ascii) : uuid :=
  string_of_list_ascii
    (take 8 digits ++ "-"%char :: take 4 (drop 8 digits)
     ++ "-"%char :: take 4 (drop 12 digits)
     ++ "-"%char :: take 4 (drop 16 digits)
     ++ "-"%char :: drop 20 digits)%list.

(** How the store reads text as a uuid ([uuid_in]): sixteen bytes,
    upper or lower case, within braces or without; [None] for text that
    is no uuid, which aborts the statement (22P02). *)
Definition uuid_in (s : string) : option uuid :=
  let '(braces, body) :=
    match s with
    | String "{"%char r => (true, r)
    | _ => (false, s)
    end in
  match uuid_bytes 16 body with
  | Some (digits, rest) =>
      if String.eqb rest (if braces then "}" else "")
      then Some (uuid_out digits) else None
  | None => None
  end.

(** [status text CHECK (status IN ('draft','active','sold','archived'))] *)
Inductive Status := Draft | Active | Sold | Archived.

(** [condition text CHECK (condition IN ('new','like_new',...))] *)
Inductive Condition := New | LikeNew | Good | Fair | Poor.

#[global] Instance Status_eq_dec : EqDecision Status.
Proof. solve_decision. Defined.
#[global] Instance Condition_eq_dec : EqDecision Condition.
Proof. solve_decision. Defined.

Definition status_text (s : Status) : string :=
  match s with
  | Draft => "draft" | Active => "active"
  | Sold => "sold" | Archived => "archived"
  end.

Definition status_of_text (s : string) : option Status :=
  if String.eqb s "draft" then Some Draft
  else if String.eqb s "active" then Some Active
  else if String.eqb s "sold" then Some Sold
  else if String.eqb s "archived" then Some Archived
  else None.

Definition condition_text (c : Condition) : string :=
  match c with
  | New => "new" | LikeNew => "like_new" | Good => "good"
  | Fair => "fair" | Poor => "poor"
  end.

Definition condition_of_text (s : string) : option Condition :=
  if String.eqb s "new" then Some New
  else if String.eqb s "like_new" then Some LikeNew
  else if String.eqb s "good" then Some Good
  else if String.eqb s "fair" then Some Fair
  else if String.eqb s "poor" then Some Poor
  else None.

(** A row of [products].  [price] is [numeric(10, 2)], carried in
    hundredths; [views] is an [integer] column.  Rows are taken with a
    value in every column but [sold_at]. *)
Record product := mkProduct {
  id : uuid;
  user_id : uuid;
  category_id : uuid;
  title : string;
  description : string;
  price : Z;
  status : Status;
  condition : Condition;
  location : string;
  views : Z;
  featured : bool;
  created_at : timestamp;
  updated_at : timestamp;
  sold_at : option timestamp
}.

(** A row of [product_images], with the columns the routes write. *)
Record product_image := mkImage {
  product_id : uuid;
  image_url : string;
  display_order : Z;
  is_primary : bool
}.

#[global] Instance product_eq_dec : EqDecision product.
Proof. solve_decision. Defined.

(** The tables the listing routes touch; [categories] and [profiles] are
    kept as the sets of keys the foreign keys of [products] point to. *)
Record database := mkDatabase {
  products : gmap uuid product;
  categories : gset uuid;
  profiles : gset uuid;
  product_images : list product_image
}.

Definition with_products (m : gmap uuid product) (db : database) : database :=
  {| products := m; categories := categories db;
     profiles := profiles db; product_images := product_images db |}.

(** The role a client talks to the store with: the anonymous key, the
    session token of a signed-in user, or the service key, which is not
    subject to row-level security. *)
Inductive credential :=
| anon
| authenticated (uid : uuid)
| service_role.

(** [auth.uid()] *)
Definition auth_uid (c : credential) : option uuid :=
  match c with
  | authenticated u => Some u
  | _ => None
  end.

(** [CREATE POLICY "Public can view active products" ON products
    FOR SELECT USING (status = 'active' OR user_id = auth.uid())] *)
Definition public_can_view_active_products
    (c : credential) (p : product) : bool :=
  match c with
  | service_role => true
  | _ => bool_decide (status p = Active)
         || bool_decide (auth_uid c = Some (user_id p))
  end.

(** The policies for INSERT, UPDATE and DELETE are all granted
    [TO authenticated] with the expression [auth.uid() = user_id]; the
    anonymous role has no policy for these commands. *)
Definition own_row (c : credential) (p : product) : bool :=
  match c with
  | service_role => true
  | authenticated u => bool_decide (u = user_id p)
  | anon => false
  end.

(** "Authenticated users can create products": WITH CHECK *)
Definition authenticated_users_can_create_products := own_row.
(** "Users can update own products": USING and WITH CHECK *)
Definition users_can_update_own_products := own_row.
(** "Users can delete own products": USING *)
Definition users_can_delete_own_products := own_row.

Inductive error :=
| invalid_text_representation
| numeric_value_out_of_range
| row_level_security_violation
| check_violation
| foreign_key_violation
| unique_violation
| not_a_single_row
| invalid_range
| range_not_satisfiable.

(** What the client hands back: [{ data, error }]. *)
Inductive result (A : Type) :=
| Ok (data : A)
| Err (e : error).
Arguments Ok {A} data.
Arguments Err {A} e.

Definition int4 (n : Z) : bool :=
  Z.leb (- 2147483648) n && Z.leb n 2147483647.

Definition numeric_10_2 (hundredths : Z) : bool :=
  Z.ltb (- 10000000000) hundredths && Z.ltb hundredths 10000000000.

(** The checks a new or rewritten row goes through, in the order the
    store applies them; [policy] is the WITH CHECK verdict on the row. *)
Definition row_error (db : database) (policy : bool) (p : product)
    : option error :=
  if negb (int4 (views p) && numeric_10_2 (price p))
  then Some numeric_value_out_of_range
  else if negb policy then Some row_level_security_violation
  else if negb (Z.leb 0 (price p)) then Some check_violation
  else if negb (bool_decide (user_id p ∈ profiles db)
                && bool_decide (category_id p ∈ categories db))
  then Some foreign_key_violation
  else None.

(** A row that satisfies every constraint of its table. *)
Definition valid_row (db : database) (p : product) : Prop :=
  row_error db true p = None.

(** *** INSERT *)

(** The object handed to [.insert(...)] by the create route. *)
Record new_product := mkNew {
  n_user_id : uuid;
  n_title : string;
  n_description : string;
  n_price : Z;
  n_category_id : uuid;
  n_condition : string;
  n_location : string;
  n_status : string
}.

(** The row an INSERT builds: the columns given, and the column defaults
    for the rest ([gen_random_uuid()] yields [fresh], [now()] yields
    [db_now], [views] starts at 0, [sold_at] is NULL).  [category_id] is
    text of the request, which the store reads as a uuid; [user_id] is
    the caller's id as the Identity Provider hands it out.  A status or
    condition outside the CHECK lists builds no row. *)
Definition new_row (fresh : uuid) (db_now : timestamp) (v : new_product)
    : result product :=
  match uuid_in (n_category_id v) with
  | None => Err invalid_text_representation
  | Some category =>
      match status_of_text (n_status v),
            condition_of_text (n_condition v) with
      | Some st, Some co =>
          Ok {| id := fresh; user_id := n_user_id v;
                category_id := category; title := n_title v;
                description := n_description v; price := n_price v;
                status := st; condition := co; location := n_location v;
                views := 0; featured := false;
                created_at := db_now; updated_at := db_now;
                sold_at := None |}
      | _, _ => Err check_violation
      end
  end.

(** [.from('products').insert(v).select().single()] *)
Definition insert_product (c : credential) (fresh : uuid)
    (db_now : timestamp) (v : new_product) (db : database)
    : result product * database :=
  match new_row fresh db_now v with
  | Err e => (Err e, db)
  | Ok p =>
      match row_error db (authenticated_users_can_create_products c p) p with
      | Some e => (Err e, db)
      | None =>
          match products db !! fresh with
          | Some _ => (Err unique_violation, db)
          | None =>
              if public_can_view_active_products c p
              then (Ok p, with_products (<[fresh := p]> (products db)) db)
              else (Err row_level_security_violation, db)
          end
      end
  end.

(** [.from('product_images').insert(records)]: the policy "Users can
    insert images for own products" asks for a product of the caller
    with the image's [product_id]. *)
Definition image_allowed (c : credential) (db : database)
    (i : product_image) : bool :=
  match products db !! product_id i with
  | Some p => own_row c p
  | None => false
  end.

Definition insert_images (c : credential) (records : list product_image)
    (db : database) : result unit * database :=
  if forallb (image_allowed c db) records
  then (Ok (),
        {| products := products db; categories := categories db;
           profiles := profiles db;
           product_images := product_images db ++ records |})
  else (Err row_level_security_violation, db).

(** *** SELECT of one row *)

(** [.eq('id', i)] on a table without a row under [i].  [id] is a
    [uuid] column, and the store reads the text it is compared with as a
    uuid before it looks at any row: text that is no uuid is refused.
    The keys of a table are uuids, so such text is the key of no row.  A
    request that names a listing is taken to name it by the text the
    store prints its id in; the [id] of a request is any text. *)
Definition no_row {A} (i : string) (nothing : A) : result A :=
  if bool_decide (is_Some (uuid_in i)) then Ok nothing
  else Err invalid_text_representation.

(** [.from('products').select(...).eq('id', id).maybeSingle()]: the row
    with that key if the SELECT policy shows it to the client, else
    null.  The relations embedded in the selection (category, seller,
    images) are left out of the answer. *)
Definition select_product (c : credential) (i : uuid) (db : database)
    : result (option product) :=
  match products db !! i with
  | Some p =>
      if public_can_view_active_products c p then Ok (Some p) else Ok None
  | None => no_row i None
  end.

(** *** UPDATE *)

(** The object handed to [.update(...)]: a column is written when its
    field is present.  For the nullable [sold_at], [Some None] is an
    explicit null.  The request body of the update route is such an object
    and is forwarded as it arrived, so the fields go beyond the ones the
    route validates.  An [updated_at] field would be overwritten by the
    trigger and is left out.  The [id] of a row is its key in the table:
    a body is taken without an [id] field. *)
Record patch := mkPatch {
  u_title : option string;
  u_description : option string;
  u_price : option Z;
  u_category_id : option string;
  u_condition : option string;
  u_location : option string;
  u_status : option string;
  u_sold_at : option (option timestamp);
  u_user_id : option string;
  u_views : option Z;
  u_featured : option bool;
  u_created_at : option timestamp
}.

Definition no_change : patch :=
  {| u_title := None; u_description := None; u_price := None;
     u_category_id := None; u_condition := None; u_location := None;
     u_status := None; u_sold_at := None; u_user_id := None;
     u_views := None; u_featured := None; u_created_at := None |}.

(** The value of a [uuid] column after an UPDATE: the old one when the
    patch has no field for it, and else the field's text read as a
    uuid. *)
Definition uuid_column (old : uuid) (field : option string) : result uuid :=
  match field with
  | None => Ok old
  | Some s =>
      match uuid_in s with
      | Some u => Ok u
      | None => Err invalid_text_representation
      end
  end.

(** The row an UPDATE computes from the old one, before the trigger.
    Text that is no uuid for a [uuid] column, and a status or condition
    outside the CHECK lists, compute no row. *)
Definition apply_patch (u : patch) (p : product) : result product :=
  let st := match u_status u with
            | Some s => status_of_text s
            | None => Some (status p)
            end in
  let co := match u_condition u with
            | Some s => condition_of_text s
            | None => Some (condition p)
            end in
  match uuid_column (user_id p) (u_user_id u),
        uuid_column (category_id p) (u_category_id u) with
  | Ok owner, Ok category =>
      match st, co with
      | Some st, Some co =>
          Ok {| id := id p;
                user_id := owner;
                category_id := category;
                title := default (title p) (u_title u);
                description := default (description p) (u_description u);
                price := default (price p) (u_price u);
                status := st;
                condition := co;
                location := default (location p) (u_location u);
                views := default (views p) (u_views u);
                featured := default (featured p) (u_featured u);
                created_at := default (created_at p) (u_created_at u);
                updated_at := updated_at p;
                sold_at := default (sold_at p) (u_sold_at u) |}
      | _, _ => Err check_violation
      end
  | Err e, _ => Err e
  | _, Err e => Err e
  end.

(** [CREATE TRIGGER update_products_updated_at BEFORE UPDATE ON products
    FOR EACH ROW EXECUTE FUNCTION update_updated_at_column()] *)
Definition update_updated_at_column (db_now : timestamp) (p : product)
    : product :=
  {| id := id p; user_id := user_id p; category_id := category_id p;
     title := title p; description := description p; price := price p;
     status := status p; condition := condition p; location := location p;
     views := views p; featured := featured p; created_at := created_at p;
     updated_at := db_now; sold_at := sold_at p |}.

(** [.from('products').update(u).eq('id', i)] followed by the further
    [.eq] filters [where_]: the rows written, and the database after.
    [id] is the primary key, so at most one row is in reach; it is
    written when the client may see it, the UPDATE policy allows it and
    the filters hold.  A new row that fails a check aborts the statement
    and leaves the table as it was. *)
Definition update_products (c : credential) (db_now : timestamp)
    (i : uuid) (where_ : product → bool) (u : patch) (db : database)
    : result (list product) * database :=
  match products db !! i with
  | Some p =>
      if public_can_view_active_products c p
         && users_can_update_own_products c p && where_ p
      then
        match apply_patch u p with
        | Err e => (Err e, db)
        | Ok q =>
            let q := update_updated_at_column db_now q in
            match row_error db (users_can_update_own_products c q) q with
            | Some e => (Err e, db)
            | None => (Ok [q], with_products (<[i := q]> (products db)) db)
            end
        end
      else (Ok [], db)
  | None => (no_row i [], db)
  end.

(** [.single()]: exactly one row, or an error. *)
Definition single {A} (r : result (list A)) : result A :=
  match r with
  | Ok [x] => Ok x
  | Ok _ => Err not_a_single_row
  | Err e => Err e
  end.

(** *** DELETE *)

(** [.from('products').delete().eq('id', i)] followed by the filters
    [where_]; the images of a deleted product go with it
    ([ON DELETE CASCADE]). *)
Definition delete_products (c : credential) (i : uuid)
    (where_ : product → bool) (db : database) : result unit * database :=
  match products db !! i with
  | Some p =>
      if public_can_view_active_products c p
         && users_can_delete_own_products c p && where_ p
      then (Ok (),
            {| products := delete i (products db);
               categories := categories db; profiles := profiles db;
               product_images :=
                 filter (λ im, product_id im ≠ i) (product_images db) |})
      else (Ok (), db)
  | None => (no_row i (), db)
  end.

(** *** SELECT of many rows *)

(** Pattern matching of [LIKE]: [%] (also written [*] in a filter) stands
    for any run of characters, [_] for any one character. *)
Fixpoint like (pat txt : list ascii) {struct pat} : bool :=
  match pat with
  | [] => match txt with [] => true | _ => false end
  | c :: pat' =>
      if bool_decide (c = "%"%char) || bool_decide (c = "*"%char)
      then (fix star (t : list ascii) : bool :=
              like pat' t
              || match t with [] => false | _ :: t' => star t' end) txt
      else match txt with
           | [] => false
           | d :: txt' =>
               (bool_decide (c = "_"%char) || bool_decide (c = d))
               && like pat' txt'
           end
  end.

Definition ilike (pattern text : string) : bool :=
  like (lower <$> list_ascii_of_string pattern)
       (lower <$> list_ascii_of_string text).

(** The filters the list route puts on its query, each with the text
    the request gave for it. *)
Inductive clause :=
| eq_status (s : string)
| eq_user_id (u : string)
| eq_category_id (c : string)
| gte_price (hundredths : Z)
| lte_price (hundredths : Z)
| eq_condition (s : string)
| or_title_description_ilike (pattern : string).
(* The pattern of the last filter is written into a filter expression; the
   search text is taken free of the characters that expression reserves
   (comma, parentheses, double quote). *)

(** A filter on a [uuid] column compares uuid values: the store reads
    the text as a uuid and compares that with the column, and text that
    is no uuid aborts the query.  The only owner the routes filter by is
    the caller ([req.user.id], or a parameter equal to it), whose id
    comes from the Identity Provider as the store spells it; the
    category is text of the request. *)
Definition well_typed (f : clause) : bool :=
  match f with
  | eq_category_id c => bool_decide (is_Some (uuid_in c))
  | _ => true
  end.

Definition holds (f : clause) (p : product) : bool :=
  match f with
  | eq_status s => String.eqb (status_text (status p)) s
  | eq_user_id u => String.eqb (user_id p) u
  | eq_category_id c => bool_decide (uuid_in c = Some (category_id p))
  | gte_price z => Z.leb z (price p)
  | lte_price z => Z.leb (price p) z
  | eq_condition s => String.eqb (condition_text (condition p)) s
  | or_title_description_ilike pat =>
      ilike pat (title p) || ilike pat (description p)
  end.

Definition matches (q : list clause) (p : product) : bool :=
  forallb (λ f, holds f p) q.

(** [.order('created_at', { ascending: false })] *)
Definition newer_first (p q : product) : Prop :=
  created_at q ≤ created_at p.

#[global] Instance newer_first_dec : RelDecision newer_first.
Proof. intros p q. unfold newer_first. apply _. Defined.

(** The rows of the table a client may see that pass every filter,
    newest first. *)
Definition matching (c : credential) (q : list clause) (db : database)
    : list product :=
  merge_sort newer_first
    (filter (λ p, public_can_view_active_products c p && matches q p)
            ((map_to_list (products db)).*2)).

(** [.range(from, to)] asks for [to - from + 1] rows after the first
    [from].  A bound that is not a number, or a negative one, is refused
    before the query is run, and a first row beyond the number of
    matching rows after it (the store answers 416 to it). *)
Definition range (from : Js.value) (to : Js.number) (rows : list product)
    : result (list product) :=
  match Js.to_number from, to with
  | Some f, Some t =>
      if Z.leb 0 f && Z.leb 0 (t - f + 1)
      then if Z.leb f (Z.of_nat (length rows))
           then Ok (take (Z.to_nat (t - f + 1)) (drop (Z.to_nat f) rows))
           else Err range_not_satisfiable
      else Err invalid_range
  | _, _ => Err invalid_range
  end.

(** The list query with [{ count: 'exact' }]: the page asked for and the
    number of all matching rows. *)
Definition select_products (c : credential) (q : list clause)
    (from : Js.value) (to : Js.number) (db : database)
    : result (list product * Z) :=
  let rows := matching c q db in
  match range from to rows with
  | Err invalid_range => Err invalid_range
  | answer =>
      if forallb well_typed q
      then match answer with
           | Ok page => Ok (page, Z.of_nat (length rows))
           | Err e => Err e
           end
      else Err invalid_text_representation
  end.

(** A query without a range: all matching rows. *)
Definition select_all (c : credential) (q : list clause) (db : database)
    : result (list product) :=
  if forallb well_typed q then Ok (matching c q db)
  else Err invalid_text_representation.

End Store.

(** ** Authentication middleware *)

Module Auth.

(** Modelled from the spec: [middleware/auth.js] and [config/supabase.js]
    are not part of the sources at hand.  The Identity Provider turns the
    credential of a request into a caller identity with a stable user id,
    or into no identity at all.  The id is the uuid of the user, in the
    text the store prints it in. *)
Record user := mkUser {
  id : Store.uuid;
  email : string
}.

(** Modelled from the spec: [getSupabaseClient(req.token)], the
    request-scoped store handle that carries the caller's session token,
    so that row-level security applies to the caller. *)
Definition getSupabaseClient (u : user) : Store.credential :=
  Store.authenticated (id u).

End Auth.

(** ** The routes of [products.routes.js] *)

Module Products.
Import Store.

(** What a handler reads besides the request and the tables. *)
Record environment := mkEnv {
  (** the shared client exported by [config/supabase.js]; the key it is
      built with is a setting of the deployment and is left open *)
  supabase : credential;
  (** [new Date()], the clock of the application *)
  now : timestamp;
  (** [now()], the clock of the store *)
  db_now : timestamp;
  (** the next value of [gen_random_uuid()] *)
  fresh : uuid;
  (** [isUUID()] of the validator installed; the sources fix no release,
      and the releases differ in the texts they accept *)
  isUUID : string → bool
}.

Record pagination := mkPagination {
  total : Z;
  limit : Js.number;
  offset : Js.number;
  hasMore : bool
}.

(** The JSON bodies the routes answer with. *)
Inductive payload :=
| unauthenticated
| validation_errors (fields : list string)
| store_error (e : error)
| error_message (msg : string)
| product_created (product : option product)
| product_page (products : list product) (pg : pagination)
| product_read (product : product)
| product_updated (product : product)
| product_deleted
| product_status_updated (product : product).

Record response := mkResponse {
  code : Z;
  json : payload
}.

(** Modelled from the spec: [authenticateUser] of [middleware/auth.js]
    (not among the sources) answers 401 when the request carries no valid
    credential, and otherwise sets [req.user]; [optionalAuth] lets the
    request through either way. *)
Definition authenticateUser (req_user : option Auth.user)
    (handler : Auth.user → database → response * database)
    (db : database) : response * database :=
  match req_user with
  | Some u => handler u db
  | None => ({| code := 401; json := unauthenticated |}, db)
  end.

Definition statuses : list string := ["draft"; "active"; "sold"; "archived"].
Definition conditions : list string :=
  ["new"; "like_new"; "good"; "fair"; "poor"].

(** *** [router.post('/')] *)

Record create_body := mkCreate {
  c_title : option string;
  c_description : option string;
  c_price : option Z;
  c_category_id : option string;
  c_condition : option string;
  c_location : option string;
  c_images : option (list string);
  c_status : option string
}.

(** The body after the sanitizers of the chain have run. *)
Definition create_sanitized (b : create_body) : create_body :=
  {| c_title := Validator.trim <$> c_title b;
     c_description := Validator.trim <$> c_description b;
     c_price := c_price b;
     c_category_id := c_category_id b;
     c_condition := c_condition b;
     c_location := Validator.trim <$> c_location b;
     c_images := c_images b;
     c_status := c_status b |}.

Definition create_chains (env : environment) (b : create_body)
    : list (string * bool) :=
  [ ("title", Validator.required Validator.notEmpty (c_title b));
    ("description", Validator.required Validator.notEmpty (c_description b));
    ("price", Validator.required Validator.isFloat_min0 (c_price b));
    ("category_id", Validator.required (isUUID env) (c_category_id b));
    ("condition",
      Validator.required (Validator.isIn conditions) (c_condition b));
    ("location", Validator.required Validator.notEmpty (c_location b));
    ("images", Validator.optional (λ _, true) (c_images b));
    ("status",
      Validator.optional (Validator.isIn ["draft"; "active"]) (c_status b)) ].

Definition imageRecords (product_id : uuid) (images : list string)
    : list product_image :=
  imap (λ index url,
          {| product_id := product_id; image_url := url;
             display_order := Z.of_nat index;
             is_primary := bool_decide (index = 0%nat) |}) images.

Definition create_handler (env : environment) (body : create_body)
    (user : Auth.user) (db : database) : response * database :=
  let body := create_sanitized body in
  match Validator.validationResult (create_chains env body) with
  | (_ :: _) as errors =>
      ({| code := 400; json := validation_errors errors |}, db)
  | [] =>
      let userSupabase := Auth.getSupabaseClient user in
      let row :=
        {| n_user_id := Auth.id user;
           n_title := default "" (c_title body);
           n_description := default "" (c_description body);
           n_price := default 0 (c_price body);
           n_category_id := default "" (c_category_id body);
           n_condition := default "" (c_condition body);
           n_location := default "" (c_location body);
           n_status := if Js.present (c_status body)
                       then default "" (c_status body) else "draft" |} in
      match insert_product userSupabase (fresh env) (db_now env) row db with
      | (Err productError, db) =>
          ({| code := 400; json := store_error productError |}, db)
      | (Ok product, db) =>
          let db :=
            match c_images body with
            | Some ((_ :: _) as images) =>
                (insert_images userSupabase
                   (imageRecords (id product) images) db).2
            | _ => db
            end in
          let fullProduct :=
            match select_product userSupabase (id product) db with
            | Ok found => found
            | Err _ => None
            end in
          ({| code := 201; json := product_created fullProduct |}, db)
      end
  end.

Definition create (env : environment) (req_user : option Auth.user)
    (body : create_body) : database → response * database :=
  authenticateUser req_user (create_handler env body).

(** *** [router.get('/')] *)

(** The query string.  Prices are carried in hundredths. *)
Record list_query := mkQuery {
  q_category_id : option string;
  q_status : option string;
  q_min_price : option Z;
  q_max_price : option Z;
  q_condition : option string;
  q_search : option string;
  q_user_id : option string;
  q_limit : option string;
  q_offset : option string
}.

Definition list_chains (env : environment) (q : list_query)
    : list (string * bool) :=
  [ ("category_id", Validator.optional (isUUID env) (q_category_id q));
    ("status", Validator.optional (Validator.isIn statuses) (q_status q));
    ("min_price", Validator.optional Validator.isFloat_min0 (q_min_price q));
    ("max_price", Validator.optional Validator.isFloat_min0 (q_max_price q));
    ("condition",
      Validator.optional (Validator.isIn conditions) (q_condition q));
    ("search", Validator.optional (λ _, true) (q_search q));
    ("user_id", Validator.optional (isUUID env) (q_user_id q));
    ("limit",
      Validator.optional (Validator.isInt (Some 1) (Some 100)) (q_limit q));
    ("offset",
      Validator.optional (Validator.isInt (Some 0) None) (q_offset q)) ].

(** [user_id === req.user.id], with [req.user] possibly unset. *)
Definition is_caller (req_user : option Auth.user) (user_id : option string)
    : bool :=
  match req_user, user_id with
  | Some u, Some i => String.eqb i (Auth.id u)
  | _, _ => false
  end.

(** The filters of lines 127 to 134: who may see which statuses. *)
Definition visibility (req_user : option Auth.user) (q : list_query)
    : list clause :=
  if negb (bool_decide (is_Some req_user)) || negb (Js.present (q_user_id q))
     || negb (is_caller req_user (q_user_id q))
  then [eq_status "active"]
  else if Js.present (q_user_id q) && bool_decide (is_Some req_user)
          && is_caller req_user (q_user_id q)
  then eq_user_id (default "" (q_user_id q))
       :: (if Js.present (q_status q)
           then [eq_status (default "" (q_status q))] else [])
  else [].

Definition when_present {A} (field : option A) (truthy : A → bool)
    (f : A → clause) : list clause :=
  match field with
  | Some x => if truthy x then [f x] else []
  | None => []
  end.

(** The filters of lines 136 to 154, each added when its parameter is
    truthy. *)
Definition refinements (q : list_query) : list clause :=
  (when_present (q_category_id q) Js.truthy eq_category_id
   ++ when_present (q_min_price q) (λ _, true) gte_price
   ++ when_present (q_max_price q) (λ _, true) lte_price
   ++ when_present (q_condition q) Js.truthy eq_condition
   ++ when_present (q_search q) Js.truthy
        (λ search, or_title_description_ilike ("%" +:+ search +:+ "%")))%list.

Definition list_handler (env : environment) (req_user : option Auth.user)
    (q : list_query) (db : database) : response * database :=
  match Validator.validationResult (list_chains env q) with
  | (_ :: _) as errors =>
      ({| code := 400; json := validation_errors errors |}, db)
  | [] =>
      let limit := default (Js.Num 20) (Js.Str <$> q_limit q) in
      let offset := default (Js.Num 0) (Js.Str <$> q_offset q) in
      let query := (visibility req_user q ++ refinements q)%list in
      match select_products (supabase env) query
              offset (Js.minus (Js.plus offset limit) (Js.Num 1)) db with
      | Err error => ({| code := 400; json := store_error error |}, db)
      | Ok (products, count) =>
          ({| code := 200;
              json := product_page products
                {| total := count;
                   limit := Js.parseInt limit;
                   offset := Js.parseInt offset;
                   hasMore :=
                     Js.gt count
                       (Js.add (Js.parseInt offset) (Js.parseInt limit)) |}
           |}, db)
      end
  end.

(** *** [router.get('/:id')] *)

(** The handler awaits the store twice.  Up to the first answer it has
    either responded or holds the row it read. *)
Inductive fetched :=
| responded (r : response)
| holding (product : product).

(** Lines 186 to 207: the read of the row and the access decision. *)
Definition read_fetch (env : environment) (req_user : option Auth.user)
    (i : uuid) (db : database) : fetched :=
  match select_product (supabase env) i db with
  | Err error => responded {| code := 400; json := store_error error |}
  | Ok None =>
      responded {| code := 404; json := error_message "Product not found" |}
  | Ok (Some product) =>
      if negb (String.eqb (status_text (status product)) "active")
         && (negb (bool_decide (is_Some req_user))
             || negb (is_caller req_user (Some (user_id product))))
      then responded {| code := 403; json := error_message "Access denied" |}
      else holding product
  end.

Definition with_views (n : Z) (p : product) : product :=
  {| id := id p; user_id := user_id p; category_id := category_id p;
     title := title p; description := description p; price := price p;
     status := status p; condition := condition p; location := location p;
     views := n; featured := featured p; created_at := created_at p;
     updated_at := updated_at p; sold_at := sold_at p |}.

Definition views_patch (n : Z) : patch :=
  {| u_title := None; u_description := None; u_price := None;
     u_category_id := None; u_condition := None; u_location := None;
     u_status := None; u_sold_at := None; u_user_id := None;
     u_views := Some n; u_featured := None; u_created_at := None |}.

(** Lines 209 to 214: the write of [views] from the row held, whose
    outcome is not looked at, and the answer. *)
Definition read_count (env : environment) (i : uuid) (product : product)
    (db : database) : response * database :=
  let db :=
    (update_products (supabase env) (db_now env) i (λ _, true)
       (views_patch (views product + 1)) db).2 in
  ({| code := 200;
      json := product_read (with_views (views product + 1) product) |}, db).

(** The row that write stores for the row [product] held by the handler,
    when the row in the table is [stored]: the views read plus one, and
    the trigger's [updated_at]. *)
Definition counted (env : environment) (product stored : Store.product)
    : Store.product :=
  update_updated_at_column (db_now env)
    (with_views (views product + 1) stored).

Definition read (env : environment) (req_user : option Auth.user)
    (i : uuid) (db : database) : response * database :=
  match read_fetch env req_user i db with
  | responded r => (r, db)
  | holding product => read_count env i product db
  end.

(** *** [router.put('/:id')] *)

(** The request body is the object later handed to [.update(...)]. *)
Definition update_sanitized (b : patch) : patch :=
  {| u_title := Validator.trim <$> u_title b;
     u_description := Validator.trim <$> u_description b;
     u_price := u_price b;
     u_category_id := u_category_id b;
     u_condition := u_condition b;
     u_location := Validator.trim <$> u_location b;
     u_status := u_status b;
     u_sold_at := u_sold_at b;
     u_user_id := u_user_id b;
     u_views := u_views b;
     u_featured := u_featured b;
     u_created_at := u_created_at b |}.

Definition update_chains (env : environment) (b : patch)
    : list (string * bool) :=
  [ ("title", Validator.optional Validator.notEmpty (u_title b));
    ("description", Validator.optional Validator.notEmpty (u_description b));
    ("price", Validator.optional Validator.isFloat_min0 (u_price b));
    ("category_id", Validator.optional (isUUID env) (u_category_id b));
    ("condition",
      Validator.optional (Validator.isIn conditions) (u_condition b));
    ("location", Validator.optional Validator.notEmpty (u_location b));
    ("status", Validator.optional (Validator.isIn statuses) (u_status b)) ].

(** [updates.status === 'sold'] *)
Definition is_sold (status : option string) : bool :=
  match status with
  | Some s => String.eqb s "sold"
  | None => false
  end.

(** [updates.sold_at = new Date().toISOString()] *)
Definition set_sold_at (t : timestamp) (u : patch) : patch :=
  {| u_title := u_title u; u_description := u_description u;
     u_price := u_price u; u_category_id := u_category_id u;
     u_condition := u_condition u; u_location := u_location u;
     u_status := u_status u; u_sold_at := Some (Some t);
     u_user_id := u_user_id u; u_views := u_views u;
     u_featured := u_featured u; u_created_at := u_created_at u |}.

(** Lines 244 to 246; [!updates.sold_at] holds for an absent field and
    for null. *)
Definition stamp (env : environment) (updates : patch) : patch :=
  if is_sold (u_status updates)
     && negb (bool_decide (is_Some (mjoin (u_sold_at updates))))
  then set_sold_at (now env) updates
  else updates.

(** [.eq('user_id', req.user.id)] *)
Definition owned_by (user : Auth.user) (p : product) : bool :=
  String.eqb (user_id p) (Auth.id user).

Definition update_handler (env : environment) (i : uuid) (body : patch)
    (user : Auth.user) (db : database) : response * database :=
  let body := update_sanitized body in
  match Validator.validationResult (update_chains env body) with
  | (_ :: _) as errors =>
      ({| code := 400; json := validation_errors errors |}, db)
  | [] =>
      let updates := stamp env body in
      let userSupabase := Auth.getSupabaseClient user in
      let '(rows, db) :=
        update_products userSupabase (db_now env) i (owned_by user)
          updates db in
      match single rows with
      | Err error => ({| code := 400; json := store_error error |}, db)
      | Ok product => ({| code := 200; json := product_updated product |}, db)
      end
  end.

Definition update (env : environment) (req_user : option Auth.user)
    (i : uuid) (body : patch) : database → response * database :=
  authenticateUser req_user (update_handler env i body).

(** *** [router.delete('/:id')] *)

Definition delete_handler (i : uuid) (user : Auth.user) (db : database)
    : response * database :=
  let userSupabase := Auth.getSupabaseClient user in
  match delete_products userSupabase i (owned_by user) db with
  | (Err error, db) => ({| code := 400; json := store_error error |}, db)
  | (Ok _, db) => ({| code := 200; json := product_deleted |}, db)
  end.

Definition delete (req_user : option Auth.user) (i : uuid)
    : database → response * database :=
  authenticateUser req_user (delete_handler i).

(** *** [router.patch('/:id/status')] *)

Definition status_chains (status : option string) : list (string * bool) :=
  [ ("status", Validator.required (Validator.isIn statuses) status) ].

(** Lines 313 to 316: [{ status }], with [sold_at] added for 'sold'. *)
Definition status_updates (env : environment) (status : option string)
    : patch :=
  let updates :=
    {| u_title := None; u_description := None; u_price := None;
       u_category_id := None; u_condition := None; u_location := None;
       u_status := status; u_sold_at := None; u_user_id := None;
       u_views := None; u_featured := None; u_created_at := None |} in
  if is_sold status then set_sold_at (now env) updates else updates.

Definition set_status_handler (env : environment) (i : uuid)
    (status : option string) (user : Auth.user) (db : database)
    : response * database :=
  match Validator.validationResult (status_chains status) with
  | (_ :: _) as errors =>
      ({| code := 400; json := validation_errors errors |}, db)
  | [] =>
      let userSupabase := Auth.getSupabaseClient user in
      let updates := status_updates env status in
      let '(rows, db) :=
        update_products userSupabase (db_now env) i (owned_by user)
          updates db in
      match single rows with
      | Err error => ({| code := 400; json := store_error error |}, db)
      | Ok product =>
          ({| code := 200; json := product_status_updated product |}, db)
      end
  end.

Definition set_status (env : environment) (req_user : option Auth.user)
    (i : uuid) (status : option string) : database → response * database :=
  authenticateUser req_user (set_status_handler env i status).

End Products.

(** ** Reads of one listing in flight at the same time *)

Module Concurrent.
Import Store Products.

(** A read in flight: before its first store call, between the two, or
    answered. *)
Inductive task :=
| arrived (req_user : option Auth.user) (i : uuid)
| counting (i : uuid) (product : product)
| answered (r : response).

(** One store call of a read, with the handler code up to its next
    [await]. *)
Definition advance (env : environment) (t : task) (db : database)
    : task * database :=
  match t with
  | arrived req_user i =>
      match read_fetch env req_user i db with
      | responded r => (answered r, db)
      | holding product => (counting i product, db)
      end
  | counting i product =>
      let '(r, db) := read_count env i product db in (answered r, db)
  | answered r => (answered r, db)
  end.

(** The store serves one call at a time; a schedule names, call by call,
    the request whose turn it is. *)
Fixpoint run (env : environment) (schedule : list nat) (tasks : list task)
    (db : database) : list task * database :=
  match schedule with
  | [] => (tasks, db)
  | k :: schedule =>
      match tasks !! k with
      | Some t =>
          let '(t, db) := advance env t db in
          run env schedule (<[k := t]> tasks) db
      | None => run env schedule tasks db
      end
  end.

(** The status code of a read that has been answered. *)
Definition outcome (t : task) : option Z :=
  match t with
  | answered r => Some (code r)
  | _ => None
  end.

(** [n] reads of the same listing by the same caller, each answered
    before the next one arrives: the answers and the database after. *)
Fixpoint reads (n : nat) (env : environment) (req_user : option Auth.user)
    (i : uuid) (db : database) : list response * database :=
  match n with
  | O => ([], db)
  | S n =>
      let '(r, db) := read env req_user i db in
      let '(rs, db) := reads n env req_user i db in
      (r :: rs, db)
  end.

End Concurrent.

(** ** Sample data *)

Module Sample.
Import Store Products.

Definition alice : Auth.user :=
  {| Auth.id := "aaaaaaaa-0000-4000-8000-000000000001";
     Auth.email := "alice@example.com" |}.

Definition bob : Auth.user :=
  {| Auth.id := "bbbbbbbb-0000-4000-8000-000000000002";
     Auth.email := "bob@example.com" |}.

Definition furniture : uuid := "cccccccc-0000-4000-8000-000000000003".
Definition chair_id : uuid := "11111111-0000-4000-8000-000000000001".
Definition lamp_id : uuid := "22222222-0000-4000-8000-000000000002".
Definition desk_id : uuid := "33333333-0000-4000-8000-000000000003".

(** A chair of Alice's, with the given status and sale time. *)
Definition chair (st : Status) (sold : option timestamp) : product :=
  {| id := chair_id; user_id := Auth.id alice; category_id := furniture;
     title := "Chair"; description := "Oak chair"; price := 1000;
     status := st; condition := Good; location := "X";
     views := 7; featured := false;
     created_at := 10; updated_at := 10; sold_at := sold |}.

(** A draft of Alice's. *)
Definition lamp : product :=
  {| id := lamp_id; user_id := Auth.id alice; category_id := furniture;
     title := "Lamp"; description := "Desk lamp"; price := 500;
     status := Draft; condition := New; location := "X";
     views := 0; featured := false;
     created_at := 20; updated_at := 20; sold_at := None |}.

Definition empty_shop : database :=
  {| products := ∅; categories := {[ furniture ]};
     profiles := {[ Auth.id alice; Auth.id bob ]}; product_images := [] |}.

Definition shop (rows : list product) : database :=
  with_products (list_to_map ((λ p, (id p, p)) <$> rows)) empty_shop.

(** Alice's chair on offer; the chair sold at time 100; the chair on
    offer next to a draft. *)
Definition showroom : database := shop [chair Active None].
Definition after_sale : database := shop [chair Sold (Some 100)].
Definition workshop : database := shop [chair Active None; lamp].

(** The shared client holds the service key, the clock of the
    application reads 200 and the clock of the store 201. *)
Definition env : environment :=
  {| supabase := service_role; now := 200; db_now := 201;
     fresh := desk_id; isUUID := Validator.isUUID |}.

(** The same, one hundred ticks later. *)
Definition later : environment :=
  {| supabase := service_role; now := 300; db_now := 301;
     fresh := desk_id; isUUID := Validator.isUUID |}.

(** The same, with the shared client on the anonymous key. *)
Definition env_anon : environment :=
  {| supabase := anon; now := 200; db_now := 201; fresh := desk_id;
     isUUID := Validator.isUUID |}.

(** A body for the update route that carries only an explicit null for
    [sold_at], and one that carries only a new [user_id]. *)
Definition null_sold_at : patch :=
  {| u_title := None; u_description := None; u_price := None;
     u_category_id := None; u_condition := None; u_location := None;
     u_status := None; u_sold_at := Some None; u_user_id := None;
     u_views := None; u_featured := None; u_created_at := None |}.

Definition give_to (user : Auth.user) : patch :=
  {| u_title := None; u_description := None; u_price := None;
     u_category_id := None; u_condition := None; u_location := None;
     u_status := None; u_sold_at := None; u_user_id := Some (Auth.id user);
     u_views := None; u_featured := None; u_created_at := None |}.

Definition any_listing : list_query :=
  {| q_category_id := None; q_status := None; q_min_price := None;
     q_max_price := None; q_condition := None; q_search := None;
     q_user_id := None; q_limit := None; q_offset := None |}.

Definition listings_of (user : Auth.user) : list_query :=
  {| q_category_id := None; q_status := None; q_min_price := None;
     q_max_price := None; q_condition := None; q_search := None;
     q_user_id := Some (Auth.id user); q_limit := None; q_offset := None |}.

Definition paged (limit offset : string) (q : list_query) : list_query :=
  {| q_category_id := q_category_id q; q_status := q_status q;
     q_min_price := q_min_price q; q_max_price := q_max_price q;
     q_condition := q_condition q; q_search := q_search q;
     q_user_id := q_user_id q; q_limit := Some limit;
     q_offset := Some offset |}.

Definition with_status (s : string) (q : list_query) : list_query :=
  {| q_category_id := q_category_id q; q_status := Some s;
     q_min_price := q_min_price q; q_max_price := q_max_price q;
     q_condition := q_condition q; q_search := q_search q;
     q_user_id := q_user_id q; q_limit := q_limit q;
     q_offset := q_offset q |}.

Definition desk : create_body :=
  {| c_title := Some " Desk "; c_description := Some "Pine desk";
     c_price := Some 4500; c_category_id := Some furniture;
     c_condition := Some "good"; c_location := Some "X";
     c_images := Some ["https://img.example/desk-1.jpg";
                       "https://img.example/desk-2.jpg"];
     c_status := None |}.

Definition desk_with_status (s : string) : create_body :=
  {| c_title := c_title desk; c_description := c_description desk;
     c_price := c_price desk; c_category_id := c_category_id desk;
     c_condition := c_condition desk; c_location := c_location desk;
     c_images := c_images desk; c_status := Some s |}.

End Sample.

(** ** The rules as the specification words them *)

Module Spec.
Import Store.

(** Section 4.1, visibility rule: a read is permitted if the listing is
    Active, or if there is a caller and the caller is the owner. *)
Definition permitted (caller : option Auth.user) (listing : product)
    : Prop :=
  status listing = Active
  ∨ ∃ u, caller = Some u ∧ Auth.id u = user_id listing.

(** Section 4.2, for a caller who is not the owner asked for: the query
    with its owner and status parameters taken out. *)
Definition without_owner_and_status (q : Products.list_query)
    : Products.list_query :=
  {| Products.q_category_id := Products.q_category_id q;
     Products.q_status := None;
     Products.q_min_price := Products.q_min_price q;
     Products.q_max_price := Products.q_max_price q;
     Products.q_condition := Products.q_condition q;
     Products.q_search := Products.q_search q;
     Products.q_user_id := None;
     Products.q_limit := Products.q_limit q;
     Products.q_offset := Products.q_offset q |}.

End Spec.

(** ** The caller's own listings: [router.get('/listings')] of
    [profile.routes.js] *)

Module Profile.
Import Store.

Inductive payload :=
| unauthenticated
| store_error (e : error)
| own_products (products : list product).

Record response := mkResponse {
  code : Z;
  json : payload
}.

(** Lines 70 to 83: the caller's rows, and those of one status when the
    [status] parameter is truthy. *)
Definition listings_query (user : Auth.user) (status : option string)
    : list clause :=
  eq_user_id (Auth.id user)
  :: (if Js.present status then [eq_status (default "" status)] else []).

(** The route runs behind [authenticateUser] and queries through the
    caller's own client; the query has no range. *)
Definition listings (req_user : option Auth.user) (status : option string)
    (db : database) : response :=
  match req_user with
  | None => {| code := 401; json := unauthenticated |}
  | Some user =>
      let userSupabase := Auth.getSupabaseClient user in
      match select_all userSupabase (listings_query user status) db with
      | Err error => {| code := 400; json := store_error error |}
      | Ok products => {| code := 200; json := own_products products |}
      end
  end.

End Profile.

(** ** Favorites: the routes of [favorites.routes.js] *)

Module Favorites.
Import Store.

(** A row of [favorites]. *)
Record favorite := mkFavorite {
  id : uuid;
  user_id : uuid;
  product_id : uuid;
  created_at : timestamp
}.

#[global] Instance favorite_eq_dec : EqDecision favorite.
Proof. solve_decision. Defined.

(** The tables of the listing routes, and [favorites] beside them. *)
Record tables := mkTables {
  listings : database;
  favorites : list favorite
}.

(** The three policies on [favorites] ("Users can view own favorites",
    "Users can add favorites", "Users can remove own favorites") are
    granted [TO authenticated] with [auth.uid() = user_id]. *)
Definition own_favorite (c : credential) (f : favorite) : bool :=
  match c with
  | service_role => true
  | authenticated u => bool_decide (u = user_id f)
  | anon => false
  end.

(** [UNIQUE(user_id, product_id)], and the primary key. *)
Definition clashes (f g : favorite) : bool :=
  bool_decide (id f = id g)
  || bool_decide (user_id f = user_id g) && bool_decide (product_id f = product_id g).

(** [.from('favorites').insert({ user_id, product_id }).select().single()]:
    [product_id] is text of the request, which the store reads as a
    uuid; then the policy's WITH CHECK, the unique constraints, and the
    foreign keys to [profiles] and [products]. *)
Definition insert_favorite (c : credential) (fresh : uuid)
    (db_now : timestamp) (user : uuid) (product : string) (t : tables)
    : result favorite * tables :=
  match uuid_in product with
  | None => (Err invalid_text_representation, t)
  | Some product =>
      let f := {| id := fresh; user_id := user; product_id := product;
                  created_at := db_now |} in
      if negb (own_favorite c f) then (Err row_level_security_violation, t)
      else if existsb (clashes f) (favorites t) then (Err unique_violation, t)
      else if negb (bool_decide (user ∈ profiles (listings t))
                    && bool_decide
                         (is_Some (products (listings t) !! product)))
      then (Err foreign_key_violation, t)
      else (Ok f, {| listings := listings t; favorites := f :: favorites t |})
  end.

(** The rows of the caller a statement with the two [.eq] filters
    reaches, [product] being the uuid the text of the request reads
    as. *)
Definition reached (c : credential) (user product : uuid) (f : favorite)
    : bool :=
  own_favorite c f
  && String.eqb (user_id f) user && String.eqb (product_id f) product.

(** [.from('favorites').delete().eq('user_id', user)
    .eq('product_id', product)] *)
Definition delete_favorites (c : credential) (user : uuid)
    (product : string) (t : tables) : result unit * tables :=
  match uuid_in product with
  | None => (Err invalid_text_representation, t)
  | Some product =>
      (Ok (),
       {| listings := listings t;
          favorites := filter (λ f, negb (reached c user product f))
                         (favorites t) |})
  end.

(** [.select('id').eq('user_id', user).eq('product_id', product)
    .maybeSingle()] *)
Definition select_favorite (c : credential) (user : uuid)
    (product : string) (t : tables) : result (option favorite) :=
  match uuid_in product with
  | None => Err invalid_text_representation
  | Some product =>
      match filter (λ f, reached c user product f) (favorites t) with
      | [] => Ok None
      | [f] => Ok (Some f)
      | _ => Err not_a_single_row
      end
  end.

Inductive payload :=
| unauthenticated
| validation_errors (fields : list string)
| store_error (e : error)
| error_message (msg : string)
| favorite_added (favorite : favorite)
| favorite_removed
| favorite_checked (isFavorite : bool).

Record response := mkResponse {
  code : Z;
  json : payload
}.

(** [router.post('/')] *)
Definition add (env : Products.environment) (req_user : option Auth.user)
    (product_id : option string) (t : tables) : response * tables :=
  match req_user with
  | None => ({| code := 401; json := unauthenticated |}, t)
  | Some user =>
      match Validator.validationResult
              [("product_id",
                 Validator.required (Products.isUUID env) product_id)] with
      | (_ :: _) as errors =>
          ({| code := 400; json := validation_errors errors |}, t)
      | [] =>
          let userSupabase := Auth.getSupabaseClient user in
          match insert_favorite userSupabase (Products.fresh env)
                  (Products.db_now env) (Auth.id user)
                  (default "" product_id) t with
          | (Err unique_violation, t) =>
              (* error.code === '23505' *)
              ({| code := 400;
                  json := error_message "Product already in favorites" |}, t)
          | (Err e, t) => ({| code := 400; json := store_error e |}, t)
          | (Ok favorite, t) =>
              ({| code := 201; json := favorite_added favorite |}, t)
          end
      end
  end.

(** [router.delete('/:product_id')] *)
Definition remove (req_user : option Auth.user) (product_id : string)
    (t : tables) : response * tables :=
  match req_user with
  | None => ({| code := 401; json := unauthenticated |}, t)
  | Some user =>
      let userSupabase := Auth.getSupabaseClient user in
      match delete_favorites userSupabase (Auth.id user) product_id t with
      | (Err e, t) => ({| code := 400; json := store_error e |}, t)
      | (Ok _, t) => ({| code := 200; json := favorite_removed |}, t)
      end
  end.

(** [router.get('/check/:product_id')]; [!!favorite] *)
Definition check (req_user : option Auth.user) (product_id : string)
    (t : tables) : response :=
  match req_user with
  | None => {| code := 401; json := unauthenticated |}
  | Some user =>
      let userSupabase := Auth.getSupabaseClient user in
      match select_favorite userSupabase (Auth.id user) product_id t with
      | Err e => {| code := 400; json := store_error e |}
      | Ok favorite =>
          {| code := 200;
             json := favorite_checked (bool_decide (is_Some favorite)) |}
      end
  end.

(** [UNIQUE(user_id, product_id)] as a property of the table. *)
Definition pairs_unique (t : tables) : Prop :=
  NoDup ((λ f, (user_id f, product_id f)) <$> favorites t).

End Favorites.

(** ** Conditions the tables are kept in *)

Module Invariant.
Import Store.

#[global] Instance error_eq_dec : EqDecision error.
Proof. solve_decision. Defined.

(** Every row is stored under its own [id] and satisfies the
    constraints of the table. *)
Definition well_formed (db : database) : Prop :=
  map_Forall (λ i p, id p = i ∧ valid_row db p) (products db).

(** Every image belongs to a listing that is in the table
    ([product_id uuid NOT NULL REFERENCES products(id)]). *)
Definition images_attached (db : database) : Prop :=
  Forall (λ im, is_Some (products db !! product_id im)) (product_images db).

#[global] Instance valid_row_dec db p : Decision (valid_row db p).
Proof. unfold valid_row. apply _. Defined.

#[global] Instance well_formed_dec db : Decision (well_formed db).
Proof. unfold well_formed. apply _. Defined.

#[global] Instance images_attached_dec db : Decision (images_attached db).
Proof. unfold images_attached. apply _. Defined.

End Invariant.

(** * Properties of the routes *)

Import Store Products Concurrent.

(** ** What a statement of the store can do to the table *)

(** An UPDATE either leaves the database as it was and returns no row, or
    rewrites the one row in reach and returns it. *)
Lemma update_products_inv c t i w u db r db' :
  update_products c t i w u db = (r, db') →
  (db' = db ∧ ∀ q, r ≠ Ok [q])
  ∨ ∃ p q0,
      products db !! i = Some p
      ∧ public_can_view_active_products c p = true
      ∧ users_can_update_own_products c p = true
      ∧ w p = true
      ∧ apply_patch u p = Ok q0
      ∧ row_error db
          (users_can_update_own_products c (update_updated_at_column t q0))
          (update_updated_at_column t q0) = None
      ∧ r = Ok [update_updated_at_column t q0]
      ∧ db' = with_products
                (<[i := update_updated_at_column t q0]> (products db)) db.
Proof.
  unfold update_products. intros H.
  destruct (products db !! i) as [p|] eqn:Hp;
    [|injection H as <- <-; left; split;
      [done | intros q; unfold no_row; by destruct (bool_decide _)]].
  destruct (public_can_view_active_products c p) eqn:Hsee; simpl in H;
    [|injection H as <- <-; left; split; [done | intros q; discriminate]].
  destruct (users_can_update_own_products c p) eqn:Hown; simpl in H;
    [|injection H as <- <-; left; split; [done | intros q; discriminate]].
  destruct (w p) eqn:Hw;
    [|injection H as <- <-; left; split; [done | intros q; discriminate]].
  destruct (apply_patch u p) as [q0|e] eqn:Hq0;
    [|injection H as <- <-; left; split; [done | intros q; discriminate]].
  destruct (row_error db _ _) as [e|] eqn:He;
    injection H as <- <-.
  - left; split; [done | intros q; discriminate].
  - right. exists p, q0. repeat split; done.
Qed.

(** The row an UPDATE computes keeps every column the patch leaves out. *)
Lemma apply_patch_columns u p q :
  apply_patch u p = Ok q →
  id q = id p
  ∧ uuid_column (user_id p) (u_user_id u) = Ok (user_id q)
  ∧ views q = default (views p) (u_views u)
  ∧ sold_at q = default (sold_at p) (u_sold_at u)
  ∧ (u_status u = None → status q = status p)
  ∧ (∀ s, u_status u = Some s → status_of_text s = Some (status q)).
Proof.
  unfold apply_patch. intros H.
  destruct (uuid_column (user_id p) (u_user_id u)) as [owner|]; [|done].
  destruct (uuid_column (category_id p) (u_category_id u)) as [category|];
    [|done].
  destruct (u_status u) as [s|] eqn:Hs.
  - destruct (status_of_text s) as [st|] eqn:Hst; [|done].
    destruct (match u_condition u with
              | Some s0 => condition_of_text s0
              | None => Some (condition p) end); [|done].
    injection H as <-. simpl. repeat split; try done.
    intros s' [= <-]. done.
  - destruct (match u_condition u with
              | Some s0 => condition_of_text s0
              | None => Some (condition p) end); [|done].
    injection H as <-. simpl. repeat split; done.
Qed.

(** With the session token of a user, an UPDATE reaches only rows of that
    user. *)
Lemma own_row_authenticated uid p :
  own_row (authenticated uid) p = true ↔ uid = user_id p.
Proof. simpl. apply bool_decide_eq_true. Qed.

Lemma row_error_policy db policy p :
  row_error db policy p = None → policy = true.
Proof.
  unfold row_error. intros H.
  destruct (negb _); [done|]. destruct policy; done.
Qed.

(** The store's answer for a key without a row. *)
Lemma no_row_cases {A} i (nothing : A) :
  (is_Some (uuid_in i) ∧ no_row i nothing = Ok nothing)
  ∨ (uuid_in i = None ∧ no_row i nothing = Err invalid_text_representation).
Proof.
  unfold no_row. destruct (uuid_in i) as [k|].
  - left. split; [by eexists|]. by rewrite bool_decide_eq_true_2 by eauto.
  - right. split; [done|]. rewrite bool_decide_eq_false_2; [done|].
    by intros [k ?].
Qed.


Lemma select_product_visible c i db p :
  products db !! i = Some p →
  public_can_view_active_products c p = true →
  select_product c i db = Ok (Some p).
Proof. intros Hp Hsee. unfold select_product. by rewrite Hp, Hsee. Qed.

Lemma String_eqb_true (s t : string) : String.eqb s t = true ↔ s = t.
Proof. apply String.eqb_eq. Qed.

Lemma String_eqb_false (s t : string) : String.eqb s t = false ↔ s ≠ t.
Proof. apply String.eqb_neq. Qed.

(** ** Ownership gates the writes *)

(** An UPDATE through the client of a user who does not own the row, with
    the handler's owner filter, writes nothing and returns no row. *)
Lemma update_products_not_owner user t i u db p :
  products db !! i = Some p →
  Auth.id user ≠ user_id p →
  update_products (Auth.getSupabaseClient user) t i (owned_by user) u db
  = (Ok [], db).
Proof.
  intros Hp Hne. unfold update_products. rewrite Hp.
  replace (owned_by user p) with false; [by rewrite andb_false_r|].
  symmetry. apply String_eqb_false. congruence.
Qed.

(** C4. An Update, SetStatus or Delete by an authenticated caller who is
    not the owner of the listing leaves the whole database, and so every
    field of the listing, as it was.  Update and SetStatus answer 400
    (with the validation errors, or with the store's report that no
    single row came back); Delete answers as if it had deleted, having
    deleted nothing. *)
Theorem writes_by_other_callers_change_nothing
    env (caller : Auth.user) i body status db p :
  products db !! i = Some p →
  Auth.id caller ≠ user_id p →
  ((update env (Some caller) i body db).2 = db
   ∧ code (update env (Some caller) i body db).1 = 400)
  ∧ ((set_status env (Some caller) i status db).2 = db
     ∧ code (set_status env (Some caller) i status db).1 = 400)
  ∧ delete (Some caller) i db
    = ({| code := 200; json := product_deleted |}, db).
Proof.
  intros Hp Hne. repeat split.
  - unfold update, authenticateUser, update_handler.
    destruct (Validator.validationResult _); [|done].
    by rewrite (update_products_not_owner _ _ _ _ _ _ Hp Hne).
  - unfold update, authenticateUser, update_handler.
    destruct (Validator.validationResult _); [|done].
    by rewrite (update_products_not_owner _ _ _ _ _ _ Hp Hne).
  - unfold set_status, authenticateUser, set_status_handler.
    destruct (Validator.validationResult _); [|done].
    by rewrite (update_products_not_owner _ _ _ _ _ _ Hp Hne).
  - unfold set_status, authenticateUser, set_status_handler.
    destruct (Validator.validationResult _); [|done].
    by rewrite (update_products_not_owner _ _ _ _ _ _ Hp Hne).
  - unfold delete, authenticateUser, delete_handler, delete_products.
    rewrite Hp.
    replace (owned_by caller p) with false; [by rewrite andb_false_r|].
    symmetry. apply String_eqb_false. congruence.
Qed.

Lemma writes_by_other_callers_change_nothing_witness :
  ((update Sample.env (Some Sample.bob) Sample.chair_id
      (set_sold_at 5 no_change) Sample.showroom).2 = Sample.showroom
   ∧ code (update Sample.env (Some Sample.bob) Sample.chair_id
             (set_sold_at 5 no_change) Sample.showroom).1 = 400)
  ∧ ((set_status Sample.env (Some Sample.bob) Sample.chair_id
        (Some "archived") Sample.showroom).2 = Sample.showroom
     ∧ code (set_status Sample.env (Some Sample.bob) Sample.chair_id
               (Some "archived") Sample.showroom).1 = 400)
  ∧ delete (Some Sample.bob) Sample.chair_id Sample.showroom
    = ({| code := 200; json := product_deleted |}, Sample.showroom).
Proof.
  apply (writes_by_other_callers_change_nothing Sample.env Sample.bob
           Sample.chair_id (set_sold_at 5 no_change) (Some "archived")
           Sample.showroom (Sample.chair Active None)).
  - vm_compute. reflexivity.
  - vm_compute. discriminate.
Defined.

(** ** Reading one listing *)

Lemma status_text_active s :
  String.eqb (status_text s) "active" = true ↔ s = Active.
Proof. destruct s; simpl; split; (done || discriminate). Qed.

Lemma permitted_or_not caller p :
  Spec.permitted caller p ∨ ¬ Spec.permitted caller p.
Proof.
  unfold Spec.permitted.
  destruct (decide (status p = Active)) as [|Hna]; [by left; left|].
  destruct caller as [u|].
  - destruct (decide (Auth.id u = user_id p)) as [|Hne].
    + left. right. by exists u.
    + right. intros [?|(u' & [= <-] & ?)]; done.
  - right. intros [?|(u' & [=] & ?)]. done.
Qed.

(** The access decision of the read route is the visibility rule. *)
Lemma read_fetch_decision env req_user i db p :
  select_product (supabase env) i db = Ok (Some p) →
  (Spec.permitted req_user p → read_fetch env req_user i db = holding p)
  ∧ (¬ Spec.permitted req_user p →
     read_fetch env req_user i db
     = responded {| code := 403; json := error_message "Access denied" |}).
Proof.
  intros Hsel. unfold read_fetch. rewrite Hsel.
  destruct (String.eqb (status_text (status p)) "active") eqn:Hact.
  { apply status_text_active in Hact. split; [done|].
    intros Hno. destruct Hno. by left. }
  assert (status p ≠ Active) as Hna.
  { intros Heq. apply status_text_active in Heq. congruence. }
  destruct req_user as [u|]; simpl.
  - destruct (String.eqb (user_id p) (Auth.id u)) eqn:Hown; simpl.
    + apply String_eqb_true in Hown. split; [done|].
      intros Hno. destruct Hno. right. by exists u.
    + apply String_eqb_false in Hown. split; [|done].
      intros [?|(u' & [= <-] & Heq)]; congruence.
  - split; [|done]. intros [?|(u' & [=] & _)]. congruence.
Qed.

(** X19. The answers of the read route, by what the store returns to
    the shared client.  For a row it returns, the read succeeds exactly
    when the listing is Active or the caller is its owner; any other
    caller, anonymous ones included, gets 403 'Access denied' and the
    database is not touched.  404 'Product not found' is the answer when
    the store returns no row, and only then.  An id that is no uuid, and
    so the key of no row, is answered 400 with the store's error. *)
Theorem read_access env req_user i db :
  (∀ p, select_product (supabase env) i db = Ok (Some p) →
     (code (read env req_user i db).1 = 200 ↔ Spec.permitted req_user p)
     ∧ (Spec.permitted req_user p →
        (read env req_user i db).1
        = {| code := 200;
             json := product_read (with_views (views p + 1) p) |})
     ∧ (¬ Spec.permitted req_user p →
        read env req_user i db
        = ({| code := 403; json := error_message "Access denied" |}, db)))
  ∧ (select_product (supabase env) i db = Ok None →
     read env req_user i db
     = ({| code := 404; json := error_message "Product not found" |}, db))
  ∧ (code (read env req_user i db).1 = 404 →
     select_product (supabase env) i db = Ok None)
  ∧ (products db !! i = None → uuid_in i = None →
     read env req_user i db
     = ({| code := 400; json := store_error invalid_text_representation |},
        db)).
Proof.
  split; [|split; [|split]]; cycle 3.
  { intros Hnone Hbad. unfold read, read_fetch, select_product.
    rewrite Hnone.
    destruct (no_row_cases i (@None product)) as [[[k Hk] _]|[_ ->]];
      [congruence | done]. }
  - intros p Hsel.
    destruct (read_fetch_decision env req_user i db p Hsel) as [Hyes Hno].
    assert (Spec.permitted req_user p →
            (read env req_user i db).1
            = {| code := 200;
                 json := product_read (with_views (views p + 1) p) |}) as Hok.
    { intros Hp. unfold read. by rewrite (Hyes Hp). }
    assert (¬ Spec.permitted req_user p →
            read env req_user i db
            = ({| code := 403; json := error_message "Access denied" |}, db))
      as Hden.
    { intros Hp. unfold read. by rewrite (Hno Hp). }
    split; [|by split].
    split.
    + intros Hcode.
      destruct (permitted_or_not req_user p) as [Hp|Hp]; [done|].
      rewrite (Hden Hp) in Hcode. discriminate.
    + intros Hp. by rewrite (Hok Hp).
  - intros Hsel. unfold read, read_fetch. by rewrite Hsel.
  - unfold read, read_fetch.
    destruct (select_product (supabase env) i db) as [[p|]|e];
      [|done|discriminate].
    destruct (_ && _); discriminate.
Qed.

Lemma read_access_witness :
  (read Sample.env (Some Sample.alice) Sample.chair_id Sample.after_sale).1
  = {| code := 200;
       json := product_read
                 (with_views 8 (Sample.chair Sold (Some 100))) |}
  ∧ read Sample.env (Some Sample.bob) Sample.chair_id Sample.after_sale
    = ({| code := 403; json := error_message "Access denied" |},
       Sample.after_sale)
  ∧ read Sample.env None Sample.lamp_id Sample.after_sale
    = ({| code := 404; json := error_message "Product not found" |},
       Sample.after_sale)
  ∧ read Sample.env None "chair" Sample.after_sale
    = ({| code := 400; json := store_error invalid_text_representation |},
       Sample.after_sale).
Proof.
  split; [|split; [|split]]; cycle 3.
  { apply (proj2 (proj2 (proj2 (read_access Sample.env None "chair"
                                  Sample.after_sale)))); reflexivity. }
  - apply (proj1 (read_access Sample.env (Some Sample.alice)
                    Sample.chair_id Sample.after_sale)
             (Sample.chair Sold (Some 100))).
    + vm_compute. reflexivity.
    + right. exists Sample.alice. split; reflexivity.
  - apply (proj1 (read_access Sample.env (Some Sample.bob)
                    Sample.chair_id Sample.after_sale)
             (Sample.chair Sold (Some 100))).
    + vm_compute. reflexivity.
    + intros [H|(u & [= <-] & H)]; vm_compute in H; discriminate.
  - apply (proj1 (proj2 (read_access Sample.env None
                           Sample.lamp_id Sample.after_sale))).
    vm_compute. reflexivity.
Defined.

(** ** The view counter *)

Lemma apply_views_patch n p :
  apply_patch (views_patch n) p = Ok (with_views n p).
Proof. reflexivity. Qed.

Lemma own_row_counted c env product stored :
  own_row c (counted env product stored) = own_row c stored.
Proof. reflexivity. Qed.


(** It does store [counted] when the shared client may see and write the
    row in the table and the new row passes the table's constraints. *)
Lemma read_count_stores env i product db stored :
  products db !! i = Some stored →
  public_can_view_active_products (supabase env) stored = true →
  users_can_update_own_products (supabase env) stored = true →
  valid_row db (counted env product stored) →
  (read_count env i product db).2
  = with_products (<[i := counted env product stored]> (products db)) db.
Proof.
  intros Hp Hsee Hown Hvalid. unfold read_count, update_products.
  rewrite Hp, Hsee, Hown. cbn [andb]. rewrite apply_views_patch.
  change (update_updated_at_column (db_now env)
            (with_views (views product + 1) stored))
    with (counted env product stored).
  unfold users_can_update_own_products in *.
  rewrite own_row_counted, Hown. unfold valid_row in Hvalid.
  by rewrite Hvalid.
Qed.




(** *** The row is read through the shared client *)

Lemma select_product_hidden c i db p :
  products db !! i = Some p →
  public_can_view_active_products c p = false →
  select_product c i db = Ok None.
Proof. intros Hp Hsee. unfold select_product. by rewrite Hp, Hsee. Qed.

(** With her own session a user is shown her own rows. *)
Lemma own_rows_are_shown (u : Auth.user) p :
  Auth.id u = user_id p →
  public_can_view_active_products (Auth.getSupabaseClient u) p = true.
Proof.
  intros Hu. simpl. apply orb_true_intro. right.
  apply bool_decide_eq_true. by rewrite Hu.
Qed.

(** C3.  The read route fetches the row through the shared client, not
    through the caller's (as the write routes and the route of the
    caller's own listings do), and row-level security shows that client
    a listing that is not Active only when it carries the session of the
    owner.  So when the shared client holds the anonymous key, or the
    session of another user, a listing that is in the table and not
    Active is answered 404 'Product not found' to every caller: the
    owner, whom the visibility rule permits and whose own client would
    be shown the row, is not served, and nobody is answered 403. *)
Theorem read_of_a_hidden_listing env req_user i db p :
  products db !! i = Some p →
  status p ≠ Active →
  supabase env = anon
  ∨ (∃ v, supabase env = authenticated v ∧ v ≠ user_id p) →
  read env req_user i db
  = ({| code := 404; json := error_message "Product not found" |}, db)
  ∧ ∀ owner : Auth.user,
      req_user = Some owner → Auth.id owner = user_id p →
      Spec.permitted req_user p
      ∧ select_product (Auth.getSupabaseClient owner) i db = Ok (Some p).
Proof.
  intros Hp Hna Hclient.
  assert (public_can_view_active_products (supabase env) p = false) as Hsee.
  { destruct Hclient as [->|(v & -> & Hv)]; simpl;
      rewrite bool_decide_eq_false_2 by done; simpl;
      [done | apply bool_decide_eq_false; congruence]. }
  split.
  - unfold read, read_fetch.
    by rewrite (select_product_hidden _ _ _ _ Hp Hsee).
  - intros owner -> Howner. split.
    + right. by exists owner.
    + apply select_product_visible; [done|]. by apply own_rows_are_shown.
Qed.

Lemma read_of_a_hidden_listing_witness :
  products Sample.workshop !! Sample.lamp_id = Some Sample.lamp
  ∧ read Sample.env_anon (Some Sample.alice) Sample.lamp_id Sample.workshop
    = ({| code := 404; json := error_message "Product not found" |},
       Sample.workshop)
  ∧ Spec.permitted (Some Sample.alice) Sample.lamp
  ∧ select_product (Auth.getSupabaseClient Sample.alice) Sample.lamp_id
      Sample.workshop
    = Ok (Some Sample.lamp).
Proof.
  pose proof (read_of_a_hidden_listing Sample.env_anon (Some Sample.alice)
                Sample.lamp_id Sample.workshop Sample.lamp) as H.
  destruct H as [Hread Howner].
  - vm_compute. reflexivity.
  - discriminate.
  - left. reflexivity.
  - destruct (Howner Sample.alice eq_refl eq_refl) as [Hperm Hsel].
    split; [vm_compute; reflexivity|]. split; [exact Hread|].
    split; [exact Hperm | exact Hsel].
Defined.

(** With the shared client on the anonymous key no UPDATE policy applies
    to it: the read answers with the raised count and stores nothing. *)
Example read_through_anonymous_client :
  read Sample.env_anon None Sample.chair_id Sample.showroom
  = ({| code := 200;
        json := product_read (with_views 8 (Sample.chair Active None)) |},
     Sample.showroom).
Proof. vm_compute. reflexivity. Qed.

(** *** Reads that overlap *)

Lemma valid_row_counted env db db' product stored :
  categories db' = categories db →
  profiles db' = profiles db →
  valid_row db stored →
  - 2147483648 ≤ views product + 1 ≤ 2147483647 →
  valid_row db' (counted env product stored).
Proof.
  unfold valid_row, row_error. intros -> -> H Hrange. simpl.
  destruct (int4 (views stored) && numeric_10_2 (price stored)) eqn:Hty;
    [|done].
  apply andb_prop in Hty as [_ Hprice]. rewrite Hprice.
  replace (int4 (views product + 1)) with true; [done|].
  symmetry. unfold int4. apply andb_true_intro. split; apply Z.leb_le; lia.
Qed.

Lemma valid_row_int4 db p : valid_row db p → int4 (views p) = true.
Proof.
  unfold valid_row, row_error. intros H.
  destruct (int4 (views p)); [done|]. simpl in H. done.
Qed.

Lemma permitted_counted req_user env product stored :
  Spec.permitted req_user stored →
  Spec.permitted req_user (counted env product stored).
Proof. done. Qed.

(** Reads that run one after the other are all answered 200 and each
    raises the stored counter by one. *)
Lemma reads_in_turn n : ∀ env req_user i db p,
  products db !! i = Some p →
  public_can_view_active_products (supabase env) p = true →
  users_can_update_own_products (supabase env) p = true →
  Spec.permitted req_user p →
  valid_row db p →
  views p + Z.of_nat n ≤ 2147483647 →
  Forall (λ r, code r = 200) (reads n env req_user i db).1
  ∧ length (reads n env req_user i db).1 = n
  ∧ views <$> products (reads n env req_user i db).2 !! i
    = Some (views p + Z.of_nat n).
Proof.
  induction n as [|n IH]; intros env req_user i db p Hp Hsee Hown Hperm Hv Hmax.
  { simpl. rewrite Hp. simpl. repeat split; [constructor|].
    f_equal. lia. }
  pose proof (valid_row_int4 _ _ Hv) as Hint.
  unfold int4 in Hint. apply andb_prop in Hint as [Hlo _].
  apply Z.leb_le in Hlo.
  assert (read_fetch env req_user i db = holding p) as Hfetch.
  { apply read_fetch_decision; [by apply select_product_visible | done]. }
  assert (valid_row db (counted env p p)) as Hv'.
  { apply (valid_row_counted env db db p p); try done. lia. }
  assert (read env req_user i db = read_count env i p db) as Hread.
  { unfold read. by rewrite Hfetch. }
  pose proof (read_count_stores env i p db p Hp Hsee Hown Hv') as Hstore.
  simpl. rewrite Hread.
  destruct (read_count env i p db) as [r db1] eqn:Hcount.
  assert (code r = 200) as Hresp.
  { unfold read_count in Hcount. by injection Hcount as <- _. }
  simpl in Hstore. subst db1.
  set (db1 := with_products (<[i := counted env p p]> (products db)) db).
  specialize (IH env req_user i db1 (counted env p p)).
  destruct (reads n env req_user i db1) as [rs db2] eqn:Hreads.
  simpl in IH |- *.
  destruct IH as (Hall & Hlen & Hviews).
  - subst db1. simpl. apply lookup_insert_eq.
  - done.
  - done.
  - by apply permitted_counted.
  - apply (valid_row_counted env db db1 p p); try done. lia.
  - simpl. lia.
  - repeat split.
    + constructor; [done|exact Hall].
    + by rewrite Hlen.
    + rewrite Hviews. simpl. f_equal. lia.
Qed.

(** C2, as the specification states it, does not hold: two reads of the
    chair (7 views) whose store calls interleave, both answered 200,
    leave the counter at 8, not at 9. *)
Lemma two_overlapping_reads_count_once :
  outcome <$> (run Sample.env [0; 1; 0; 1]%nat
                 [arrived None Sample.chair_id;
                  arrived (Some Sample.bob) Sample.chair_id]
                 Sample.showroom).1
  = [Some 200; Some 200]
  ∧ views <$> products Sample.showroom !! Sample.chair_id = Some 7
  ∧ views <$> products
                (run Sample.env [0; 1; 0; 1]%nat
                   [arrived None Sample.chair_id;
                    arrived (Some Sample.bob) Sample.chair_id]
                   Sample.showroom).2 !! Sample.chair_id
    = Some 8.
Proof. vm_compute. repeat split; reflexivity. Qed.

(** C2, amended.  The counter is raised by writing back the value the
    handler read earlier plus one: the second store call of a read
    stores [views] of the row it holds plus one over whatever the table
    holds by then.  Reads that do not overlap, each answered before the
    next starts, are all answered 200 and raise the counter by their
    number, as long as the shared client may see and write the row and
    the counter stays within its column. *)
Theorem view_count_is_written_back :
  (∀ env i held db stored,
     products db !! i = Some stored →
     public_can_view_active_products (supabase env) stored = true →
     users_can_update_own_products (supabase env) stored = true →
     valid_row db (counted env held stored) →
     advance env (counting i held) db
     = (answered {| code := 200;
                    json := product_read (with_views (views held + 1) held) |},
        with_products (<[i := counted env held stored]> (products db)) db)
     ∧ views (counted env held stored) = views held + 1)
  ∧ (∀ n env req_user i db p,
       products db !! i = Some p →
       public_can_view_active_products (supabase env) p = true →
       users_can_update_own_products (supabase env) p = true →
       Spec.permitted req_user p →
       valid_row db p →
       views p + Z.of_nat n ≤ 2147483647 →
       Forall (λ r, code r = 200) (reads n env req_user i db).1
       ∧ length (reads n env req_user i db).1 = n
       ∧ views <$> products (reads n env req_user i db).2 !! i
         = Some (views p + Z.of_nat n)).
Proof.
  split.
  - intros env i held db stored Hp Hsee Hown Hvalid. split; [|done].
    unfold advance.
    pose proof (read_count_stores env i held db stored Hp Hsee Hown Hvalid)
      as Hstore.
    destruct (read_count env i held db) as [r db'] eqn:Hcount.
    simpl in Hstore. subst db'.
    unfold read_count in Hcount. by injection Hcount as <- _.
  - intros n env req_user i db p. apply reads_in_turn.
Qed.

Lemma view_count_is_written_back_witness :
  (advance Sample.env
     (counting Sample.chair_id (with_views 3 (Sample.chair Active None)))
     Sample.showroom).1
  = answered
      {| code := 200;
         json := product_read (with_views 4 (Sample.chair Active None)) |}
  ∧ views <$> products
                (reads 3 Sample.env None Sample.chair_id
                   Sample.showroom).2 !! Sample.chair_id
    = Some 10.
Proof.
  split.
  - pose proof (proj1 view_count_is_written_back Sample.env Sample.chair_id
                  (with_views 3 (Sample.chair Active None)) Sample.showroom
                  (Sample.chair Active None)) as H.
    destruct H as [H _];
      [vm_compute; reflexivity | vm_compute; reflexivity
      | vm_compute; reflexivity | vm_compute; reflexivity |].
    rewrite H. reflexivity.
  - pose proof (proj2 view_count_is_written_back 3%nat Sample.env None
                  Sample.chair_id Sample.showroom
                  (Sample.chair Active None)) as H.
    destruct H as (_ & _ & H);
      [vm_compute; reflexivity | vm_compute; reflexivity
      | vm_compute; reflexivity | left; reflexivity
      | vm_compute; reflexivity | vm_compute; discriminate |].
    exact H.
Defined.

(** ** What the update routes write *)

(** The update route changes the database only through one UPDATE, made
    with the caller's own client, the owner filter and the stamped
    body. *)
Lemma update_writes env req_user i body db :
  (update env req_user i body db).2 = db
  ∨ ∃ user,
      req_user = Some user
      ∧ (update env req_user i body db).2
        = (update_products (Auth.getSupabaseClient user) (db_now env) i
             (owned_by user) (stamp env (update_sanitized body)) db).2.
Proof.
  unfold update, authenticateUser.
  destruct req_user as [user|]; [|by left].
  unfold update_handler.
  destruct (Validator.validationResult _); [|by left].
  right. exists user. split; [done|].
  destruct (update_products _ _ _ _ _ _) as [rows db'].
  by destruct (single rows).
Qed.

Lemma set_status_writes env req_user i status db :
  (set_status env req_user i status db).2 = db
  ∨ ∃ user,
      req_user = Some user
      ∧ (set_status env req_user i status db).2
        = (update_products (Auth.getSupabaseClient user) (db_now env) i
             (owned_by user) (status_updates env status) db).2.
Proof.
  unfold set_status, authenticateUser.
  destruct req_user as [user|]; [|by left].
  unfold set_status_handler.
  destruct (Validator.validationResult _); [|by left].
  right. exists user. split; [done|].
  destruct (update_products _ _ _ _ _ _) as [rows db'].
  by destruct (single rows).
Qed.

(** After an UPDATE the row at the key is the old one, or the patched
    one with the trigger's [updated_at]. *)
Lemma update_products_row c t i w u db p :
  products db !! i = Some p →
  products (update_products c t i w u db).2 !! i = Some p
  ∨ ∃ q0,
      apply_patch u p = Ok q0
      ∧ products (update_products c t i w u db).2 !! i
        = Some (update_updated_at_column t q0)
      ∧ users_can_update_own_products c p = true
      ∧ users_can_update_own_products c (update_updated_at_column t q0)
        = true.
Proof.
  intros Hp.
  destruct (update_products c t i w u db) as [r db'] eqn:Hup. simpl.
  apply update_products_inv in Hup
    as [[-> _]|(p' & q0 & Hp' & _ & Hown & _ & Hq0 & Herr & _ & ->)];
    [by left|].
  right. exists q0. rewrite Hp in Hp'. injection Hp' as <-.
  repeat split; try done.
  - simpl. apply lookup_insert_eq.
  - by apply row_error_policy in Herr.
Qed.

(** Rows at other keys are not touched. *)
Lemma update_products_other c t i w u db j :
  j ≠ i →
  products (update_products c t i w u db).2 !! j = products db !! j.
Proof.
  intros Hne.
  destruct (update_products c t i w u db) as [r db'] eqn:Hup. simpl.
  apply update_products_inv in Hup
    as [[-> _]|(p' & q0 & _ & _ & _ & _ & _ & _ & _ & ->)]; [done|].
  simpl. by apply lookup_insert_ne.
Qed.

Lemma sold_at_updated t q : sold_at (update_updated_at_column t q) = sold_at q.
Proof. done. Qed.

(** An UPDATE whose patch has no [sold_at] keeps the column. *)
Lemma update_products_keeps_sold_at c t i w u db p :
  products db !! i = Some p →
  u_sold_at u = None →
  sold_at <$> products (update_products c t i w u db).2 !! i
  = Some (sold_at p).
Proof.
  intros Hp Hnone.
  destruct (update_products_row c t i w u db p Hp)
    as [->|(q0 & Hq0 & -> & _)]; [done|].
  simpl. apply apply_patch_columns in Hq0 as (_ & _ & _ & Hsold & _).
  rewrite Hsold, Hnone. done.
Qed.

Lemma status_updates_sold_at env status :
  u_sold_at (status_updates env status)
  = if is_sold status then Some (Some (now env)) else None.
Proof. unfold status_updates. by destruct (is_sold status). Qed.

Lemma stamp_sold_at env body :
  is_sold (u_status body) = false →
  u_sold_at (stamp env (update_sanitized body)) = u_sold_at body.
Proof. intros H. unfold stamp. simpl. by rewrite H. Qed.

(** C1, as the specification states it, does not hold: the chair was
    sold at time 100; setting its status to 'sold' again at time 200
    stores 200 as its sale time, and an update whose body carries
    [sold_at: null] clears it. *)
Lemma selling_again_restamps_sold_at :
  sold_at <$> products Sample.after_sale !! Sample.chair_id
  = Some (Some 100)
  ∧ sold_at <$> products
                  (set_status Sample.env (Some Sample.alice) Sample.chair_id
                     (Some "sold") Sample.after_sale).2 !! Sample.chair_id
    = Some (Some 200)
  ∧ sold_at <$> products
                  (update Sample.env (Some Sample.alice) Sample.chair_id
                     Sample.null_sold_at Sample.after_sale).2
                !! Sample.chair_id
    = Some None.
Proof. vm_compute. repeat split; reflexivity. Qed.

(** C1, amended.  A SetStatus to a status other than 'sold', and an
    Update whose body neither sets the status to 'sold' nor carries a
    [sold_at] field, leave [sold_at] as it was, whoever calls and
    whether or not the call succeeds; so Sold -> Archived keeps the sale
    time.  A SetStatus never clears the column: after it the sale time
    is the old one or, when the status was set to 'sold' again, the time
    of that call. *)
Theorem sold_at_is_kept env req_user i db p :
  products db !! i = Some p →
  (∀ status, is_sold status = false →
     sold_at <$> products (set_status env req_user i status db).2 !! i
     = Some (sold_at p))
  ∧ (∀ body, is_sold (u_status body) = false → u_sold_at body = None →
     sold_at <$> products (update env req_user i body db).2 !! i
     = Some (sold_at p))
  ∧ (∀ status,
       sold_at <$> products (set_status env req_user i status db).2 !! i
       = Some (sold_at p)
       ∨ (is_sold status = true
          ∧ sold_at <$> products (set_status env req_user i status db).2 !! i
            = Some (Some (now env)))).
Proof.
  intros Hp. split; [|split].
  - intros status Hns.
    destruct (set_status_writes env req_user i status db)
      as [->|(user & _ & ->)]; [by rewrite Hp|].
    apply update_products_keeps_sold_at; [done|].
    by rewrite status_updates_sold_at, Hns.
  - intros body Hns Hnone.
    destruct (update_writes env req_user i body db)
      as [->|(user & _ & ->)]; [by rewrite Hp|].
    apply update_products_keeps_sold_at; [done|].
    by rewrite stamp_sold_at.
  - intros status.
    destruct (set_status_writes env req_user i status db)
      as [->|(user & _ & ->)]; [left; by rewrite Hp|].
    destruct (update_products_row (Auth.getSupabaseClient user) (db_now env)
                i (owned_by user) (status_updates env status) db p Hp)
      as [->|(q0 & Hq0 & -> & _)]; [by left|].
    simpl. apply apply_patch_columns in Hq0 as (_ & _ & _ & Hsold & _).
    rewrite Hsold, status_updates_sold_at.
    destruct (is_sold status); [by right | by left].
Qed.

Lemma sold_at_is_kept_witness :
  sold_at <$> products
                (set_status Sample.env (Some Sample.alice) Sample.chair_id
                   (Some "archived") Sample.after_sale).2 !! Sample.chair_id
  = Some (Some 100).
Proof.
  apply (proj1 (sold_at_is_kept Sample.env (Some Sample.alice)
                  Sample.chair_id Sample.after_sale
                  (Sample.chair Sold (Some 100)) eq_refl)).
  reflexivity.
Defined.

(** ** The owner of a listing *)

(** An UPDATE keeps the owner of every row when its patch has no
    [user_id], and also when it is made with the session token of a
    user: the policy "Users can update own products" allows the old row
    (USING) and the new one (WITH CHECK) only with that user as owner. *)
Lemma update_products_keeps_owner c t i w u db j p :
  u_user_id u = None ∨ (∃ uid, c = authenticated uid) →
  products db !! j = Some p →
  ∃ p', products (update_products c t i w u db).2 !! j = Some p'
        ∧ user_id p' = user_id p.
Proof.
  intros Hcase Hp.
  destruct (decide (j = i)) as [->|Hne];
    [|exists p; by rewrite update_products_other].
  destruct (update_products_row c t i w u db p Hp)
    as [->|(q0 & Hq0 & -> & Hold & Hnew)]; [by exists p|].
  eexists. split; [done|]. simpl.
  destruct Hcase as [Hnone|[uid ->]].
  - apply apply_patch_columns in Hq0 as (_ & Hu & _).
    rewrite Hnone in Hu. simpl in Hu. by injection Hu as <-.
  - apply own_row_authenticated in Hold, Hnew. simpl in Hnew. congruence.
Qed.

(** C8. No Update changes the owner of a listing, whatever its body
    holds, a [user_id] field included: every listing is still there
    afterwards, with the owner it had.  The same holds for SetStatus and
    for the write of the view counter by Read. *)
Theorem owner_never_changes env req_user i body status db j p :
  products db !! j = Some p →
  (∃ p', products (update env req_user i body db).2 !! j = Some p'
         ∧ user_id p' = user_id p)
  ∧ (∃ p', products (set_status env req_user i status db).2 !! j = Some p'
           ∧ user_id p' = user_id p)
  ∧ (∃ p', products (read env req_user i db).2 !! j = Some p'
           ∧ user_id p' = user_id p).
Proof.
  intros Hp. split; [|split].
  - destruct (update_writes env req_user i body db)
      as [->|(user & _ & ->)]; [by exists p|].
    apply update_products_keeps_owner; [|done].
    right. by exists (Auth.id user).
  - destruct (set_status_writes env req_user i status db)
      as [->|(user & _ & ->)]; [by exists p|].
    apply update_products_keeps_owner; [|done].
    right. by exists (Auth.id user).
  - unfold read. destruct (read_fetch env req_user i db) as [r|held];
      [by exists p|].
    unfold read_count. simpl.
    apply update_products_keeps_owner; [by left | done].
Qed.

Lemma owner_never_changes_witness :
  ∃ p', products
          (update Sample.env (Some Sample.alice) Sample.chair_id
             (Sample.give_to Sample.bob) Sample.showroom).2
        !! Sample.chair_id = Some p'
        ∧ user_id p' = Auth.id Sample.alice.
Proof.
  apply (proj1 (owner_never_changes Sample.env (Some Sample.alice)
                  Sample.chair_id (Sample.give_to Sample.bob) None
                  Sample.showroom Sample.chair_id
                  (Sample.chair Active None) eq_refl)).
Defined.

(** The store refuses the update that would hand the chair to Bob. *)
Example giving_a_listing_away_is_refused :
  update Sample.env (Some Sample.alice) Sample.chair_id
    (Sample.give_to Sample.bob) Sample.showroom
  = ({| code := 400; json := store_error row_level_security_violation |},
     Sample.showroom).
Proof. vm_compute. reflexivity. Qed.

(** ** Validation results *)

Lemma validationResult_nil chains :
  Validator.validationResult chains = [] →
  ∀ name ok, (name, ok) ∈ chains → ok = true.
Proof.
  unfold Validator.validationResult. intros Hnil name ok Hin.
  destruct ok; [done|].
  assert (name ∈ (filter (λ c : string * bool, negb c.2) chains).*1) as H.
  { apply list_elem_of_fmap. exists (name, false). split; [done|].
    apply list_elem_of_filter. by split. }
  rewrite Hnil in H. by apply not_elem_of_nil in H.
Qed.

Lemma validationResult_failed chains name :
  (name, false) ∈ chains → name ∈ Validator.validationResult chains.
Proof.
  intros Hin. unfold Validator.validationResult.
  apply list_elem_of_fmap. exists (name, false). split; [done|].
  apply list_elem_of_filter. by split.
Qed.

(** ** Creating a listing *)

Lemma status_of_text_inv s st :
  status_of_text s = Some st → status_text st = s.
Proof.
  unfold status_of_text. intros H.
  repeat (destruct (String.eqb s _) eqn:Heq;
          [apply String_eqb_true in Heq; by simplify_eq|clear Heq]).
  done.
Qed.

Lemma insert_product_inv c fresh t v db p db' :
  insert_product c fresh t v db = (Ok p, db') →
  new_row fresh t v = Ok p
  ∧ products db !! fresh = None
  ∧ public_can_view_active_products c p = true
  ∧ db' = with_products (<[fresh := p]> (products db)) db.
Proof.
  unfold insert_product. intros H.
  destruct (new_row fresh t v) as [q|e]; [|done].
  destruct (row_error db _ q); [done|].
  destruct (products db !! fresh) eqn:Hfresh; [done|].
  destruct (public_can_view_active_products c q) eqn:Hsee; [|done].
  by simplify_eq.
Qed.

Lemma new_row_columns fresh t v p :
  new_row fresh t v = Ok p →
  id p = fresh ∧ user_id p = n_user_id v ∧ views p = 0
  ∧ sold_at p = None ∧ status_of_text (n_status v) = Some (status p).
Proof.
  unfold new_row. intros H.
  destruct (uuid_in (n_category_id v)) as [category|]; [|done].
  destruct (status_of_text (n_status v)) as [st|]; [|done].
  destruct (condition_of_text (n_condition v)); [|done].
  by simplify_eq.
Qed.

Lemma insert_images_products c records db :
  products (insert_images c records db).2 = products db.
Proof. unfold insert_images. by destruct (forallb _ _). Qed.

Lemma isIn_draft_active s :
  Validator.isIn ["draft"; "active"] s = true → s = "draft" ∨ s = "active".
Proof.
  unfold Validator.isIn. simpl. intros H.
  destruct (String.eqb s "draft") eqn:H1;
    [left; by apply String_eqb_true|].
  destruct (String.eqb s "active") eqn:H2;
    [right; by apply String_eqb_true|].
  done.
Qed.

(** C5. A create that succeeds (201) answers with the new listing, which
    was not in the table before and is in it afterwards: its owner is
    the caller, its view count is 0, its sale time is null, and its
    status is the one requested, or Draft when the request names none.
    A request for any status other than 'draft' and 'active', so for
    'sold' and for 'archived', is rejected with a validation error and
    stores nothing. *)
Theorem create_result env (caller : Auth.user) body db :
  (∀ r, (create env (Some caller) body db).1
        = {| code := 201; json := product_created r |} →
     ∃ p, r = Some p
          ∧ products db !! id p = None
          ∧ products (create env (Some caller) body db).2 !! id p = Some p
          ∧ user_id p = Auth.id caller
          ∧ views p = 0
          ∧ sold_at p = None
          ∧ match c_status body with
            | Some s => status_text (status p) = s
            | None => status p = Draft
            end)
  ∧ (∀ s, c_status body = Some s → s ≠ "draft" → s ≠ "active" →
     ∃ errors,
       create env (Some caller) body db
       = ({| code := 400; json := validation_errors errors |}, db)
       ∧ "status" ∈ errors).
Proof.
  split.
  - intros r. unfold create, authenticateUser, create_handler.
    destruct (Validator.validationResult _) as [|e errs] eqn:Hval;
      [|discriminate].
    assert (Validator.optional (Validator.isIn ["draft"; "active"])
              (c_status body) = true) as Hstatus.
    { apply (validationResult_nil _ Hval "status").
      unfold create_chains. simpl. rewrite !elem_of_cons.
      do 7 right. by left. }
    destruct (insert_product _ _ _ _ _) as [[p|e] db1] eqn:Hins;
      [|discriminate].
    apply insert_product_inv in Hins as (Hrow & Hfresh & Hsee & ->).
    apply new_row_columns in Hrow as (Hid & Huser & Hviews & Hsold & Hst).
    simpl in Huser, Hst.
    set (db1 := with_products (<[fresh env := p]> (products db)) db).
    set (db2 := match c_images (create_sanitized body) with
                | Some ((_ :: _) as images) =>
                    (insert_images (Auth.getSupabaseClient caller)
                       (imageRecords (id p) images) db1).2
                | _ => db1
                end).
    assert (products db2 = <[fresh env := p]> (products db)) as Hdb2.
    { subst db2. destruct (c_images _) as [[|]|]; try done.
      by rewrite insert_images_products. }
    assert (select_product (Auth.getSupabaseClient caller) (id p) db2
            = Ok (Some p)) as Hsel.
    { apply select_product_visible; [|done].
      rewrite Hdb2, Hid. apply lookup_insert_eq. }
    simpl. rewrite Hsel. intros [= <-].
    exists p. repeat split; try done.
    + by rewrite Hid.
    + rewrite Hdb2, Hid. apply lookup_insert_eq.
    + destruct (c_status body) as [s|] eqn:Hs; simpl in Hst, Hstatus.
      * apply isIn_draft_active in Hstatus as [->| ->];
          simpl in Hst; injection Hst as Hst; by rewrite <- Hst.
      * simpl in Hst. by injection Hst as Hst.
  - intros s Hs Hnd Hna. unfold create, authenticateUser, create_handler.
    assert ("status" ∈ Validator.validationResult
                         (create_chains env (create_sanitized body))) as Hin.
    { apply validationResult_failed. unfold create_chains. simpl.
      rewrite Hs. simpl.
      replace (String.eqb s "draft") with false
        by (symmetry; by apply String_eqb_false).
      replace (String.eqb s "active") with false
        by (symmetry; by apply String_eqb_false).
      simpl. rewrite !elem_of_cons. do 7 right. by left. }
    destruct (Validator.validationResult _) as [|e errs];
      [by apply not_elem_of_nil in Hin|].
    by exists (e :: errs).
Qed.

Lemma create_result_witness :
  (∃ p, Some p = Some p
        ∧ products Sample.empty_shop !! id p = None
        ∧ products (create Sample.env (Some Sample.alice) Sample.desk
                      Sample.empty_shop).2 !! id p = Some p
        ∧ user_id p = Auth.id Sample.alice
        ∧ views p = 0
        ∧ sold_at p = None
        ∧ status p = Draft)
  ∧ (∃ errors,
       create Sample.env (Some Sample.alice)
         (Sample.desk_with_status "sold") Sample.empty_shop
       = ({| code := 400; json := validation_errors errors |},
          Sample.empty_shop)
       ∧ "status" ∈ errors).
Proof.
  split.
  - destruct (proj1 (create_result Sample.env Sample.alice Sample.desk
                       Sample.empty_shop)
                (products (create Sample.env (Some Sample.alice) Sample.desk
                             Sample.empty_shop).2 !! Sample.desk_id))
      as (p & Hp & H).
    + vm_compute. reflexivity.
    + exists p. split; [reflexivity | exact H].
  - apply (proj2 (create_result Sample.env Sample.alice
                    (Sample.desk_with_status "sold") Sample.empty_shop)
             "sold" eq_refl); discriminate.
Defined.

(** A listing created as 'active' is read by an anonymous caller right
    away. *)
Example created_active_is_public :
  code (read Sample.env None Sample.desk_id
          (create Sample.env (Some Sample.alice)
             (Sample.desk_with_status "active") Sample.empty_shop).2).1
  = 200.
Proof. vm_compute. reflexivity. Qed.

(** ** Listing *)

(** The rows a list query matches: the rows of the table the client may
    see that pass every filter. *)
Lemma elem_of_matching c q db p :
  p ∈ matching c q db
  ↔ (∃ i, products db !! i = Some p)
    ∧ public_can_view_active_products c p = true
    ∧ matches q p = true.
Proof.
  unfold matching. rewrite merge_sort_Permutation.
  rewrite list_elem_of_filter, list_elem_of_fmap.
  rewrite andb_True, !Is_true_true. split.
  - intros [[Hsee Hm] ([i p'] & -> & Hin)].
    apply elem_of_map_to_list in Hin. eauto.
  - intros [[i Hi] [Hsee Hm]]. split; [done|].
    exists (i, p). split; [done|]. by apply elem_of_map_to_list.
Qed.

Lemma matches_app q1 q2 p :
  matches (q1 ++ q2) p = matches q1 p && matches q2 p.
Proof. unfold matches. apply forallb_app. Qed.

(** Every client is shown the Active rows. *)
Lemma active_is_public c p :
  status p = Active → public_can_view_active_products c p = true.
Proof.
  intros H. unfold public_can_view_active_products.
  rewrite (bool_decide_eq_true_2 _ H). by destruct c.
Qed.

(** The anonymous key is shown nothing else. *)
Lemma anon_sees_active_only p :
  public_can_view_active_products anon p = true ↔ status p = Active.
Proof.
  simpl. rewrite orb_false_r. apply bool_decide_eq_true.
Qed.

Lemma range_subseteq from to rows page :
  range from to rows = Ok page → page ⊆ rows.
Proof.
  unfold range. intros H.
  destruct (Js.to_number from) as [f|]; [|done].
  destruct to as [t|]; [|done].
  destruct (_ && _); [|done]. destruct (Z.leb f _); [|done].
  injection H as <-.
  etrans; [apply subseteq_take | apply subseteq_drop].
Qed.

(** The page a range cuts out of the matching rows. *)
Lemma range_window from to rows page :
  range from to rows = Ok page →
  ∃ f t, Js.to_number from = Some f ∧ to = Some t
         ∧ 0 ≤ f ∧ 0 ≤ t - f + 1
         ∧ page = take (Z.to_nat (t - f + 1)) (drop (Z.to_nat f) rows).
Proof.
  unfold range. intros H.
  destruct (Js.to_number from) as [f|]; [|done].
  destruct to as [t|]; [|done].
  destruct (Z.leb 0 f && Z.leb 0 (t - f + 1)) eqn:Hb; [|done].
  destruct (Z.leb f _); [|done]. injection H as <-.
  apply andb_prop in Hb as [?%Z.leb_le ?%Z.leb_le].
  by exists f, t.
Qed.

Lemma select_products_ok c q from to db page count :
  select_products c q from to db = Ok (page, count) →
  range from to (matching c q db) = Ok page
  ∧ forallb well_typed q = true
  ∧ count = Z.of_nat (length (matching c q db)).
Proof.
  unfold select_products.
  destruct (range from to (matching c q db)) as [page'|e].
  - destruct (forallb well_typed q); [|discriminate].
    by intros [= <- <-].
  - destruct e; try discriminate;
      by destruct (forallb well_typed q).
Qed.

(** What a 200 of the list route says about the request and the table. *)
Lemma list_handler_ok env req_user q db ps pg :
  (list_handler env req_user q db).1
  = {| code := 200; json := product_page ps pg |} →
  let limit := default (Js.Num 20) (Js.Str <$> q_limit q) in
  let offset := default (Js.Num 0) (Js.Str <$> q_offset q) in
  let rows :=
    matching (supabase env) (visibility req_user q ++ refinements q) db in
  Validator.validationResult (list_chains env q) = []
  ∧ range offset (Js.minus (Js.plus offset limit) (Js.Num 1)) rows = Ok ps
  ∧ forallb well_typed (visibility req_user q ++ refinements q) = true
  ∧ pg = {| total := Z.of_nat (length rows);
            limit := Js.parseInt limit;
            offset := Js.parseInt offset;
            hasMore :=
              Js.gt (Z.of_nat (length rows))
                (Js.add (Js.parseInt offset) (Js.parseInt limit)) |}.
Proof.
  unfold list_handler.
  destruct (Validator.validationResult (list_chains env q));
    [|discriminate].
  destruct (select_products _ _ _ _ _) as [[page count]|e] eqn:Hsel;
    [|discriminate].
  apply select_products_ok in Hsel as (Hrange & Htyped & ->).
  simpl. intros [= <- <-]. done.
Qed.

(** The page of a 200 is a window of the matching rows, and the total
    is their number. *)
Lemma list_handler_page env req_user q db ps pg :
  (list_handler env req_user q db).1
  = {| code := 200; json := product_page ps pg |} →
  let limit := default (Js.Num 20) (Js.Str <$> q_limit q) in
  let offset := default (Js.Num 0) (Js.Str <$> q_offset q) in
  let rows :=
    matching (supabase env) (visibility req_user q ++ refinements q) db in
  total pg = Z.of_nat (length rows)
  ∧ ∃ f t,
      Js.to_number offset = Some f
      ∧ Js.minus (Js.plus offset limit) (Js.Num 1) = Some t
      ∧ ps = take (Z.to_nat (t - f + 1)) (drop (Z.to_nat f) rows).
Proof.
  intros Hok. apply list_handler_ok in Hok as (_ & Hrange & _ & ->).
  split; [done|].
  apply range_window in Hrange as (f & t & Hf & Ht & _ & _ & ->).
  by exists f, t.
Qed.

Lemma isInt_spec min max s :
  Validator.isInt min max s = true
  ↔ ∃ n, Js.int_literal s = Some n
         ∧ (∀ lo, min = Some lo → lo ≤ n) ∧ (∀ hi, max = Some hi → n ≤ hi).
Proof.
  unfold Validator.isInt, Validator.in_range.
  destruct (Js.int_literal s) as [n|]; [|split; [done|by intros (n & ? & _)]].
  rewrite andb_true_iff. split.
  - intros [Hlo Hhi]. exists n. repeat split.
    + intros lo ->. by apply Z.leb_le.
    + intros hi ->. by apply Z.leb_le.
  - intros (n' & [= <-] & Hlo & Hhi). split.
    + destruct min; [apply Z.leb_le; by apply Hlo | done].
    + destruct max; [apply Z.leb_le; by apply Hhi | done].
Qed.

(** C9. A [limit] that is not an integer from 1 to 100, and an [offset]
    that is not an integer from 0 up, are rejected with a validation
    error.  A 200 reports the limit and the offset asked for, 20 and 0
    when left out, with the limit within 1..100 and the offset not
    negative, the number of all matching rows as total, and
    [hasMore = (total > offset + limit)]. *)
Theorem list_pagination env req_user q db :
  (∀ s, q_limit q = Some s →
     ¬ (∃ n, Js.int_literal s = Some n ∧ 1 ≤ n ≤ 100) →
     ∃ errors,
       list_handler env req_user q db
       = ({| code := 400; json := validation_errors errors |}, db)
       ∧ "limit" ∈ errors)
  ∧ (∀ s, q_offset q = Some s →
       ¬ (∃ n, Js.int_literal s = Some n ∧ 0 ≤ n) →
       ∃ errors,
         list_handler env req_user q db
         = ({| code := 400; json := validation_errors errors |}, db)
         ∧ "offset" ∈ errors)
  ∧ (∀ ps pg,
       (list_handler env req_user q db).1
       = {| code := 200; json := product_page ps pg |} →
       ∃ l o,
         limit pg = Some l ∧ offset pg = Some o
         ∧ 1 ≤ l ≤ 100 ∧ 0 ≤ o
         ∧ match q_limit q with
           | Some s => Js.int_literal s = Some l
           | None => l = 20
           end
         ∧ match q_offset q with
           | Some s => Js.int_literal s = Some o
           | None => o = 0
           end
         ∧ total pg
           = Z.of_nat
               (length (matching (supabase env)
                          (visibility req_user q ++ refinements q) db))
         ∧ hasMore pg = bool_decide (total pg > o + l)).
Proof.
  split; [|split].
  - intros s Hs Hbad.
    assert (Validator.isInt (Some 1) (Some 100) s = false) as Hint.
    { apply not_true_is_false. intros (n & Hn & Hlo & Hhi)%isInt_spec.
      apply Hbad. exists n. split; [done|].
      split; [by apply Hlo | by apply Hhi]. }
    assert ("limit" ∈ Validator.validationResult (list_chains env q)) as Hin.
    { apply validationResult_failed. unfold list_chains.
      rewrite Hs. simpl. rewrite Hint.
      rewrite !elem_of_cons. do 7 right. by left. }
    unfold list_handler.
    destruct (Validator.validationResult _) as [|e errs];
      [by apply not_elem_of_nil in Hin|].
    by exists (e :: errs).
  - intros s Hs Hbad.
    assert (Validator.isInt (Some 0) None s = false) as Hint.
    { apply not_true_is_false. intros (n & Hn & Hlo & _)%isInt_spec.
      apply Hbad. exists n. split; [done|]. by apply Hlo. }
    assert ("offset" ∈ Validator.validationResult (list_chains env q)) as Hin.
    { apply validationResult_failed. unfold list_chains.
      rewrite Hs. simpl. rewrite Hint.
      rewrite !elem_of_cons. do 8 right. by left. }
    unfold list_handler.
    destruct (Validator.validationResult _) as [|e errs];
      [by apply not_elem_of_nil in Hin|].
    by exists (e :: errs).
  - intros ps pg Hok.
    apply list_handler_ok in Hok as (Hval & _ & _ & ->). simpl.
    assert (Validator.optional (Validator.isInt (Some 1) (Some 100))
              (q_limit q) = true) as Hlimit.
    { apply (validationResult_nil _ Hval "limit").
      unfold list_chains. rewrite !elem_of_cons. do 7 right. by left. }
    assert (Validator.optional (Validator.isInt (Some 0) None)
              (q_offset q) = true) as Hoffset.
    { apply (validationResult_nil _ Hval "offset").
      unfold list_chains. rewrite !elem_of_cons. do 8 right. by left. }
    assert (∃ l, Js.parseInt (default (Js.Num 20) (Js.Str <$> q_limit q))
                 = Some l
                 ∧ 1 ≤ l ≤ 100
                 ∧ match q_limit q with
                   | Some s => Js.int_literal s = Some l
                   | None => l = 20
                   end) as (l & Hl & Hlr & Hlq).
    { destruct (q_limit q) as [s|]; simpl in *.
      - apply isInt_spec in Hlimit as (n & Hn & Hlo & Hhi).
        exists n. repeat split; [done|by apply Hlo|by apply Hhi|done].
      - exists 20. repeat split; lia. }
    assert (∃ o, Js.parseInt (default (Js.Num 0) (Js.Str <$> q_offset q))
                 = Some o
                 ∧ 0 ≤ o
                 ∧ match q_offset q with
                   | Some s => Js.int_literal s = Some o
                   | None => o = 0
                   end) as (o & Ho & Hor & Hoq).
    { destruct (q_offset q) as [s|]; simpl in *.
      - apply isInt_spec in Hoffset as (n & Hn & Hlo & _).
        exists n. repeat split; [done|by apply Hlo|done].
      - exists 0. repeat split; lia. }
    exists l, o. rewrite Hl, Ho. simpl.
    repeat split; try done; try lia.
    destruct (Z.ltb_spec (o + l)
                (Z.of_nat (length (matching (supabase env)
                   (visibility req_user q ++ refinements q) db)))).
    + symmetry. apply bool_decide_eq_true. lia.
    + symmetry. apply bool_decide_eq_false. lia.
Qed.

Lemma list_pagination_witness :
  (∃ errors,
     list_handler Sample.env None
       (Sample.paged "101" "0" Sample.any_listing) Sample.workshop
     = ({| code := 400; json := validation_errors errors |}, Sample.workshop)
     ∧ "limit" ∈ errors)
  ∧ (∃ errors,
       list_handler Sample.env None
         (Sample.paged "20" "-1" Sample.any_listing) Sample.workshop
       = ({| code := 400; json := validation_errors errors |},
          Sample.workshop)
       ∧ "offset" ∈ errors)
  ∧ (∃ ps pg,
       (list_handler Sample.env (Some Sample.alice)
          (Sample.paged "1" "0" (Sample.listings_of Sample.alice))
          Sample.workshop).1
       = {| code := 200; json := product_page ps pg |}
       ∧ total pg = 2 ∧ limit pg = Some 1 ∧ offset pg = Some 0
       ∧ hasMore pg = true).
Proof.
  split; [|split].
  - apply (proj1 (list_pagination Sample.env None
                    (Sample.paged "101" "0" Sample.any_listing)
                    Sample.workshop) "101" eq_refl).
    intros (n & Hn & Hr). vm_compute in Hn. injection Hn as <-. lia.
  - apply (proj1 (proj2 (list_pagination Sample.env None
                           (Sample.paged "20" "-1" Sample.any_listing)
                           Sample.workshop)) "-1" eq_refl).
    intros (n & Hn & Hr). vm_compute in Hn. injection Hn as <-. lia.
  - eexists _, _. split; [vm_compute; reflexivity|].
    destruct (proj2 (proj2 (list_pagination Sample.env (Some Sample.alice)
                (Sample.paged "1" "0" (Sample.listings_of Sample.alice))
                Sample.workshop)) _ _ eq_refl)
      as (l & o & Hl & Ho & _ & _ & _ & _ & Ht & Hm).
    repeat split; reflexivity.
Defined.

(** The window asked of the store is [offset + limit - 1] as JavaScript
    computes it: with both parameters given as text, the sum is their
    concatenation. *)
Example page_bound_of_text :
  Js.minus (Js.plus (Js.Str "10") (Js.Str "5")) (Js.Num 1) = Some 104
  ∧ Js.minus (Js.plus (Js.Num 0) (Js.Num 20)) (Js.Num 1) = Some 19.
Proof. split; reflexivity. Qed.

Lemma isIn_statuses_truthy s :
  Validator.isIn statuses s = true → Js.truthy s = true.
Proof. by destruct s. Qed.

Lemma is_caller_inv req_user user_id :
  is_caller req_user user_id = true →
  ∃ u, req_user = Some u ∧ user_id = Some (Auth.id u).
Proof.
  unfold is_caller. destruct req_user as [u|]; [|done].
  destruct user_id as [i|]; [|done].
  intros ->%String_eqb_true. by exists u.
Qed.

Lemma list_status_valid env q :
  Validator.validationResult (list_chains env q) = [] →
  Validator.optional (Validator.isIn statuses) (q_status q) = true.
Proof.
  intros Hval. apply (validationResult_nil _ Hval "status").
  unfold list_chains. rewrite !elem_of_cons. do 1 right. by left.
Qed.

(** Lines 127 to 134 for a caller who is not the owner asked for. *)
Lemma visibility_of_others req_user q :
  is_caller req_user (q_user_id q) = false →
  visibility req_user q = [eq_status "active"].
Proof.
  intros H. unfold visibility. rewrite H. simpl.
  by rewrite !orb_true_r.
Qed.

(** Lines 127 to 134 for the owner asking for their own listings, once
    the status parameter has passed validation. *)
Lemma visibility_of_owner (u : Auth.user) q :
  q_user_id q = Some (Auth.id u) →
  Auth.id u ≠ "" →
  Validator.optional (Validator.isIn statuses) (q_status q) = true →
  visibility (Some u) q
  = eq_user_id (Auth.id u)
    :: match q_status q with
       | Some s => [eq_status s]
       | None => []
       end.
Proof.
  intros Hu Hne Hst.
  unfold visibility, is_caller. rewrite Hu. simpl.
  rewrite String.eqb_refl.
  replace (Js.truthy (Auth.id u)) with true
    by (by destruct (Auth.id u)).
  simpl. destruct (q_status q) as [s|]; [|done].
  simpl in Hst |- *. by rewrite (isIn_statuses_truthy _ Hst).
Qed.

Lemma holds_eq_status_active p :
  holds (eq_status "active") p = true ↔ status p = Active.
Proof. apply status_text_active. Qed.

(** The rows matched for a caller who is not the owner asked for: the
    Active rows of the table that pass the remaining filters. *)
Lemma rows_of_others c q db p :
  p ∈ matching c (eq_status "active" :: refinements q) db
  ↔ (∃ i, products db !! i = Some p)
    ∧ status p = Active
    ∧ matches (refinements q) p = true.
Proof.
  rewrite elem_of_matching.
  change (matches (eq_status "active" :: refinements q) p)
    with (holds (eq_status "active") p && matches (refinements q) p).
  rewrite andb_true_iff, holds_eq_status_active. split.
  - intros (Hi & _ & Hact & Hm). done.
  - intros (Hi & Hact & Hm). repeat split; try done.
    by apply active_is_public.
Qed.

(** The rows matched for a caller who names themselves in [user_id]:
    their own rows, of the status asked for if one is, that the shared
    client is shown and that pass the remaining filters. *)
Lemma rows_of_owner env (u : Auth.user) q db p :
  q_user_id q = Some (Auth.id u) →
  Auth.id u ≠ "" →
  Validator.optional (Validator.isIn statuses) (q_status q) = true →
  p ∈ matching (supabase env) (visibility (Some u) q ++ refinements q) db
  ↔ (∃ i, products db !! i = Some p)
    ∧ public_can_view_active_products (supabase env) p = true
    ∧ user_id p = Auth.id u
    ∧ (∀ s, q_status q = Some s → status_text (status p) = s)
    ∧ matches (refinements q) p = true.
Proof.
  intros Hu Hne Hst.
  rewrite elem_of_matching, (visibility_of_owner u q Hu Hne Hst).
  rewrite matches_app.
  assert (matches
            (eq_user_id (Auth.id u)
             :: match q_status q with
                | Some s => [eq_status s]
                | None => []
                end) p = true
          ↔ user_id p = Auth.id u
            ∧ ∀ s, q_status q = Some s → status_text (status p) = s)
    as Hvis.
  { unfold matches. simpl. rewrite andb_true_iff, String_eqb_true.
    destruct (q_status q) as [s|]; simpl.
    - rewrite andb_true_r, String_eqb_true. split.
      + intros [? ?]. split; [done|]. by intros s' [= <-].
      + intros [? Hs]. split; [done|]. by apply Hs.
    - split; [intros [? _]; by split|]. by intros [? _]. }
  rewrite andb_true_iff, Hvis. tauto.
Qed.

(** C6.  For a caller who names themselves in [user_id] the list route
    asks for that owner's rows in every status, but it asks through the
    shared client, not through the caller's (as the route of the
    caller's own listings does), and row-level security shows the
    anonymous key Active rows only.  With the shared client on that key
    the answer holds the caller's Active listings and nothing else: the
    matched rows are the caller's rows that are Active (and pass the
    status filter and the other filters), the total is their number,
    the page is a window of them, and no draft, sold or archived listing
    of the caller is on it. *)
Theorem own_listings_through_the_shared_client
    env (u : Auth.user) q db ps pg :
  supabase env = anon →
  Auth.id u ≠ "" →
  q_user_id q = Some (Auth.id u) →
  (list_handler env (Some u) q db).1
  = {| code := 200; json := product_page ps pg |} →
  let rows :=
    matching (supabase env) (visibility (Some u) q ++ refinements q) db in
  (∀ p, p ∈ rows
        ↔ (∃ i, products db !! i = Some p)
          ∧ user_id p = Auth.id u
          ∧ status p = Active
          ∧ (∀ s, q_status q = Some s → status_text (status p) = s)
          ∧ matches (refinements q) p = true)
  ∧ total pg = Z.of_nat (length rows)
  ∧ (∃ f t,
       Js.to_number (default (Js.Num 0) (Js.Str <$> q_offset q)) = Some f
       ∧ Js.minus
           (Js.plus (default (Js.Num 0) (Js.Str <$> q_offset q))
              (default (Js.Num 20) (Js.Str <$> q_limit q)))
           (Js.Num 1) = Some t
       ∧ ps = take (Z.to_nat (t - f + 1)) (drop (Z.to_nat f) rows))
  ∧ (∀ p, p ∈ ps → status p = Active).
Proof.
  intros Hanon Hne Hu Hok rows.
  pose proof (list_handler_ok _ _ _ _ _ _ Hok) as (Hval & Hrange & _ & _).
  pose proof (list_status_valid _ _ Hval) as Hst.
  destruct (list_handler_page _ _ _ _ _ _ Hok) as [Htotal Hwindow].
  assert (∀ p, p ∈ rows
               ↔ (∃ i, products db !! i = Some p)
                 ∧ user_id p = Auth.id u
                 ∧ status p = Active
                 ∧ (∀ s, q_status q = Some s → status_text (status p) = s)
                 ∧ matches (refinements q) p = true) as Hrows.
  { intros p. subst rows. rewrite (rows_of_owner env u q db p Hu Hne Hst).
    rewrite Hanon, anon_sees_active_only. tauto. }
  split; [exact Hrows|]. split; [exact Htotal|]. split; [exact Hwindow|].
  intros p Hp. apply range_subseteq in Hrange.
  by apply Hrange, Hrows in Hp as (_ & _ & Hact & _).
Qed.

Lemma own_listings_through_the_shared_client_witness :
  products Sample.workshop !! Sample.lamp_id = Some Sample.lamp
  ∧ user_id Sample.lamp = Auth.id Sample.alice
  ∧ (list_handler Sample.env_anon (Some Sample.alice)
       (Sample.listings_of Sample.alice) Sample.workshop).1
    = {| code := 200;
         json := product_page [Sample.chair Active None]
                   {| total := 1; limit := Some 20; offset := Some 0;
                      hasMore := false |} |}
  ∧ 1 = Z.of_nat
          (length (matching anon
                     (visibility (Some Sample.alice)
                        (Sample.listings_of Sample.alice)
                      ++ refinements (Sample.listings_of Sample.alice))
                     Sample.workshop))
  ∧ ∀ p, p ∈ [Sample.chair Active None] → status p = Active.
Proof.
  assert ((list_handler Sample.env_anon (Some Sample.alice)
             (Sample.listings_of Sample.alice) Sample.workshop).1
          = {| code := 200;
               json := product_page [Sample.chair Active None]
                         {| total := 1; limit := Some 20; offset := Some 0;
                            hasMore := false |} |}) as Hok
    by (vm_compute; reflexivity).
  pose proof (own_listings_through_the_shared_client Sample.env_anon
                Sample.alice (Sample.listings_of Sample.alice)
                Sample.workshop [Sample.chair Active None]
                {| total := 1; limit := Some 20; offset := Some 0;
                   hasMore := false |} eq_refl) as H.
  destruct (H ltac:(discriminate) eq_refl Hok) as (_ & Htotal & _ & Hpage).
  split; [vm_compute; reflexivity|]. split; [reflexivity|].
  split; [exact Hok|]. split; [exact Htotal | exact Hpage].
Defined.

(** X20. With the shared client on the service key, or carrying the
    session of the caller, the list route does answer a caller who names
    themselves in [user_id] with their listings in every status: the
    matched rows are all rows of the caller that pass the status filter,
    if one is given, and the other filters; the total is their number
    and the page is a window of them. *)
Theorem own_listings_when_the_shared_client_sees_them
    env (u : Auth.user) q db ps pg :
  supabase env = service_role ∨ supabase env = Auth.getSupabaseClient u →
  Auth.id u ≠ "" →
  q_user_id q = Some (Auth.id u) →
  (list_handler env (Some u) q db).1
  = {| code := 200; json := product_page ps pg |} →
  let rows :=
    matching (supabase env) (visibility (Some u) q ++ refinements q) db in
  (∀ p, p ∈ rows
        ↔ (∃ i, products db !! i = Some p)
          ∧ user_id p = Auth.id u
          ∧ (∀ s, q_status q = Some s → status_text (status p) = s)
          ∧ matches (refinements q) p = true)
  ∧ total pg = Z.of_nat (length rows)
  ∧ (∃ f t,
       Js.to_number (default (Js.Num 0) (Js.Str <$> q_offset q)) = Some f
       ∧ Js.minus
           (Js.plus (default (Js.Num 0) (Js.Str <$> q_offset q))
              (default (Js.Num 20) (Js.Str <$> q_limit q)))
           (Js.Num 1) = Some t
       ∧ ps = take (Z.to_nat (t - f + 1)) (drop (Z.to_nat f) rows)).
Proof.
  intros Hclient Hne Hu Hok rows.
  pose proof (list_handler_ok _ _ _ _ _ _ Hok) as (Hval & _ & _ & _).
  pose proof (list_status_valid _ _ Hval) as Hst.
  destruct (list_handler_page _ _ _ _ _ _ Hok) as [Htotal Hwindow].
  split; [|by split].
  intros p. subst rows. rewrite (rows_of_owner env u q db p Hu Hne Hst).
  split; [tauto|]. intros (Hi & Hown & Hs & Hm).
  repeat split; try done.
  destruct Hclient as [->| ->]; [done|]. by apply own_rows_are_shown.
Qed.

Lemma own_listings_when_the_shared_client_sees_them_witness :
  Sample.lamp
  ∈ matching (supabase Sample.env)
      (visibility (Some Sample.alice) (Sample.listings_of Sample.alice)
       ++ refinements (Sample.listings_of Sample.alice)) Sample.workshop
  ∧ 2 = Z.of_nat
          (length (matching (supabase Sample.env)
                     (visibility (Some Sample.alice)
                        (Sample.listings_of Sample.alice)
                      ++ refinements (Sample.listings_of Sample.alice))
                     Sample.workshop)).
Proof.
  pose proof (own_listings_when_the_shared_client_sees_them Sample.env
                Sample.alice (Sample.listings_of Sample.alice)
                Sample.workshop
                [Sample.lamp; Sample.chair Active None]
                {| total := 2; limit := Some 20; offset := Some 0;
                   hasMore := false |}) as H.
  destruct H as (Hrows & Htotal & _).
  - left. reflexivity.
  - discriminate.
  - reflexivity.
  - vm_compute. reflexivity.
  - split; [|exact Htotal]. apply Hrows. repeat split.
    + exists Sample.lamp_id. vm_compute. reflexivity.
    + intros s Hs. vm_compute in Hs. discriminate.
Defined.

Lemma validationResult_all chains :
  (∀ name ok, (name, ok) ∈ chains → ok = true) →
  Validator.validationResult chains = [].
Proof.
  unfold Validator.validationResult.
  induction chains as [|[name ok] chains IH]; intros Hall; [done|].
  rewrite filter_cons. simpl.
  rewrite (Hall name ok) by (apply elem_of_cons; by left). simpl.
  apply IH. intros name' ok' Hin. apply (Hall name').
  apply elem_of_cons. by right.
Qed.

Lemma is_caller_none req_user : is_caller req_user None = false.
Proof. by destruct req_user. Qed.

(** Taking the owner and status parameters out of a valid query leaves
    a valid query. *)
Lemma without_owner_and_status_valid env q :
  Validator.validationResult (list_chains env q) = [] →
  Validator.validationResult
    (list_chains env (Spec.without_owner_and_status q)) = [].
Proof.
  intros Hval. apply validationResult_all. intros name ok Hin.
  unfold list_chains in Hin. simpl in Hin.
  rewrite !elem_of_cons, elem_of_nil in Hin.
  destruct Hin as [H|[H|[H|[H|[H|[H|[H|[H|[H|[]]]]]]]]]];
    injection H as Hname ->; try done;
    apply (validationResult_nil _ Hval name); rewrite Hname;
    unfold list_chains; rewrite !elem_of_cons; naive_solver.
Qed.

(** C10. When the caller is anonymous, or is not the owner named by
    [user_id], the route puts the single filter [status = 'active'] in
    front of the remaining ones: neither [user_id] nor an explicit
    [status] parameter takes part.  The rows matched are the Active rows
    of every owner that pass the remaining filters.  A 200 reports
    their number as the total and carries the window of them that
    [offset] and [limit] ask for; a valid request without [offset] and
    [limit] is answered 200 with the 20 newest of them.  A valid request
    is answered exactly as the same request without [user_id] and
    [status]. *)
Theorem owner_filter_of_others_is_dropped env req_user q db :
  is_caller req_user (q_user_id q) = false →
  let rows :=
    matching (supabase env) (eq_status "active" :: refinements q) db in
  (∀ p, p ∈ rows
        ↔ (∃ i, products db !! i = Some p)
          ∧ status p = Active
          ∧ matches (refinements q) p = true)
  ∧ (∀ ps pg,
       (list_handler env req_user q db).1
       = {| code := 200; json := product_page ps pg |} →
       total pg = Z.of_nat (length rows)
       ∧ ∃ f t,
           Js.to_number (default (Js.Num 0) (Js.Str <$> q_offset q))
           = Some f
           ∧ Js.minus
               (Js.plus (default (Js.Num 0) (Js.Str <$> q_offset q))
                  (default (Js.Num 20) (Js.Str <$> q_limit q)))
               (Js.Num 1) = Some t
           ∧ ps = take (Z.to_nat (t - f + 1)) (drop (Z.to_nat f) rows))
  ∧ (Validator.validationResult (list_chains env q) = [] →
     forallb well_typed (refinements q) = true →
     q_limit q = None → q_offset q = None →
     list_handler env req_user q db
     = ({| code := 200;
           json := product_page (take 20 rows)
                     {| total := Z.of_nat (length rows);
                        limit := Some 20; offset := Some 0;
                        hasMore := Z.ltb 20 (Z.of_nat (length rows)) |} |},
        db))
  ∧ (Validator.validationResult (list_chains env q) = [] →
     list_handler env req_user q db
     = list_handler env req_user (Spec.without_owner_and_status q) db).
Proof.
  intros Hother rows.
  pose proof (visibility_of_others _ _ Hother) as Hvis.
  split; [intros p; apply rows_of_others|]. split; [|split].
  - intros ps pg Hok.
    pose proof (list_handler_page _ _ _ _ _ _ Hok) as H.
    by rewrite Hvis in H.
  - intros Hval Htyped Hlimit Hoffset. unfold list_handler.
    rewrite Hval, Hvis, Hlimit, Hoffset. cbn [fmap option_fmap option_map
      default]. unfold select_products.
    change ([eq_status "active"] ++ refinements q)%list
      with (eq_status "active" :: refinements q).
    fold rows.
    assert (range (Js.Num 0)
              (Js.minus (Js.plus (Js.Num 0) (Js.Num 20)) (Js.Num 1)) rows
            = Ok (take 20 rows)) as ->.
    { unfold range. simpl.
      replace (Z.leb 0 (Z.of_nat (length rows))) with true
        by (symmetry; apply Z.leb_le; lia).
      by rewrite drop_0. }
    change (forallb well_typed (eq_status "active" :: refinements q))
      with (forallb well_typed (refinements q)).
    by rewrite Htyped.
  - intros Hval. unfold list_handler.
    rewrite Hval, (without_owner_and_status_valid _ _ Hval), Hvis.
    rewrite (visibility_of_others req_user
               (Spec.without_owner_and_status q))
      by apply is_caller_none.
    reflexivity.
Qed.

Lemma owner_filter_of_others_is_dropped_witness :
  list_handler Sample.env None
    (Sample.with_status "draft" (Sample.listings_of Sample.bob))
    Sample.workshop
  = ({| code := 200;
        json := product_page [Sample.chair Active None]
                  {| total := 1; limit := Some 20; offset := Some 0;
                     hasMore := false |} |}, Sample.workshop)
  ∧ user_id (Sample.chair Active None) ≠ Auth.id Sample.bob.
Proof.
  pose proof (owner_filter_of_others_is_dropped Sample.env None
                (Sample.with_status "draft" (Sample.listings_of Sample.bob))
                Sample.workshop eq_refl) as H.
  cbv zeta in H. destruct H as (_ & _ & Hanswer & _).
  split; [|discriminate].
  rewrite Hanswer;
    [vm_compute; reflexivity | vm_compute; reflexivity
    | reflexivity | reflexivity | reflexivity].
Defined.

(** ** A listing from creation to the archive *)

(** Created without a status the desk is a draft with no views and no
    sale time; sold at time 200 it carries that time; archived later it
    still does. *)
Example desk_lifecycle :
  let created :=
    (create Sample.env (Some Sample.alice) Sample.desk
       Sample.empty_shop).2 in
  let sold :=
    (set_status Sample.env (Some Sample.alice) Sample.desk_id
       (Some "sold") created).2 in
  let archived :=
    (set_status Sample.later (Some Sample.alice) Sample.desk_id
       (Some "archived") sold).2 in
  (λ p, (status p, views p, sold_at p)) <$> products created !! Sample.desk_id
  = Some (Draft, 0, None)
  ∧ (λ p, (status p, sold_at p)) <$> products sold !! Sample.desk_id
    = Some (Sold, Some 200)
  ∧ (λ p, (status p, sold_at p)) <$> products archived !! Sample.desk_id
    = Some (Archived, Some 200).
Proof. vm_compute. repeat split; reflexivity. Qed.

(** * Further properties of the store and the routes *)

(** ** Who can write which rows *)

Lemma row_error_policy_true db policy p :
  row_error db policy p = None → row_error db true p = None.
Proof.
  intros H. by rewrite (row_error_policy _ _ _ H) in H.
Qed.

Lemma insert_product_changes c fresh t v db :
  (insert_product c fresh t v db).2 = db
  ∨ ∃ p, insert_product c fresh t v db
         = (Ok p, with_products (<[fresh := p]> (products db)) db)
         ∧ new_row fresh t v = Ok p
         ∧ products db !! fresh = None
         ∧ row_error db (authenticated_users_can_create_products c p) p
           = None.
Proof.
  unfold insert_product.
  destruct (new_row fresh t v) as [p|e]; [|by left].
  destruct (row_error db _ p) eqn:Herr; [by left|].
  destruct (products db !! fresh) eqn:Hfresh; [by left|].
  destruct (public_can_view_active_products c p); [|by left].
  right. by exists p.
Qed.

Lemma delete_products_lookup c i w db j :
  products (delete_products c i w db).2 !! j = products db !! j
  ∨ (j = i
     ∧ products (delete_products c i w db).2 !! j = None
     ∧ ∃ p, products db !! i = Some p
            ∧ users_can_delete_own_products c p = true ∧ w p = true).
Proof.
  unfold delete_products.
  destruct (products db !! i) as [p|] eqn:Hp; [|by left].
  destruct (public_can_view_active_products c p); [|by left]. simpl.
  destruct (users_can_delete_own_products c p) eqn:Hown; [|by left].
  destruct (w p) eqn:Hw; [|by left]. simpl.
  destruct (decide (j = i)) as [->|Hne].
  - right. split; [done|]. split; [apply lookup_delete_eq|]. by exists p.
  - left. by apply lookup_delete_ne.
Qed.

(** The delete route either leaves the database as it was or takes out
    the row under the key, and its images. *)
Lemma delete_changes req_user i db :
  (delete req_user i db).2 = db
  ∨ ∃ p,
      products db !! i = Some p
      ∧ (delete req_user i db).2
        = {| products := base.delete i (products db);
             categories := categories db; profiles := profiles db;
             product_images :=
               filter (λ im, product_id im ≠ i) (product_images db) |}.
Proof.
  destruct req_user as [user|]; [|by left].
  unfold delete, authenticateUser, delete_handler, delete_products.
  destruct (products db !! i) as [p|].
  - destruct (_ && _); [|by left]. right. by exists p.
  - left. by destruct (no_row i ()).
Qed.

(** X1. Row-level security on [products], whatever filters a statement
    carries: through the anonymous key no INSERT, UPDATE or DELETE
    changes the table; through the session token of a user a row can be
    inserted only with that user as owner, and a row that an UPDATE or a
    DELETE changes belonged to that user before (and, for an UPDATE,
    still does afterwards). *)
Theorem writes_stay_with_the_owner :
  (∀ fresh t v db, (insert_product anon fresh t v db).2 = db)
  ∧ (∀ t i w u db, (update_products anon t i w u db).2 = db)
  ∧ (∀ i w db, (delete_products anon i w db).2 = db)
  ∧ (∀ uid fresh t v db p,
       (insert_product (authenticated uid) fresh t v db).1 = Ok p →
       user_id p = uid)
  ∧ (∀ uid t i w u db j,
       products (update_products (authenticated uid) t i w u db).2 !! j
       ≠ products db !! j →
       ∃ p p', products db !! j = Some p ∧ user_id p = uid
               ∧ products (update_products (authenticated uid) t i w u db).2
                 !! j = Some p'
               ∧ user_id p' = uid)
  ∧ (∀ uid i w db j,
       products (delete_products (authenticated uid) i w db).2 !! j
       ≠ products db !! j →
       ∃ p, products db !! j = Some p ∧ user_id p = uid).
Proof.
  repeat split.
  - intros fresh t v db.
    destruct (insert_product_changes anon fresh t v db)
      as [|(p & _ & _ & _ & Herr)]; [done|].
    by apply row_error_policy in Herr.
  - intros t i w u db.
    destruct (update_products anon t i w u db) as [r db'] eqn:Hup.
    apply update_products_inv in Hup
      as [[-> _]|(p & q0 & _ & _ & Hown & _)]; done.
  - intros i w db. unfold delete_products.
    destruct (products db !! i) as [p|]; [|done].
    simpl. by rewrite andb_false_r.
  - intros uid fresh t v db p Hok.
    destruct (insert_product_changes (authenticated uid) fresh t v db)
      as [Hsame|(p' & Heq & _ & _ & Herr)].
    + unfold insert_product in Hok, Hsame.
      destruct (new_row fresh t v) as [q|e]; [|done].
      destruct (row_error db _ q) eqn:Herr; [done|].
      apply row_error_policy, own_row_authenticated in Herr.
      destruct (products db !! fresh); [done|].
      destruct (public_can_view_active_products _ q); [|done].
      simpl in Hok. by injection Hok as <-.
    + rewrite Heq in Hok. simpl in Hok. injection Hok as <-.
      by apply row_error_policy, own_row_authenticated in Herr.
  - intros uid t i w u db j Hdiff.
    destruct (decide (j = i)) as [->|Hne];
      [|by rewrite update_products_other in Hdiff].
    destruct (products db !! i) as [p|] eqn:Hp.
    + destruct (update_products_row (authenticated uid) t i w u db p Hp)
        as [Hsame|(q0 & _ & Hnew & Hold & Hown)]; [congruence|].
      apply own_row_authenticated in Hold, Hown.
      exists p. eexists. repeat split; [done|exact Hnew|done].
    + exfalso. apply Hdiff. unfold update_products. by rewrite Hp.
  - intros uid i w db j Hdiff.
    destruct (delete_products_lookup (authenticated uid) i w db j)
      as [|(-> & _ & p & Hp & Hown & _)]; [done|].
    exists p. split; [done|]. by apply own_row_authenticated in Hown.
Qed.

Lemma writes_stay_with_the_owner_witness :
  user_id (Sample.chair Active None) = Auth.id Sample.alice.
Proof.
  destruct writes_stay_with_the_owner as (_ & _ & _ & _ & _ & Hdel).
  destruct (Hdel (Auth.id Sample.alice) Sample.chair_id (λ _, true)
              Sample.showroom Sample.chair_id) as (p & Hp & Hown).
  - vm_compute. discriminate.
  - vm_compute in Hp. injection Hp as <-. exact Hown.
Defined.

(** ** What a create does to the tables *)

Lemma imageRecords_allowed c db pid p images :
  products db !! pid = Some p →
  own_row c p = true →
  forallb (image_allowed c db) (imageRecords pid images) = true.
Proof.
  intros Hp Hown. apply forallb_forall. intros im Hin.
  apply list_elem_of_In in Hin.
  apply elem_of_lookup_imap_1 in Hin as (k & url & -> & _).
  unfold image_allowed. simpl. by rewrite Hp.
Qed.

Lemma new_row_all fresh t v p :
  new_row fresh t v = Ok p →
  title p = n_title v ∧ description p = n_description v
  ∧ location p = n_location v ∧ price p = n_price v
  ∧ uuid_in (n_category_id v) = Some (category_id p)
  ∧ condition_of_text (n_condition v) = Some (condition p)
  ∧ featured p = false ∧ created_at p = t ∧ updated_at p = t.
Proof.
  unfold new_row. intros H.
  destruct (uuid_in (n_category_id v)) as [category|]; [|done].
  destruct (status_of_text (n_status v)) as [st|]; [|done].
  destruct (condition_of_text (n_condition v)) as [co|]; [|done].
  by simplify_eq.
Qed.

(** A create either changes nothing and answers something other than
    201, or answers 201 with the new row, stored under the fresh key,
    and appends the image rows.  The row carries the fields of the
    sanitized body, which passed validation. *)
Lemma create_changes env (caller : Auth.user) body db :
  ((create env (Some caller) body db).2 = db
   ∧ code (create env (Some caller) body db).1 ≠ 201)
  ∨ ∃ p,
      (create env (Some caller) body db).1
      = {| code := 201; json := product_created (Some p) |}
      ∧ id p = fresh env
      ∧ user_id p = Auth.id caller
      ∧ products db !! fresh env = None
      ∧ valid_row db p
      ∧ views p = 0
      ∧ status_of_text (if Js.present (c_status body)
                        then default "" (c_status body) else "draft")
        = Some (status p)
      ∧ (Validator.validationResult
           (create_chains env (create_sanitized body)) = []
         ∧ title p = default "" (Validator.trim <$> c_title body)
         ∧ description p
           = default "" (Validator.trim <$> c_description body)
         ∧ location p = default "" (Validator.trim <$> c_location body)
         ∧ price p = default 0 (c_price body)
         ∧ uuid_in (default "" (c_category_id body))
           = Some (category_id p)
         ∧ condition_of_text (default "" (c_condition body))
           = Some (condition p)
         ∧ featured p = false
         ∧ created_at p = db_now env ∧ updated_at p = db_now env)
      ∧ (create env (Some caller) body db).2
        = {| products := <[fresh env := p]> (products db);
             categories := categories db;
             profiles := profiles db;
             product_images :=
               (product_images db
                ++ imageRecords (fresh env)
                     (default [] (c_images body)))%list |}.
Proof.
  unfold create, authenticateUser, create_handler.
  destruct (Validator.validationResult _) eqn:Hval; [|by left].
  destruct (insert_product_changes (Auth.getSupabaseClient caller)
              (fresh env) (db_now env)
              {| n_user_id := Auth.id caller;
                 n_title := default "" (c_title (create_sanitized body));
                 n_description :=
                   default "" (c_description (create_sanitized body));
                 n_price := default 0 (c_price (create_sanitized body));
                 n_category_id :=
                   default "" (c_category_id (create_sanitized body));
                 n_condition :=
                   default "" (c_condition (create_sanitized body));
                 n_location :=
                   default "" (c_location (create_sanitized body));
                 n_status :=
                   if Js.present (c_status (create_sanitized body))
                   then default "" (c_status (create_sanitized body))
                   else "draft" |} db)
    as [Hsame|(p & Heq & Hrow & Hfresh & Herr)].
  - left. destruct (insert_product _ _ _ _ _) as [[p|e] db1] eqn:Hins;
      simpl in Hsame; subst db1; [|done].
    exfalso. apply insert_product_inv in Hins as (_ & Hfresh & _ & Heq).
    assert (products db !! fresh env = Some p) as Habs.
    { rewrite Heq at 1. simpl. apply lookup_insert_eq. }
    congruence.
  - right. exists p. rewrite Heq.
    pose proof (row_error_policy _ _ _ Herr) as Hown.
    pose proof (new_row_all _ _ _ _ Hrow) as Hall. simpl in Hall.
    apply new_row_columns in Hrow as (Hid & Huser & Hviews & _ & Hst).
    simpl in Huser, Hst.
    assert (public_can_view_active_products
              (Auth.getSupabaseClient caller) p = true) as Hsee.
    { simpl. apply orb_true_intro. right. apply bool_decide_eq_true.
      by rewrite Huser. }
    set (db1 := with_products (<[fresh env := p]> (products db)) db).
    assert (products db1 !! fresh env = Some p) as Hp1
      by apply lookup_insert_eq.
    set (db2 := match c_images (create_sanitized body) with
                | Some ((_ :: _) as images) =>
                    (insert_images (Auth.getSupabaseClient caller)
                       (imageRecords (id p) images) db1).2
                | _ => db1
                end).
    assert (db2 = {| products := <[fresh env := p]> (products db);
                     categories := categories db;
                     profiles := profiles db;
                     product_images :=
                       product_images db
                       ++ imageRecords (fresh env)
                            (default [] (c_images body)) |}) as Hdb2.
    { subst db2. simpl. destruct (c_images body) as [[|url urls]|]; simpl.
      - by rewrite app_nil_r.
      - unfold insert_images.
        rewrite Hid, (imageRecords_allowed _ db1 (fresh env) p); done.
      - by rewrite app_nil_r. }
    assert (select_product (Auth.getSupabaseClient caller) (id p) db2
            = Ok (Some p)) as Hsel.
    { apply select_product_visible; [|done].
      rewrite Hdb2, Hid. apply lookup_insert_eq. }
    fold db1. fold db2. rewrite Hsel.
    destruct Hall as (Ht & Hd & Hl & Hprice & Hcat & Hcond & Hfeat
                      & Hcreated & Hupdated).
    repeat split; try done.
    by apply row_error_policy_true in Herr.
Qed.

(** X2. A create is all or nothing: an answer other than 201 leaves the
    database as it was; a 201 adds one row under a key that was free and
    leaves every other listing, the categories and the profiles as they
    were.  No listing is ever overwritten by a create. *)
Theorem create_is_all_or_nothing env req_user body db :
  (code (create env req_user body db).1 ≠ 201 →
   (create env req_user body db).2 = db)
  ∧ (code (create env req_user body db).1 = 201 →
     products db !! fresh env = None
     ∧ is_Some (products (create env req_user body db).2 !! fresh env)
     ∧ (∀ j, j ≠ fresh env →
          products (create env req_user body db).2 !! j = products db !! j)
     ∧ categories (create env req_user body db).2 = categories db
     ∧ profiles (create env req_user body db).2 = profiles db).
Proof.
  destruct req_user as [caller|]; [|split; [done|discriminate]].
  destruct (create_changes env caller body db)
    as [[Hsame Hcode]|(p & Hresp & _ & _ & Hfresh & _ & _ & _ & _ & Hdb)].
  - split; [done|]. intros H. by destruct Hcode.
  - rewrite Hresp, Hdb. simpl. split; [done|]. intros _.
    repeat split; try done.
    + rewrite lookup_insert_eq. by eexists.
    + intros j Hne. by apply lookup_insert_ne.
Qed.

Lemma create_is_all_or_nothing_witness :
  (create Sample.env (Some Sample.alice) (Sample.desk_with_status "sold")
     Sample.showroom).2 = Sample.showroom
  ∧ products (create Sample.env (Some Sample.alice) Sample.desk
                Sample.showroom).2 !! Sample.chair_id
    = products Sample.showroom !! Sample.chair_id.
Proof.
  split.
  - apply (proj1 (create_is_all_or_nothing Sample.env (Some Sample.alice)
                    (Sample.desk_with_status "sold") Sample.showroom)).
    vm_compute. discriminate.
  - apply (proj2 (create_is_all_or_nothing Sample.env (Some Sample.alice)
                    Sample.desk Sample.showroom)).
    + vm_compute. reflexivity.
    + vm_compute. discriminate.
Defined.

(** X3. A create that answers 201 stores one image row per URL of the
    request, after the image rows already there and in the order given:
    the row of the URL at position [k] carries the new listing's id,
    [display_order = k], and [is_primary] exactly for [k = 0].  Without
    an [images] field, or with an empty one, no image row is added. *)
Theorem create_attaches_images env (caller : Auth.user) body db r :
  (create env (Some caller) body db).1
  = {| code := 201; json := product_created r |} →
  product_images (create env (Some caller) body db).2
  = (product_images db
     ++ imageRecords (fresh env) (default [] (c_images body)))%list
  ∧ length (imageRecords (fresh env) (default [] (c_images body)))
    = length (default [] (c_images body))
  ∧ ∀ k url,
      default [] (c_images body) !! k = Some url →
      imageRecords (fresh env) (default [] (c_images body)) !! k
      = Some {| product_id := fresh env; image_url := url;
                display_order := Z.of_nat k;
                is_primary := bool_decide (k = 0%nat) |}.
Proof.
  intros Hok.
  destruct (create_changes env caller body db)
    as [[_ Hcode]|(p & _ & _ & _ & _ & _ & _ & _ & _ & Hdb)].
  { rewrite Hok in Hcode. by destruct Hcode. }
  rewrite Hdb. simpl. split; [done|]. split.
  - unfold imageRecords. apply length_imap.
  - intros k url Hk. unfold imageRecords.
    by rewrite list_lookup_imap, Hk.
Qed.

Lemma create_attaches_images_witness :
  product_images (create Sample.env (Some Sample.alice) Sample.desk
                    Sample.empty_shop).2
  = [ {| product_id := Sample.desk_id;
         image_url := "https://img.example/desk-1.jpg";
         display_order := 0; is_primary := true |};
      {| product_id := Sample.desk_id;
         image_url := "https://img.example/desk-2.jpg";
         display_order := 1; is_primary := false |} ].
Proof.
  destruct (create_attaches_images Sample.env Sample.alice Sample.desk
              Sample.empty_shop
              (products (create Sample.env (Some Sample.alice) Sample.desk
                           Sample.empty_shop).2 !! Sample.desk_id))
    as (Himages & _ & _).
  - vm_compute. reflexivity.
  - rewrite Himages. reflexivity.
Defined.

(** X4. A listing created as 'active' can be read at once by an
    anonymous caller, whichever key the shared client holds: the read
    answers 200 with the listing and a view count of 1.  A listing
    created without a status, so as a draft, is not shown to an
    anonymous caller. *)
Theorem created_listing_is_readable env (caller : Auth.user) body db r :
  (create env (Some caller) body db).1
  = {| code := 201; json := product_created r |} →
  ∃ p, r = Some p
       ∧ (c_status body = Some "active" →
          ∀ env',
            (read env' None (id p) (create env (Some caller) body db).2).1
            = {| code := 200; json := product_read (with_views 1 p) |})
       ∧ (c_status body = None →
          ∀ env',
            code (read env' None (id p)
                    (create env (Some caller) body db).2).1 ≠ 200).
Proof.
  intros Hok.
  destruct (create_changes env caller body db)
    as [[_ Hcode]|(p & Hresp & Hid & _ & _ & _ & Hviews & Hst & _ & Hdb)].
  { rewrite Hok in Hcode. by destruct Hcode. }
  rewrite Hresp in Hok. injection Hok as <-.
  assert (products (create env (Some caller) body db).2 !! id p = Some p)
    as Hstored.
  { rewrite Hdb, Hid. simpl. apply lookup_insert_eq. }
  exists p. split; [done|]. split.
  - intros Hs env'. rewrite Hs in Hst.
    assert (status p = Active) as Hact.
    { change (Some Active = Some (status p)) in Hst. congruence. }
    assert (select_product (supabase env') (id p)
              (create env (Some caller) body db).2 = Ok (Some p)) as Hsel.
    { apply select_product_visible; [done|].
      unfold public_can_view_active_products.
      rewrite (bool_decide_eq_true_2 _ Hact). by destruct (supabase env'). }
    destruct (read_fetch_decision env' None _ _ p Hsel) as [Hyes _].
    unfold read. rewrite (Hyes (or_introl Hact)).
    unfold read_count. simpl. unfold with_views. by rewrite Hviews.
  - intros Hs env' Hcode. rewrite Hs in Hst.
    assert (status p = Draft) as Hdraft.
    { change (Some Draft = Some (status p)) in Hst. congruence. }
    unfold read, read_fetch in Hcode.
    destruct (select_product _ _ _) as [[q|]|e] eqn:Hsel; try done.
    assert (q = p) as ->.
    { unfold select_product in Hsel. rewrite Hstored in Hsel.
      destruct (public_can_view_active_products _ p); by simplify_eq. }
    rewrite Hdraft in Hcode. simpl in Hcode. done.
Qed.

Lemma created_listing_is_readable_witness :
  code (read Sample.env_anon None Sample.desk_id
          (create Sample.env (Some Sample.alice)
             (Sample.desk_with_status "active") Sample.empty_shop).2).1
  = 200.
Proof.
  destruct (created_listing_is_readable Sample.env Sample.alice
              (Sample.desk_with_status "active") Sample.empty_shop
              (products (create Sample.env (Some Sample.alice)
                           (Sample.desk_with_status "active")
                           Sample.empty_shop).2 !! Sample.desk_id))
    as (p & Hp & Hactive & _).
  - vm_compute. reflexivity.
  - pose proof (Hactive eq_refl Sample.env_anon) as H.
    vm_compute in Hp. injection Hp as <-.
    change (id _) with Sample.desk_id in H.
    rewrite H. reflexivity.
Defined.

(** ** Conditions every route keeps *)

Lemma valid_row_same_keys db db' p :
  categories db' = categories db →
  profiles db' = profiles db →
  valid_row db p → valid_row db' p.
Proof. unfold valid_row, row_error. by intros -> ->. Qed.

Lemma well_formed_same_keys db db' :
  products db' = products db →
  categories db' = categories db →
  profiles db' = profiles db →
  Invariant.well_formed db → Invariant.well_formed db'.
Proof.
  unfold Invariant.well_formed. intros -> Hc Hp Hwf.
  eapply map_Forall_impl; [exact Hwf|].
  intros i p [? ?]. split; [done|].
  by apply (valid_row_same_keys db).
Qed.

Lemma well_formed_insert db db' i p :
  products db' = <[i := p]> (products db) →
  categories db' = categories db →
  profiles db' = profiles db →
  id p = i → valid_row db p →
  Invariant.well_formed db → Invariant.well_formed db'.
Proof.
  unfold Invariant.well_formed. intros -> Hc Hp Hid Hv Hwf.
  apply map_Forall_insert_2.
  - split; [done|]. by apply (valid_row_same_keys db).
  - eapply map_Forall_impl; [exact Hwf|].
    intros j q [? ?]. split; [done|].
    by apply (valid_row_same_keys db).
Qed.

Lemma update_products_well_formed c t i w u db :
  Invariant.well_formed db →
  Invariant.well_formed (update_products c t i w u db).2.
Proof.
  intros Hwf.
  destruct (update_products c t i w u db) as [r db'] eqn:Hup. simpl.
  apply update_products_inv in Hup
    as [[-> _]|(p & q0 & Hp & _ & _ & _ & Hq0 & Herr & _ & ->)]; [done|].
  apply (well_formed_insert db _ i (update_updated_at_column t q0));
    try done.
  - simpl. apply apply_patch_columns in Hq0 as (Hid & _).
    rewrite Hid. by apply (map_Forall_lookup_1 _ _ _ _ Hwf) in Hp as [? _].
  - by apply row_error_policy_true in Herr.
Qed.

(** X5. Every route keeps the table of listings well formed: each row
    stays under its own id and satisfies the constraints of the table
    (price not negative and within [numeric(10, 2)], views within
    [integer], owner an existing profile, category an existing
    category). *)
Theorem routes_keep_listings_well_formed env req_user db :
  Invariant.well_formed db →
  (∀ body, Invariant.well_formed (create env req_user body db).2)
  ∧ (∀ i body, Invariant.well_formed (update env req_user i body db).2)
  ∧ (∀ i status,
       Invariant.well_formed (set_status env req_user i status db).2)
  ∧ (∀ i, Invariant.well_formed (delete req_user i db).2)
  ∧ (∀ i, Invariant.well_formed (read env req_user i db).2).
Proof.
  intros Hwf. split; [|split; [|split; [|split]]].
  - intros body. destruct req_user as [caller|]; [|done].
    destruct (create_changes env caller body db)
      as [[-> _]|(p & _ & Hid & _ & _ & Hv & _ & _ & _ & ->)]; [done|].
    by apply (well_formed_insert db _ (fresh env) p).
  - intros i body.
    destruct (update_writes env req_user i body db)
      as [->|(user & _ & ->)]; [done|].
    by apply update_products_well_formed.
  - intros i status.
    destruct (set_status_writes env req_user i status db)
      as [->|(user & _ & ->)]; [done|].
    by apply update_products_well_formed.
  - intros i.
    destruct (delete_changes req_user i db) as [->|(p & _ & ->)]; [done|].
    unfold Invariant.well_formed in *. simpl.
    apply map_Forall_delete.
    eapply map_Forall_impl; [exact Hwf|]. intros j q [? ?]. done.
  - intros i. unfold read.
    destruct (read_fetch env req_user i db) as [r|held]; [done|].
    unfold read_count. simpl. by apply update_products_well_formed.
Qed.

Lemma routes_keep_listings_well_formed_witness :
  Invariant.well_formed
    (update Sample.env (Some Sample.alice) Sample.chair_id
       Sample.null_sold_at Sample.after_sale).2.
Proof.
  pose proof (routes_keep_listings_well_formed Sample.env
                (Some Sample.alice) Sample.after_sale) as H.
  destruct H as (_ & Hupdate & _).
  - refine (bool_decide_unpack _ _). vm_compute. exact I.
  - exact (Hupdate Sample.chair_id Sample.null_sold_at).
Defined.

Lemma update_products_images c t i w u db :
  product_images (update_products c t i w u db).2 = product_images db.
Proof.
  destruct (update_products c t i w u db) as [r db'] eqn:Hup. simpl.
  apply update_products_inv in Hup
    as [[-> _]|(p & q0 & _ & _ & _ & _ & _ & _ & _ & ->)]; done.
Qed.

Lemma update_products_keeps_keys c t i w u db j :
  is_Some (products db !! j) →
  is_Some (products (update_products c t i w u db).2 !! j).
Proof.
  intros [p Hp].
  destruct (decide (j = i)) as [->|Hne];
    [|rewrite update_products_other; by eauto].
  destruct (update_products_row c t i w u db p Hp)
    as [->|(q0 & _ & -> & _)]; by eauto.
Qed.

Lemma images_attached_update c t i w u db :
  Invariant.images_attached db →
  Invariant.images_attached (update_products c t i w u db).2.
Proof.
  unfold Invariant.images_attached. rewrite update_products_images.
  intros Hatt. eapply Forall_impl; [exact Hatt|].
  intros im. apply update_products_keeps_keys.
Qed.

(** X6. No route leaves an image row without its listing: if every
    image row refers to a listing in the table before a create, update,
    status change, delete or read, the same holds afterwards.  A delete
    takes the images of the deleted listing with it. *)
Theorem routes_keep_images_attached env req_user db :
  Invariant.images_attached db →
  (∀ body, Invariant.images_attached (create env req_user body db).2)
  ∧ (∀ i body, Invariant.images_attached (update env req_user i body db).2)
  ∧ (∀ i status,
       Invariant.images_attached (set_status env req_user i status db).2)
  ∧ (∀ i, Invariant.images_attached (delete req_user i db).2)
  ∧ (∀ i, Invariant.images_attached (read env req_user i db).2).
Proof.
  intros Hatt. split; [|split; [|split; [|split]]].
  - intros body. destruct req_user as [caller|]; [|done].
    destruct (create_changes env caller body db)
      as [[-> _]|(p & _ & _ & _ & _ & _ & _ & _ & _ & ->)]; [done|].
    unfold Invariant.images_attached in *. simpl.
    apply Forall_app. split.
    + eapply Forall_impl; [exact Hatt|]. intros im [q Hq].
      destruct (decide (product_id im = fresh env)) as [->|Hne].
      * rewrite lookup_insert_eq. by eexists.
      * rewrite lookup_insert_ne by done. by eexists.
    + apply Forall_forall. intros im Hin.
      apply elem_of_lookup_imap_1 in Hin as (k & url & -> & _). simpl.
      rewrite lookup_insert_eq. by eexists.
  - intros i body.
    destruct (update_writes env req_user i body db)
      as [->|(user & _ & ->)]; [done|].
    by apply images_attached_update.
  - intros i status.
    destruct (set_status_writes env req_user i status db)
      as [->|(user & _ & ->)]; [done|].
    by apply images_attached_update.
  - intros i.
    destruct (delete_changes req_user i db) as [->|(p & _ & ->)]; [done|].
    unfold Invariant.images_attached in *. simpl.
    apply Forall_forall. intros im Hin.
    apply list_elem_of_filter in Hin as [Hne Hin].
    rewrite Forall_forall in Hatt.
    rewrite lookup_delete_ne by done. by apply Hatt.
  - intros i. unfold read.
    destruct (read_fetch env req_user i db) as [r|held]; [done|].
    unfold read_count. simpl. by apply images_attached_update.
Qed.

Lemma routes_keep_images_attached_witness :
  Invariant.images_attached
    (delete (Some Sample.alice) Sample.desk_id
       (create Sample.env (Some Sample.alice) Sample.desk
          Sample.showroom).2).2.
Proof.
  pose proof (routes_keep_images_attached Sample.env (Some Sample.alice)
                (create Sample.env (Some Sample.alice) Sample.desk
                   Sample.showroom).2) as H.
  destruct H as (_ & _ & _ & Hdelete & _).
  - refine (bool_decide_unpack _ _). vm_compute. exact I.
  - exact (Hdelete Sample.desk_id).
Defined.

(** ** Deleting a listing *)



(** ** What an update stores *)

Lemma apply_patch_all u p q :
  apply_patch u p = Ok q →
  id q = id p
  ∧ uuid_column (user_id p) (u_user_id u) = Ok (user_id q)
  ∧ uuid_column (category_id p) (u_category_id u) = Ok (category_id q)
  ∧ title q = default (title p) (u_title u)
  ∧ description q = default (description p) (u_description u)
  ∧ price q = default (price p) (u_price u)
  ∧ location q = default (location p) (u_location u)
  ∧ views q = default (views p) (u_views u)
  ∧ featured q = default (featured p) (u_featured u)
  ∧ created_at q = default (created_at p) (u_created_at u)
  ∧ sold_at q = default (sold_at p) (u_sold_at u)
  ∧ match u_status u with
    | Some s => status_of_text s = Some (status q)
    | None => status q = status p
    end
  ∧ match u_condition u with
    | Some s => condition_of_text s = Some (condition q)
    | None => condition q = condition p
    end.
Proof.
  unfold apply_patch. intros H.
  destruct (uuid_column (user_id p) (u_user_id u)) as [owner|]; [|done].
  destruct (uuid_column (category_id p) (u_category_id u)) as [category|];
    [|done].
  destruct (u_status u) as [s|];
    [destruct (status_of_text s) as [st|] eqn:Hst; [|done]|];
    (destruct (u_condition u) as [s'|];
     [destruct (condition_of_text s') as [co|] eqn:Hco; [|done]|]);
    injection H as <-; simpl; repeat split; done.
Qed.

(** A 200 of the update route comes from an UPDATE that rewrote the
    row. *)
Lemma update_ok env req_user i body db q :
  (update env req_user i body db).1
  = {| code := 200; json := product_updated q |} →
  ∃ owner p q0,
    req_user = Some owner
    ∧ products db !! i = Some p
    ∧ user_id p = Auth.id owner
    ∧ apply_patch (stamp env (update_sanitized body)) p = Ok q0
    ∧ q = update_updated_at_column (db_now env) q0
    ∧ user_id q = Auth.id owner
    ∧ (update env req_user i body db).2
      = with_products (<[i := q]> (products db)) db.
Proof.
  unfold update, authenticateUser.
  destruct req_user as [owner|]; [|discriminate].
  unfold update_handler.
  destruct (Validator.validationResult _); [|discriminate].
  destruct (update_products _ _ _ _ _ _) as [r db'] eqn:Hup.
  apply update_products_inv in Hup
    as [[-> Hno]|(p & q0 & Hp & _ & Hown & Hw & Hq0 & Herr & -> & ->)].
  - destruct r as [[|x [|]]|]; simpl; try discriminate.
    by destruct (Hno x).
  - simpl. intros [= <-]. exists owner, p, q0.
    apply own_row_authenticated in Hown.
    apply row_error_policy, own_row_authenticated in Herr.
    repeat split; done.
Qed.

Lemma stamp_cases env b :
  (stamp env b = b
   ∧ (is_sold (u_status b) = false ∨ ∃ t, u_sold_at b = Some (Some t)))
  ∨ (stamp env b = set_sold_at (now env) b
     ∧ is_sold (u_status b) = true ∧ mjoin (u_sold_at b) = None).
Proof.
  unfold stamp. destruct (is_sold (u_status b)); [|left; by split; [|left]].
  destruct (u_sold_at b) as [[t|]|]; simpl.
  - left. split; [done|]. right. by exists t.
  - by right.
  - by right.
Qed.

(** X8. What a successful update stores, for a body without an [id]
    field.  A 200 of the update route means the caller owns the listing;
    the row returned is the row now in the table; each field of the body
    has replaced the stored value (the title, description and location
    trimmed, the category read as a uuid), each absent field has kept
    it; [updated_at] is the time of the store; the owner is as before.
    With status 'sold' the sale time is the [sold_at] of the body if it
    has one, and the time of the call otherwise. *)
Theorem update_stores_the_body env req_user i body db q :
  (update env req_user i body db).1
  = {| code := 200; json := product_updated q |} →
  ∃ owner p,
    req_user = Some owner
    ∧ products db !! i = Some p
    ∧ user_id p = Auth.id owner
    ∧ products (update env req_user i body db).2 !! i = Some q
    ∧ (id q, user_id q) = (id p, user_id p)
    ∧ created_at q = default (created_at p) (u_created_at body)
    ∧ updated_at q = db_now env
    ∧ title q = default (title p) (Validator.trim <$> u_title body)
    ∧ description q
      = default (description p) (Validator.trim <$> u_description body)
    ∧ location q = default (location p) (Validator.trim <$> u_location body)
    ∧ price q = default (price p) (u_price body)
    ∧ match u_category_id body with
      | Some c => uuid_in c = Some (category_id q)
      | None => category_id q = category_id p
      end
    ∧ views q = default (views p) (u_views body)
    ∧ featured q = default (featured p) (u_featured body)
    ∧ match u_status body with
      | Some s => status_text (status q) = s
      | None => status q = status p
      end
    ∧ sold_at q
      = if is_sold (u_status body)
        then Some (default (now env) (mjoin (u_sold_at body)))
        else default (sold_at p) (u_sold_at body).
Proof.
  intros Hok.
  apply update_ok in Hok
    as (owner & p & q0 & -> & Hp & Howner & Hq0 & -> & Hq & ->).
  exists owner, p. split; [done|]. split; [done|]. split; [done|].
  split; [apply lookup_insert_eq|].
  apply apply_patch_all in Hq0
    as (Hid & Hu & Hcat & Htitle & Hdesc & Hprice & Hloc & Hviews & Hfeat
        & Hcreated & Hsold & Hstatus & _).
  assert (match u_status body with
          | Some s => status_text (status q0) = s
          | None => status q0 = status p
          end) as Hst.
  { destruct (stamp_cases env (update_sanitized body)) as [[Heq _]|[Heq _]];
      rewrite Heq in Hstatus; simpl in Hstatus;
      destruct (u_status body); try done; by apply status_of_text_inv. }
  assert (match u_category_id body with
          | Some c => uuid_in c = Some (category_id q0)
          | None => category_id q0 = category_id p
          end) as Hcategory.
  { destruct (stamp_cases env (update_sanitized body)) as [[Heq _]|[Heq _]];
      rewrite Heq in Hcat; simpl in Hcat;
      destruct (u_category_id body) as [c|]; simpl in Hcat;
      try (by injection Hcat as <-);
      by destruct (uuid_in c); simplify_eq. }
  destruct (stamp_cases env (update_sanitized body))
    as [[Heq Hcase]|(Heq & Hs & Hnone)];
    rewrite Heq in *; simpl in *; rewrite ?Hid;
    repeat split; try done; try congruence.
  - destruct Hcase as [Hs|[t Ht]].
    + by rewrite Hs.
    + rewrite Hsold, Ht. simpl. by destruct (is_sold (u_status body)).
  - by rewrite Hs, Hsold, Hnone.
Qed.

Lemma update_stores_the_body_witness :
  ∃ q, (update Sample.env (Some Sample.alice) Sample.chair_id
          Sample.null_sold_at Sample.after_sale).1
       = {| code := 200; json := product_updated q |}
       ∧ updated_at q = 201
       ∧ title q = "Chair".
Proof.
  eexists. split; [vm_compute; reflexivity|].
  destruct (update_stores_the_body Sample.env (Some Sample.alice)
              Sample.chair_id Sample.null_sold_at Sample.after_sale _ eq_refl)
    as (owner & p & _ & Hp & _ & _ & _ & _ & Htime & Htitle & _).
  split; [exact Htime|].
  vm_compute in Hp. injection Hp as <-. exact Htitle.
Defined.

(** ** Status changes *)

Lemma isIn_statuses_parse s :
  Validator.isIn statuses s = true →
  ∃ st, status_of_text s = Some st ∧ status_text st = s.
Proof.
  unfold Validator.isIn, statuses, status_of_text. simpl. intros H.
  destruct (String.eqb s "draft") eqn:H1;
    [apply String_eqb_true in H1; subst; by exists Draft|].
  destruct (String.eqb s "active") eqn:H2;
    [apply String_eqb_true in H2; subst; by exists Active|].
  destruct (String.eqb s "sold") eqn:H3;
    [apply String_eqb_true in H3; subst; by exists Sold|].
  destruct (String.eqb s "archived") eqn:H4;
    [apply String_eqb_true in H4; subst; by exists Archived|].
  done.
Qed.

Lemma row_error_same_columns db policy p q :
  views q = views p → price q = price p →
  user_id q = user_id p → category_id q = category_id p →
  row_error db policy q = row_error db policy p.
Proof. unfold row_error. by intros -> -> -> ->. Qed.

(** X9. There is no order among the statuses: the owner of a listing
    (whose row satisfies the table's constraints) can set any of the
    four statuses, whatever the current one.  The route answers 200 with
    the stored row, which has the status asked for and the store's time
    as [updated_at]; its sale time is the time of the call when the
    status is 'sold' and the old one otherwise; every other column is as
    before. *)
Theorem any_status_follows_any env (owner : Auth.user) i db p s :
  products db !! i = Some p →
  user_id p = Auth.id owner →
  valid_row db p →
  Validator.isIn statuses s = true →
  ∃ q,
    set_status env (Some owner) i (Some s) db
    = ({| code := 200; json := product_status_updated q |},
       with_products (<[i := q]> (products db)) db)
    ∧ status_text (status q) = s
    ∧ sold_at q = (if String.eqb s "sold" then Some (now env) else sold_at p)
    ∧ updated_at q = db_now env
    ∧ (id q, user_id q, category_id q, title q, description q, price q,
       condition q, location q, views q, featured q, created_at q)
      = (id p, user_id p, category_id p, title p, description p, price p,
         condition p, location p, views p, featured p, created_at p).
Proof.
  intros Hp Howner Hvalid Hin.
  destruct (isIn_statuses_parse s Hin) as (st & Hst & Htext).
  set (q0 := {| id := id p; user_id := user_id p;
                category_id := category_id p; title := title p;
                description := description p; price := price p;
                status := st; condition := condition p;
                location := location p; views := views p;
                featured := featured p; created_at := created_at p;
                updated_at := updated_at p;
                sold_at := if String.eqb s "sold" then Some (now env)
                           else sold_at p |}).
  assert (apply_patch (status_updates env (Some s)) p = Ok q0) as Hq0.
  { unfold apply_patch, status_updates, is_sold.
    destruct (String.eqb s "sold"); simpl; by rewrite Hst. }
  exists (update_updated_at_column (db_now env) q0).
  split; [|by subst q0].
  assert (Validator.validationResult (status_chains (Some s)) = [])
    as Hval.
  { unfold status_chains, Validator.required. by rewrite Hin. }
  unfold set_status, authenticateUser, set_status_handler.
  rewrite Hval. unfold update_products. rewrite Hp.
  assert (own_row (authenticated (Auth.id owner)) p = true) as Hown
    by (apply own_row_authenticated; congruence).
  assert (public_can_view_active_products
            (authenticated (Auth.id owner)) p = true) as Hsee.
  { simpl. apply orb_true_intro. right. apply bool_decide_eq_true.
    by rewrite Howner. }
  unfold users_can_update_own_products, owned_by, Auth.getSupabaseClient.
  cbn zeta. rewrite Hsee, Hown, Howner, String.eqb_refl. cbn [andb].
  rewrite Hq0.
  rewrite (row_error_same_columns db _ p
             (update_updated_at_column (db_now env) q0)) by done.
  change (own_row (authenticated (Auth.id owner))
            (update_updated_at_column (db_now env) q0))
    with (own_row (authenticated (Auth.id owner)) p).
  rewrite Hown. unfold valid_row in Hvalid. by rewrite Hvalid.
Qed.

Lemma any_status_follows_any_witness :
  ∃ q,
    set_status Sample.env (Some Sample.alice) Sample.chair_id (Some "draft")
      Sample.after_sale
    = ({| code := 200; json := product_status_updated q |},
       with_products (<[Sample.chair_id := q]> (products Sample.after_sale))
         Sample.after_sale)
    ∧ status q = Draft ∧ sold_at q = Some 100.
Proof.
  destruct (any_status_follows_any Sample.env Sample.alice Sample.chair_id
              Sample.after_sale (Sample.chair Sold (Some 100)) "draft")
    as (q & Hresp & Hstatus & Hsold & _).
  - vm_compute. reflexivity.
  - reflexivity.
  - vm_compute. reflexivity.
  - reflexivity.
  - exists q. split; [exact Hresp|]. split; [|exact Hsold].
    by destruct (status q).
Defined.

(** ** What a write leaves alone *)




(** ** The page of a list query *)

Lemma newer_first_transitive : Transitive newer_first.
Proof. unfold newer_first. intros p q r ? ?. lia. Qed.

Lemma newer_first_total : Total newer_first.
Proof. unfold newer_first. intros p q. lia. Qed.

Lemma matching_sorted c q db : StronglySorted newer_first (matching c q db).
Proof.
  unfold matching.
  apply (@StronglySorted_merge_sort _ newer_first _
           newer_first_transitive newer_first_total).
Qed.

Lemma take_drop_sorted (rows : list product) a b :
  StronglySorted newer_first rows →
  StronglySorted newer_first (take a (drop b rows)).
Proof.
  intros H. rewrite <- (take_drop b rows) in H.
  apply StronglySorted_app_1_r in H.
  rewrite <- (take_drop a (drop b rows)) in H.
  by apply StronglySorted_app_1_l in H.
Qed.

(** X11. The listings of a page come newest first: in a 200 of the list
    route, and in the answer of the caller's own listings, no listing is
    followed by one with a later [created_at]. *)
Theorem pages_are_newest_first :
  (∀ env req_user q db ps pg,
     (list_handler env req_user q db).1
     = {| code := 200; json := product_page ps pg |} →
     StronglySorted (λ p p', created_at p' ≤ created_at p) ps)
  ∧ (∀ req_user status db ps,
       Profile.json (Profile.listings req_user status db)
       = Profile.own_products ps →
       StronglySorted (λ p p', created_at p' ≤ created_at p) ps).
Proof.
  split.
  - intros env req_user q db ps pg Hok.
    destruct (list_handler_page _ _ _ _ _ _ Hok)
      as (_ & f & t & _ & _ & ->).
    apply take_drop_sorted, matching_sorted.
  - intros req_user status db ps. unfold Profile.listings.
    destruct req_user as [user|]; [|discriminate].
    unfold select_all. destruct (forallb _ _); [|discriminate].
    simpl. intros [= <-]. apply matching_sorted.
Qed.

Lemma pages_are_newest_first_witness :
  StronglySorted (λ p p', created_at p' ≤ created_at p)
    [Sample.lamp; Sample.chair Active None].
Proof.
  apply (proj1 pages_are_newest_first Sample.env (Some Sample.alice)
           (Sample.listings_of Sample.alice) Sample.workshop _
           {| total := 2; limit := Some 20; offset := Some 0;
              hasMore := false |}).
  vm_compute. reflexivity.
Defined.

(** *** The bounds of the window *)

Lemma is_nat_not_sign c d :
  Ascii.is_nat c = Some d → c ≠ "-"%char ∧ c ≠ "+"%char.
Proof. intros H. split; intros ->; discriminate. Qed.

Lemma int_literal_unsigned c r :
  c ≠ "-"%char → c ≠ "+"%char →
  Js.int_literal (String c r) = Js.digits (String c r).
Proof.
  intros Hm Hp. unfold Js.int_literal.
  destruct c as [[] [] [] [] [] [] [] []]; try done.
Qed.

Lemma digits_int_literal s n :
  Js.digits s = Some n → Js.int_literal s = Some n.
Proof.
  destruct s as [|c r]; [done|]. intros H.
  assert (∃ d, Ascii.is_nat c = Some d) as [d Hd].
  { unfold Js.digits in H. simpl in H.
    destruct (Ascii.is_nat c) as [d|]; [by exists d | done]. }
  destruct (is_nat_not_sign c d Hd).
  by rewrite int_literal_unsigned.
Qed.

Lemma digits_acc_app acc s t :
  Js.digits_acc acc (s +:+ t)
  = match Js.digits_acc acc s with
    | Some a => Js.digits_acc a t
    | None => None
    end.
Proof.
  revert acc. induction s as [|c s IH]; intros acc; [done|].
  change (String c s +:+ t) with (String c (s +:+ t)). simpl.
  destruct (Ascii.is_nat c); [apply IH | done].
Qed.

Lemma digits_acc_shift t : ∀ acc v,
  Js.digits_acc 0 t = Some v →
  Js.digits_acc acc t = Some (acc * 10 ^ Z.of_nat (String.length t) + v).
Proof.
  assert (∃ f : bool, ∀ a,
            Js.digits_acc a t
            = if f then Some (a * 10 ^ Z.of_nat (String.length t)
                              + default 0 (Js.digits_acc 0 t))
              else None) as [f Hf].
  { induction t as [|c t [f Hf]].
    - exists true. intros a. simpl. f_equal. lia.
    - destruct (Ascii.is_nat c) as [d|] eqn:Hd.
      + exists f. intros a. simpl.
        rewrite Hd, (Hf (10 * a + Z.of_nat d)), (Hf (10 * 0 + Z.of_nat d)).
        destruct f; [|done]. simpl. f_equal.
        rewrite Nat2Z.inj_succ, Z.pow_succ_r by lia. lia.
      + exists false. intros a. simpl. by rewrite Hd. }
  intros acc v Hv. rewrite (Hf acc). rewrite (Hf 0) in Hv.
  destruct f; [|done]. injection Hv as <-.
  by rewrite Hf.
Qed.

(** The number written by the text of one number followed by the text of
    another. *)
Lemma int_literal_of_texts so sl o l :
  Js.digits so = Some o → Js.digits sl = Some l →
  Js.int_literal (so +:+ sl)
  = Some (o * 10 ^ Z.of_nat (String.length sl) + l).
Proof.
  intros Ho Hl. apply digits_int_literal.
  destruct so as [|c so]; [done|]. destruct sl as [|c' sl]; [done|].
  change (String c so +:+ String c' sl)
    with (String c (so +:+ String c' sl)).
  unfold Js.digits in *.
  change (String c (so +:+ String c' sl))
    with (String c so +:+ String c' sl).
  rewrite digits_acc_app, Ho. by apply digits_acc_shift.
Qed.

Lemma digits_acc_nonempty s v :
  s ≠ "" → Js.digits_acc 0 s = Some v → Js.int_literal s = Some v.
Proof.
  intros Hne H. apply digits_int_literal. by destruct s.
Qed.

(** X12. Without an [offset] parameter the list route answers with the
    first page: the newest [limit] matching rows (20 when [limit] is
    left out, never more than 100), and [hasMore] is true exactly when
    matching rows are left beyond the page. *)
Theorem first_page env req_user q db ps pg :
  (list_handler env req_user q db).1
  = {| code := 200; json := product_page ps pg |} →
  q_offset q = None →
  ∃ l,
    limit pg = Some l ∧ offset pg = Some 0
    ∧ 1 ≤ l ≤ 100
    ∧ (q_limit q = None → l = 20)
    ∧ ps = take (Z.to_nat l)
             (matching (supabase env)
                (visibility req_user q ++ refinements q) db)
    ∧ (hasMore pg = true
       ↔ (length ps
          < length (matching (supabase env)
                      (visibility req_user q ++ refinements q) db))%nat).
Proof.
  intros Hok Hoff.
  pose proof (list_handler_ok _ _ _ _ _ _ Hok) as (Hval & Hrange & _ & ->).
  assert (Validator.optional (Validator.isInt (Some 1) (Some 100))
            (q_limit q) = true) as Hlimit.
  { apply (validationResult_nil _ Hval "limit").
    unfold list_chains. rewrite !elem_of_cons. do 7 right. by left. }
  clear Hok. rewrite Hoff in Hrange |- *. simpl in Hrange |- *.
  set (rows := matching (supabase env)
                 (visibility req_user q ++ refinements q) db) in *.
  apply range_window in Hrange as (f & t & Hf & Ht & _ & Hpos & ->).
  injection Hf as <-. rewrite drop_0.
  assert (∃ l, Js.parseInt (default (Js.Num 20) (Js.Str <$> q_limit q))
               = Some l
               ∧ 1 ≤ l ≤ 100 ∧ (q_limit q = None → l = 20)
               ∧ t - 0 + 1 = l) as (l & Hl & Hr & Hdef & Hwin).
  { destruct (q_limit q) as [s|]; simpl in *.
    - apply isInt_spec in Hlimit as (n & Hn & Hlo & Hhi).
      exists n. split; [done|].
      split; [split; [by apply Hlo | by apply Hhi]|]. split; [done|].
      unfold Js.minus in Ht. simpl in Ht.
      change (Js.digits_acc (10 * 0 + Z.of_nat 0) ("" +:+ s))
        with (Js.digits_acc 0 s) in Ht.
      destruct (Js.digits_acc 0 s) as [v|] eqn:Hv; [|done].
      simpl in Ht. injection Ht as <-.
      assert (s ≠ "") as Hne by (intros ->; done).
      rewrite (digits_acc_nonempty s v Hne Hv) in Hn.
      injection Hn as <-. lia.
    - exists 20. repeat split; try lia.
      unfold Js.minus in Ht. simpl in Ht. injection Ht as <-. lia. }
  exists l. rewrite Hl, Hwin. repeat split; try done; try lia.
  - unfold Js.gt. simpl. rewrite Z.ltb_lt, length_take. lia.
  - unfold Js.gt. simpl. rewrite Z.ltb_lt, length_take. lia.
Qed.

Lemma first_page_witness :
  ∃ l, Some 20 = Some l ∧ Some 0 = Some 0
       ∧ 1 ≤ l ≤ 100
       ∧ (q_limit Sample.any_listing = None → l = 20)
       ∧ [Sample.chair Active None]
         = take (Z.to_nat l)
             (matching (supabase Sample.env)
                (visibility None Sample.any_listing
                 ++ refinements Sample.any_listing) Sample.workshop)
       ∧ (false = true
          ↔ (length [Sample.chair Active None]
             < length (matching (supabase Sample.env)
                         (visibility None Sample.any_listing
                          ++ refinements Sample.any_listing)
                         Sample.workshop))%nat).
Proof.
  apply (first_page Sample.env None Sample.any_listing Sample.workshop
           [Sample.chair Active None]
           {| total := 1; limit := Some 20; offset := Some 0;
              hasMore := false |}).
  - vm_compute. reflexivity.
  - reflexivity.
Defined.

(** X13. With [offset] and [limit] both given in the query string, the
    upper bound of the window the list route asks of the store is not
    [offset + limit - 1]: [offset + limit] is a concatenation of the two
    texts, so for an offset [o] and a limit [l] written with [k] digits
    the bound is [o * 10^k + l - 1].  The pagination of the answer is
    computed with [parseInt] and does report [o], [l] and
    [total > o + l]. *)
Theorem window_of_text_parameters env req_user q db so sl o l :
  q_offset q = Some so → q_limit q = Some sl →
  Js.digits so = Some o → Js.digits sl = Some l →
  Validator.validationResult (list_chains env q) = [] →
  Js.minus (Js.plus (Js.Str so) (Js.Str sl)) (Js.Num 1)
  = Some (o * 10 ^ Z.of_nat (String.length sl) + l - 1)
  ∧ list_handler env req_user q db
    = match select_products (supabase env)
              (visibility req_user q ++ refinements q) (Js.Str so)
              (Some (o * 10 ^ Z.of_nat (String.length sl) + l - 1)) db with
      | Err e => ({| code := 400; json := store_error e |}, db)
      | Ok (products, count) =>
          ({| code := 200;
              json := product_page products
                {| total := count; limit := Some l; offset := Some o;
                   hasMore := Js.gt count (Some (o + l)) |} |}, db)
      end.
Proof.
  intros Hso Hsl Ho Hl Hval.
  assert (Js.minus (Js.plus (Js.Str so) (Js.Str sl)) (Js.Num 1)
          = Some (o * 10 ^ Z.of_nat (String.length sl) + l - 1)) as Hto.
  { unfold Js.minus, Js.plus. simpl.
    by rewrite (int_literal_of_texts so sl o l Ho Hl). }
  split; [done|].
  unfold list_handler. rewrite Hval, Hso, Hsl.
  change (default (Js.Num 0) (Js.Str <$> Some so)) with (Js.Str so).
  change (default (Js.Num 20) (Js.Str <$> Some sl)) with (Js.Str sl).
  cbn zeta. rewrite Hto. unfold Js.parseInt, Js.to_number.
  rewrite (digits_int_literal so o Ho), (digits_int_literal sl l Hl).
  reflexivity.
Qed.

Lemma window_of_text_parameters_witness :
  Js.minus (Js.plus (Js.Str "1") (Js.Str "5")) (Js.Num 1) = Some 14.
Proof.
  apply (window_of_text_parameters Sample.env None
           (Sample.paged "5" "1" Sample.any_listing) Sample.workshop
           "1" "5" 1 5); reflexivity.
Defined.

(** ** The caller's own listings *)

(** X14. The route of the caller's own listings answers with exactly the
    listings the caller owns, in every status, drafts and archived ones
    included, whatever key the shared client holds; a [status] parameter
    narrows the answer to the listings whose status reads so (to none if
    it names no status). *)
Theorem own_listings_are_all_shown (caller : Auth.user) wanted db :
  ∃ ps,
    Profile.listings (Some caller) wanted db
    = {| Profile.code := 200; Profile.json := Profile.own_products ps |}
    ∧ ∀ p, p ∈ ps
           ↔ (∃ i, products db !! i = Some p)
             ∧ user_id p = Auth.id caller
             ∧ (∀ s, wanted = Some s → s ≠ "" →
                  status_text (status p) = s).
Proof.
  exists (matching (Auth.getSupabaseClient caller)
            (Profile.listings_query caller wanted) db).
  split.
  { unfold Profile.listings, select_all, Profile.listings_query. simpl.
    by destruct (Js.present wanted). }
  intros p.
  rewrite elem_of_matching. unfold Profile.listings_query, matches.
  simpl. rewrite andb_true_iff, String_eqb_true. split.
  - intros (Hi & _ & Howner & Hst). repeat split; try done.
    intros s -> Hne. destruct s; [done|]. simpl in Hst.
    rewrite andb_true_r in Hst. by apply String_eqb_true.
  - intros (Hi & Howner & Hst). repeat split; try done.
    + apply orb_true_intro. right. apply bool_decide_eq_true.
      by rewrite Howner.
    + destruct wanted as [[|c s]|]; try done. simpl.
      rewrite andb_true_r. apply String_eqb_true. by apply Hst.
Qed.

Lemma own_listings_are_all_shown_witness :
  ∃ ps,
    Profile.listings (Some Sample.alice) None Sample.workshop
    = {| Profile.code := 200; Profile.json := Profile.own_products ps |}
    ∧ Sample.lamp ∈ ps.
Proof.
  destruct (own_listings_are_all_shown Sample.alice None Sample.workshop)
    as (ps & Hresp & Hrows).
  exists ps. split; [exact Hresp|]. apply Hrows. repeat split.
  - exists Sample.lamp_id. vm_compute. reflexivity.
  - intros s Hs. discriminate.
Defined.

(** ** Favorites *)

Lemma own_favorite_of (user : Auth.user) f :
  Favorites.own_favorite (Auth.getSupabaseClient user) f = true
  ↔ Favorites.user_id f = Auth.id user.
Proof.
  simpl. rewrite bool_decide_eq_true. split; intros; by symmetry.
Qed.

Lemma reached_iff (user : Auth.user) product f :
  Favorites.reached (Auth.getSupabaseClient user) (Auth.id user) product f
  = true
  ↔ Favorites.user_id f = Auth.id user ∧ Favorites.product_id f = product.
Proof.
  unfold Favorites.reached.
  rewrite !andb_true_iff, own_favorite_of, !String_eqb_true. tauto.
Qed.

Lemma product_id_valid env pid :
  isUUID env pid = true →
  Validator.validationResult
    [("product_id", Validator.required (isUUID env) (Some pid))] = [].
Proof. intros H. unfold Validator.validationResult. simpl. by rewrite H. Qed.

Lemma existsb_clashes_false f l :
  existsb (Favorites.clashes f) l = false →
  ∀ g, g ∈ l →
       ¬ (Favorites.user_id g = Favorites.user_id f
          ∧ Favorites.product_id g = Favorites.product_id f).
Proof.
  intros H g Hin [Hu Hp].
  assert (existsb (Favorites.clashes f) l = true) as Habs; [|congruence].
  apply existsb_exists. exists g. split; [by apply list_elem_of_In|].
  unfold Favorites.clashes. rewrite Hu, Hp.
  rewrite !(bool_decide_eq_true_2 _ eq_refl). by rewrite orb_true_r.
Qed.

Lemma filter_none {A} (P : A → Prop) `{!∀ x, Decision (P x)} (l : list A) :
  (∀ x, x ∈ l → ¬ P x) → filter P l = [].
Proof.
  intros Hno. destruct (filter P l) as [|x l'] eqn:Hf; [done|].
  assert (x ∈ filter P l) as Hin by (rewrite Hf; apply elem_of_cons; by left).
  apply list_elem_of_filter in Hin as [HP Hin]. by destruct (Hno x Hin).
Qed.

(** An INSERT into [favorites] either changes nothing or stores the new
    row in front. *)
Lemma insert_favorite_inv c fresh t0 user product t r t' :
  Favorites.insert_favorite c fresh t0 user product t = (r, t') →
  (t' = t ∧ ∀ f, r ≠ Ok f)
  ∨ ∃ k,
      uuid_in product = Some k
      ∧ r = Ok {| Favorites.id := fresh; Favorites.user_id := user;
                  Favorites.product_id := k;
                  Favorites.created_at := t0 |}
      ∧ Favorites.own_favorite c
          {| Favorites.id := fresh; Favorites.user_id := user;
             Favorites.product_id := k; Favorites.created_at := t0 |}
        = true
      ∧ existsb
          (Favorites.clashes
             {| Favorites.id := fresh; Favorites.user_id := user;
                Favorites.product_id := k; Favorites.created_at := t0 |})
          (Favorites.favorites t) = false
      ∧ is_Some (products (Favorites.listings t) !! k)
      ∧ t' = {| Favorites.listings := Favorites.listings t;
                Favorites.favorites :=
                  {| Favorites.id := fresh; Favorites.user_id := user;
                     Favorites.product_id := k;
                     Favorites.created_at := t0 |}
                  :: Favorites.favorites t |}.
Proof.
  unfold Favorites.insert_favorite. intros H.
  destruct (uuid_in product) as [k|];
    [|injection H as <- <-; left; by split].
  destruct (Favorites.own_favorite c _) eqn:Hown; simpl in H;
    [|injection H as <- <-; left; by split].
  destruct (existsb _ _) eqn:Hclash;
    [injection H as <- <-; left; by split|].
  destruct (bool_decide (user ∈ profiles (Favorites.listings t)));
    simpl in H; [|injection H as <- <-; left; by split].
  destruct (bool_decide (is_Some _)) eqn:Hfk; simpl in H;
    [|injection H as <- <-; left; by split].
  apply bool_decide_eq_true in Hfk. injection H as <- <-.
  right. exists k. repeat split; done.
Qed.

(** The add route changes the tables only by a successful INSERT, which
    it answers with 201. *)
Lemma add_changes env req_user product_id t :
  ((Favorites.add env req_user product_id t).2 = t
   ∧ Favorites.code (Favorites.add env req_user product_id t).1 ≠ 201)
  ∨ ∃ (user : Auth.user) pid k,
      req_user = Some user ∧ product_id = Some pid
      ∧ isUUID env pid = true
      ∧ uuid_in pid = Some k
      ∧ existsb
          (Favorites.clashes
             {| Favorites.id := fresh env; Favorites.user_id := Auth.id user;
                Favorites.product_id := k;
                Favorites.created_at := db_now env |})
          (Favorites.favorites t) = false
      ∧ is_Some (products (Favorites.listings t) !! k)
      ∧ Favorites.add env req_user product_id t
        = ({| Favorites.code := 201;
              Favorites.json :=
                Favorites.favorite_added
                  {| Favorites.id := fresh env;
                     Favorites.user_id := Auth.id user;
                     Favorites.product_id := k;
                     Favorites.created_at := db_now env |} |},
           {| Favorites.listings := Favorites.listings t;
              Favorites.favorites :=
                {| Favorites.id := fresh env;
                   Favorites.user_id := Auth.id user;
                   Favorites.product_id := k;
                   Favorites.created_at := db_now env |}
                :: Favorites.favorites t |}).
Proof.
  unfold Favorites.add. destruct req_user as [user|]; [|by left].
  destruct (Validator.validationResult _) eqn:Hval; [|by left].
  destruct product_id as [pid|]; [|discriminate].
  assert (isUUID env pid = true) as Huuid.
  { apply (validationResult_nil _ Hval "product_id").
    apply elem_of_cons. by left. }
  destruct (Favorites.insert_favorite _ _ _ _ _ _) as [r t'] eqn:Hins.
  apply insert_favorite_inv in Hins
    as [[-> Hno]|(k & Hk & -> & _ & Hclash & Hfk & ->)].
  - left. destruct r as [f|e]; [by destruct (Hno f)|].
    by destruct e.
  - right. exists user, pid, k. repeat split; done.
Qed.

(** X15. A favorite that was added is found: a 201 of the add route
    means the product exists, the row stored names the caller and the
    product, nothing else in the tables has changed, and a check by the
    same caller for that product, however its id is spelled, now answers
    [isFavorite: true]. *)
Theorem added_favorite_is_found env req_user product_id t f t' :
  Favorites.add env req_user product_id t
  = ({| Favorites.code := 201; Favorites.json := Favorites.favorite_added f |},
     t') →
  ∃ (caller : Auth.user) pid,
    req_user = Some caller ∧ product_id = Some pid
    ∧ Favorites.user_id f = Auth.id caller
    ∧ uuid_in pid = Some (Favorites.product_id f)
    ∧ is_Some (products (Favorites.listings t) !! Favorites.product_id f)
    ∧ Favorites.listings t' = Favorites.listings t
    ∧ Favorites.favorites t' = f :: Favorites.favorites t
    ∧ ∀ pid', uuid_in pid' = Some (Favorites.product_id f) →
        Favorites.check (Some caller) pid' t'
        = {| Favorites.code := 200;
             Favorites.json := Favorites.favorite_checked true |}.
Proof.
  intros Hok.
  destruct (add_changes env req_user product_id t)
    as [[_ Hcode]|(user & pid & k & -> & -> & _ & Hk & Hclash & Hfk & Heq)].
  { rewrite Hok in Hcode. by destruct Hcode. }
  rewrite Heq in Hok. injection Hok as <- <-.
  exists user, pid. repeat split; try done.
  intros pid' Hpid'. simpl in Hpid'.
  unfold Favorites.check, Favorites.select_favorite. rewrite Hpid'. simpl.
  rewrite filter_cons.
  rewrite decide_True by (apply Is_true_true, reached_iff; by split).
  rewrite filter_none; [done|].
  intros g Hin Hr. apply Is_true_true, reached_iff in Hr as [Hgu Hgp].
  by apply (existsb_clashes_false _ _ Hclash g Hin).
Qed.

Lemma added_favorite_is_found_witness :
  ∃ f t',
    Favorites.add Sample.env (Some Sample.bob) (Some Sample.chair_id)
      {| Favorites.listings := Sample.workshop; Favorites.favorites := [] |}
    = ({| Favorites.code := 201;
          Favorites.json := Favorites.favorite_added f |}, t')
    ∧ Favorites.check (Some Sample.bob) Sample.chair_id t'
      = {| Favorites.code := 200;
           Favorites.json := Favorites.favorite_checked true |}.
Proof.
  eexists _, _. split; [vm_compute; reflexivity|].
  destruct (added_favorite_is_found Sample.env (Some Sample.bob)
              (Some Sample.chair_id)
              {| Favorites.listings := Sample.workshop;
                 Favorites.favorites := [] |} _ _ eq_refl)
    as (caller & pid & Hc & _ & _ & _ & _ & _ & _ & Hcheck).
  injection Hc as <-. apply Hcheck. reflexivity.
Defined.

(** X16. A product can be a favorite of a user once: when the caller
    already has a favorite for the product, the add route answers 400
    'Product already in favorites' and changes nothing. *)
Theorem favorite_twice_is_refused env (caller : Auth.user) pid t g :
  isUUID env pid = true →
  g ∈ Favorites.favorites t →
  Favorites.user_id g = Auth.id caller →
  uuid_in pid = Some (Favorites.product_id g) →
  Favorites.add env (Some caller) (Some pid) t
  = ({| Favorites.code := 400;
        Favorites.json :=
          Favorites.error_message "Product already in favorites" |}, t).
Proof.
  intros Huuid Hin Hu Hp. unfold Favorites.add.
  rewrite (product_id_valid env pid Huuid).
  unfold Favorites.insert_favorite.
  change (default "" (Some pid)) with pid. rewrite Hp. simpl.
  rewrite (bool_decide_eq_true_2 (Auth.id caller = Auth.id caller) eq_refl).
  simpl.
  replace (existsb _ (Favorites.favorites t)) with true; [done|].
  symmetry. apply existsb_exists. exists g.
  split; [by apply list_elem_of_In|].
  unfold Favorites.clashes. simpl. rewrite Hu.
  rewrite !(bool_decide_eq_true_2 _ eq_refl). by rewrite orb_true_r.
Qed.

Lemma favorite_twice_is_refused_witness :
  Favorites.add Sample.env (Some Sample.bob) (Some Sample.chair_id)
    (Favorites.add Sample.later (Some Sample.bob) (Some Sample.chair_id)
       {| Favorites.listings := Sample.workshop;
          Favorites.favorites := [] |}).2
  = ({| Favorites.code := 400;
        Favorites.json :=
          Favorites.error_message "Product already in favorites" |},
     (Favorites.add Sample.later (Some Sample.bob) (Some Sample.chair_id)
        {| Favorites.listings := Sample.workshop;
           Favorites.favorites := [] |}).2).
Proof.
  apply (favorite_twice_is_refused Sample.env Sample.bob Sample.chair_id _
           {| Favorites.id := Sample.desk_id;
              Favorites.user_id := Auth.id Sample.bob;
              Favorites.product_id := Sample.chair_id;
              Favorites.created_at := 301 |}).
  - vm_compute. reflexivity.
  - vm_compute. apply list_elem_of_In. left. reflexivity.
  - reflexivity.
  - vm_compute. reflexivity.
Defined.

(** The remove route either leaves the tables as they were or takes out
    the caller's favorites for the product. *)
Lemma remove_changes req_user pid t :
  (Favorites.remove req_user pid t).2 = t
  ∨ ∃ (u : Auth.user) k,
      req_user = Some u ∧ uuid_in pid = Some k
      ∧ Favorites.remove req_user pid t
        = ({| Favorites.code := 200;
              Favorites.json := Favorites.favorite_removed |},
           {| Favorites.listings := Favorites.listings t;
              Favorites.favorites :=
                filter (λ f, negb (Favorites.reached
                                     (Auth.getSupabaseClient u)
                                     (Auth.id u) k f))
                  (Favorites.favorites t) |}).
Proof.
  unfold Favorites.remove, Favorites.delete_favorites.
  destruct req_user as [u|]; [|by left].
  destruct (uuid_in pid) as [k|]; [|by left].
  right. by exists u, k.
Qed.

(** X17. Removing a favorite answers 200 for a signed-in caller, whether
    or not there was one.  Afterwards a check by the caller for that
    product answers [isFavorite: false]; the favorites taken out are
    exactly the caller's for that product, and the listings are not
    touched.  When the id of the request is no uuid the route answers
    400 with the store's error and changes nothing. *)
Theorem removed_favorite_is_gone (caller : Auth.user) pid t :
  (∀ k, uuid_in pid = Some k →
     (Favorites.remove (Some caller) pid t).1
     = {| Favorites.code := 200;
          Favorites.json := Favorites.favorite_removed |}
     ∧ Favorites.listings (Favorites.remove (Some caller) pid t).2
       = Favorites.listings t
     ∧ (∀ g, g ∈ Favorites.favorites
                   (Favorites.remove (Some caller) pid t).2
             ↔ g ∈ Favorites.favorites t
               ∧ ¬ (Favorites.user_id g = Auth.id caller
                    ∧ Favorites.product_id g = k))
     ∧ Favorites.check (Some caller) pid
         (Favorites.remove (Some caller) pid t).2
       = {| Favorites.code := 200;
            Favorites.json := Favorites.favorite_checked false |})
  ∧ (uuid_in pid = None →
     Favorites.remove (Some caller) pid t
     = ({| Favorites.code := 400;
           Favorites.json :=
             Favorites.store_error invalid_text_representation |}, t)).
Proof.
  split.
  - intros k Hk.
    unfold Favorites.remove, Favorites.delete_favorites. rewrite Hk. simpl.
    split; [done|]. split; [done|]. split.
    + intros g. rewrite list_elem_of_filter.
      rewrite <- (reached_iff caller k g).
      destruct (Favorites.reached _ _ _ g); simpl.
      * split; [by intros [[] _] | intros [_ Hno]; by destruct Hno].
      * split; [intros [_ ?]; by split | intros [? _]; by split].
    + unfold Favorites.check, Favorites.select_favorite. rewrite Hk. simpl.
      rewrite filter_none; [done|].
      intros g Hin Hr. apply list_elem_of_filter in Hin as [Hnot _].
      by destruct (Favorites.reached _ _ _ g).
  - intros Hbad. unfold Favorites.remove, Favorites.delete_favorites.
    by rewrite Hbad.
Qed.

Lemma removed_favorite_is_gone_witness :
  Favorites.check (Some Sample.bob) Sample.chair_id
    (Favorites.remove (Some Sample.bob) Sample.chair_id
       (Favorites.add Sample.env (Some Sample.bob) (Some Sample.chair_id)
          {| Favorites.listings := Sample.workshop;
             Favorites.favorites := [] |}).2).2
  = {| Favorites.code := 200;
       Favorites.json := Favorites.favorite_checked false |}.
Proof.
  apply (proj1 (removed_favorite_is_gone Sample.bob Sample.chair_id _)
           Sample.chair_id).
  vm_compute. reflexivity.
Defined.

Lemma filter_after_insert_other {A} (P : A → bool) (x : A) l :
  P x = false → filter P (x :: l) = filter P l.
Proof.
  intros H. rewrite filter_cons, decide_False; [done|].
  rewrite H. by intros [].
Qed.

(** X18. Favorites are kept per user.  Adding or removing a favorite
    changes no favorite of another user, so what a check answers to
    another user stays the same; and if no user has two favorites for
    one product before an add or a remove, none has afterwards. *)
Theorem favorites_are_per_user env req_user t :
  (∀ product_id g,
     (∀ u, req_user = Some u → Favorites.user_id g ≠ Auth.id u) →
     g ∈ Favorites.favorites (Favorites.add env req_user product_id t).2
     ↔ g ∈ Favorites.favorites t)
  ∧ (∀ pid g,
       (∀ u, req_user = Some u → Favorites.user_id g ≠ Auth.id u) →
       g ∈ Favorites.favorites (Favorites.remove req_user pid t).2
       ↔ g ∈ Favorites.favorites t)
  ∧ (∀ product_id pid (other : Auth.user) pid',
       (∀ u, req_user = Some u → Auth.id other ≠ Auth.id u) →
       Favorites.check (Some other) pid'
         (Favorites.add env req_user product_id t).2
       = Favorites.check (Some other) pid' t
       ∧ Favorites.check (Some other) pid'
           (Favorites.remove req_user pid t).2
         = Favorites.check (Some other) pid' t)
  ∧ (Favorites.pairs_unique t →
     (∀ product_id,
        Favorites.pairs_unique (Favorites.add env req_user product_id t).2)
     ∧ (∀ pid,
          Favorites.pairs_unique (Favorites.remove req_user pid t).2)).
Proof.
  split; [|split; [|split]].
  - intros product_id g Hother.
    destruct (add_changes env req_user product_id t)
      as [[-> _]|(u & pid & k & Hu & _ & _ & _ & _ & _ & ->)]; [done|].
    simpl. rewrite elem_of_cons. split; [|by right].
    intros [->|?]; [|done]. by destruct (Hother u Hu).
  - intros pid g Hother.
    destruct (remove_changes req_user pid t) as [->|(u & k & Hu & _ & ->)];
      [done|].
    simpl. rewrite list_elem_of_filter. split; [by intros [_ ?]|].
    intros Hin. split; [|done].
    destruct (Favorites.reached _ _ _ g) eqn:Hr; [|done].
    apply reached_iff in Hr as [Hgu _]. by destruct (Hother u Hu).
  - intros product_id pid other pid' Hother. split.
    + destruct (add_changes env req_user product_id t)
        as [[-> _]|(u & pid0 & k & Hu & _ & _ & _ & _ & _ & ->)]; [done|].
      unfold Favorites.check, Favorites.select_favorite. simpl.
      destruct (uuid_in pid') as [k'|]; [|done].
      rewrite filter_after_insert_other; [done|].
      apply not_true_is_false. intros [Hfu _]%reached_iff.
      apply (Hother u Hu). simpl in Hfu. congruence.
    + destruct (remove_changes req_user pid t)
        as [->|(u & k & Hu & _ & ->)]; [done|].
      unfold Favorites.check, Favorites.select_favorite. simpl.
      destruct (uuid_in pid') as [k'|]; [|done].
      rewrite list_filter_filter_l; [done|].
      intros g Hr. apply Is_true_true, reached_iff in Hr as [Hgu _].
      destruct (Favorites.reached _ _ _ g) eqn:Hr'; [|done].
      apply reached_iff in Hr' as [Hgu' _].
      destruct (Hother u Hu). congruence.
  - intros Huniq. split.
    + intros product_id.
      destruct (add_changes env req_user product_id t)
        as [[-> _]|(u & pid & k & Hu & _ & _ & _ & Hclash & _ & ->)];
        [done|].
      unfold Favorites.pairs_unique in *. simpl.
      apply NoDup_cons. split; [|done].
      intros Hin. apply list_elem_of_fmap in Hin as (g & Heq & Hg).
      injection Heq as Hgu Hgp.
      by apply (existsb_clashes_false _ _ Hclash g Hg).
    + intros pid.
      destruct (remove_changes req_user pid t)
        as [->|(u & k & Hu & _ & ->)]; [done|].
      unfold Favorites.pairs_unique in *. simpl.
      eapply sublist_NoDup; [exact Huniq|].
      apply fmap_sublist, sublist_filter.
Qed.

Lemma favorites_are_per_user_witness :
  Favorites.check (Some Sample.alice) Sample.chair_id
    (Favorites.remove (Some Sample.bob) Sample.chair_id
       {| Favorites.listings := Sample.workshop;
          Favorites.favorites :=
            [ {| Favorites.id := Sample.desk_id;
                 Favorites.user_id := Auth.id Sample.alice;
                 Favorites.product_id := Sample.chair_id;
                 Favorites.created_at := 50 |} ] |}).2
  = {| Favorites.code := 200;
       Favorites.json := Favorites.favorite_checked true |}.
Proof.
  destruct (favorites_are_per_user Sample.env (Some Sample.bob)
              {| Favorites.listings := Sample.workshop;
                 Favorites.favorites :=
                   [ {| Favorites.id := Sample.desk_id;
                        Favorites.user_id := Auth.id Sample.alice;
                        Favorites.product_id := Sample.chair_id;
                        Favorites.created_at := 50 |} ] |})
    as (_ & _ & Hcheck & _).
  destruct (Hcheck None Sample.chair_id Sample.alice Sample.chair_id)
    as [_ Hrem].
  - intros u [= <-]. vm_compute. discriminate.
  - rewrite Hrem. vm_compute. reflexivity.
Defined.

(** ** The fields of a new listing *)

Lemma required_inv {A} (check : A → bool) (field : option A) :
  Validator.required check field = true →
  ∃ x, field = Some x ∧ check x = true.
Proof. destruct field as [x|]; [by exists x | done]. Qed.

Lemma condition_of_text_inv s c :
  condition_of_text s = Some c → condition_text c = s.
Proof.
  unfold condition_of_text. intros H.
  repeat (destruct (String.eqb s _) eqn:Heq;
          [apply String_eqb_true in Heq; by simplify_eq|clear Heq]).
  done.
Qed.

Lemma valid_row_constraints db p :
  valid_row db p →
  0 ≤ price p ∧ user_id p ∈ profiles db ∧ category_id p ∈ categories db.
Proof.
  unfold valid_row, row_error. intros H.
  destruct (negb (int4 (views p) && numeric_10_2 (price p))); [done|].
  simpl in H.
  destruct (Z.leb 0 (price p)) eqn:Hprice; [|done]. simpl in H.
  destruct (bool_decide (user_id p ∈ profiles db)) eqn:Hu; [|done].
  destruct (bool_decide (category_id p ∈ categories db)) eqn:Hc; [|done].
  apply Z.leb_le in Hprice.
  by apply bool_decide_eq_true in Hu, Hc.
Qed.

(** X21. What a create stores.  A 201 means the request carried a title,
    a description and a location that are not blank, a price that is not
    negative, the id of an existing category and one of the five
    conditions; the new listing has the title, description and location
    with the white space at their ends taken off, the price and
    condition given, the category the id reads as, [featured] false and
    the time of the store as [created_at] and [updated_at]. *)
Theorem create_stores_the_body env (caller : Auth.user) body db r :
  (create env (Some caller) body db).1
  = {| code := 201; json := product_created r |} →
  ∃ p t d l amount k c,
    r = Some p
    ∧ (c_title body = Some t ∧ title p = Validator.trim t ∧ title p ≠ "")
    ∧ (c_description body = Some d
       ∧ description p = Validator.trim d ∧ description p ≠ "")
    ∧ (c_location body = Some l
       ∧ location p = Validator.trim l ∧ location p ≠ "")
    ∧ (c_price body = Some amount ∧ price p = amount ∧ 0 ≤ amount)
    ∧ (c_category_id body = Some k
       ∧ uuid_in k = Some (category_id p)
       ∧ category_id p ∈ categories db)
    ∧ (c_condition body = Some c ∧ condition_text (condition p) = c)
    ∧ featured p = false
    ∧ created_at p = db_now env ∧ updated_at p = db_now env.
Proof.
  intros Hok.
  destruct (create_changes env caller body db)
    as [[_ Hcode]|(p & Hresp & _ & _ & _ & Hvalid & _ & _ & Hrow & _)].
  { rewrite Hok in Hcode. by destruct Hcode. }
  rewrite Hresp in Hok. injection Hok as <-.
  destruct Hrow as (Hval & Ht & Hd & Hl & Hprice & Hcat & Hcond
                    & Hfeat & Hcreated & Hupdated).
  destruct (valid_row_constraints _ _ Hvalid) as (Hpos & _ & Hfk).
  assert (∀ name ok,
            (name, ok) ∈ create_chains env (create_sanitized body) →
            ok = true) as Hchains
    by apply (validationResult_nil _ Hval).
  assert (∃ t, c_title body = Some t ∧ Validator.trim t ≠ "")
    as (t & Htitle & Htne).
  { destruct (required_inv Validator.notEmpty
                (c_title (create_sanitized body))) as (x & Hx & Hne).
    { apply (Hchains "title"). unfold create_chains.
      rewrite !elem_of_cons. by left. }
    simpl in Hx. destruct (c_title body) as [t|]; [|done].
    injection Hx as <-. exists t. split; [done|].
    intros Hblank. by rewrite Hblank in Hne. }
  assert (∃ d, c_description body = Some d ∧ Validator.trim d ≠ "")
    as (d & Hdesc & Hdne).
  { destruct (required_inv Validator.notEmpty
                (c_description (create_sanitized body)))
      as (x & Hx & Hne).
    { apply (Hchains "description"). unfold create_chains.
      rewrite !elem_of_cons. do 1 right. by left. }
    simpl in Hx. destruct (c_description body) as [d|]; [|done].
    injection Hx as <-. exists d. split; [done|].
    intros Hblank. by rewrite Hblank in Hne. }
  assert (∃ l, c_location body = Some l ∧ Validator.trim l ≠ "")
    as (l & Hloc & Hlne).
  { destruct (required_inv Validator.notEmpty
                (c_location (create_sanitized body))) as (x & Hx & Hne).
    { apply (Hchains "location"). unfold create_chains.
      rewrite !elem_of_cons. do 5 right. by left. }
    simpl in Hx. destruct (c_location body) as [l|]; [|done].
    injection Hx as <-. exists l. split; [done|].
    intros Hblank. by rewrite Hblank in Hne. }
  assert (∃ amount, c_price body = Some amount) as (amount & Hamount).
  { destruct (required_inv Validator.isFloat_min0
                (c_price (create_sanitized body))) as (x & Hx & _).
    { apply (Hchains "price"). unfold create_chains.
      rewrite !elem_of_cons. do 2 right. by left. }
    by exists x. }
  assert (∃ k, c_category_id body = Some k) as (k & Hk).
  { destruct (required_inv (isUUID env)
                (c_category_id (create_sanitized body))) as (x & Hx & _).
    { apply (Hchains "category_id"). unfold create_chains.
      rewrite !elem_of_cons. do 3 right. by left. }
    by exists x. }
  assert (∃ c, c_condition body = Some c) as (c & Hc).
  { destruct (required_inv (Validator.isIn conditions)
                (c_condition (create_sanitized body))) as (x & Hx & _).
    { apply (Hchains "condition"). unfold create_chains.
      rewrite !elem_of_cons. do 4 right. by left. }
    by exists x. }
  rewrite Htitle in Ht. rewrite Hdesc in Hd. rewrite Hloc in Hl.
  rewrite Hamount in Hprice. rewrite Hk in Hcat. rewrite Hc in Hcond.
  simpl in Ht, Hd, Hl, Hprice, Hcat, Hcond.
  exists p, t, d, l, amount, k, c.
  split; [done|].
  split; [split; [done|split; [done|by rewrite Ht]]|].
  split; [split; [done|split; [done|by rewrite Hd]]|].
  split; [split; [done|split; [done|by rewrite Hl]]|].
  split; [split; [done|split; [done|by rewrite <- Hprice]]|].
  split; [split; [done|split; [done|done]]|].
  split; [split; [done|by apply condition_of_text_inv]|].
  done.
Qed.

Lemma create_stores_the_body_witness :
  ∃ p, (create Sample.env (Some Sample.alice) Sample.desk
          Sample.empty_shop).1
       = {| code := 201; json := product_created (Some p) |}
       ∧ title p = "Desk"
       ∧ created_at p = 201.
Proof.
  assert (∃ p, (create Sample.env (Some Sample.alice) Sample.desk
                  Sample.empty_shop).1
               = {| code := 201; json := product_created (Some p) |})
    as [p Hp] by (eexists; vm_compute; reflexivity).
  exists p. split; [exact Hp|].
  destruct (create_stores_the_body Sample.env Sample.alice Sample.desk
              Sample.empty_shop (Some p) Hp)
    as (p' & t & d & l & amount & k & c & Hr & (Ht & Htitle & _) & _ & _
        & _ & _ & _ & _ & Hcreated & _).
  injection Hr as <-. injection Ht as <-.
  split; [rewrite Htitle; vm_compute; reflexivity | exact Hcreated].
Defined.

(** X22. Blank text is not a title.  A create whose title, description
    or location is nothing but white space (the no-break space and the
    other white space of JavaScript included) is answered 400 with a
    validation error that names the field, and stores nothing; so is an
    update that carries such a title, description or location. *)
Theorem blank_fields_are_rejected env req_user :
  (∀ (caller : Auth.user) body db name field,
     req_user = Some caller →
     (name, field) ∈ [("title", c_title body);
                      ("description", c_description body);
                      ("location", c_location body)] →
     (∀ t, field = Some t → Validator.trim t = "") →
     ∃ errors,
       create env req_user body db
       = ({| code := 400; json := validation_errors errors |}, db)
       ∧ name ∈ errors)
  ∧ (∀ (caller : Auth.user) i body db name t,
       req_user = Some caller →
       (name, Some t) ∈ [("title", u_title body);
                         ("description", u_description body);
                         ("location", u_location body)] →
       Validator.trim t = "" →
       ∃ errors,
         update env req_user i body db
         = ({| code := 400; json := validation_errors errors |}, db)
         ∧ name ∈ errors).
Proof.
  split.
  - intros caller body db name field -> Hin Hblank.
    assert (name ∈ Validator.validationResult
                     (create_chains env (create_sanitized body))) as Herr.
    { apply validationResult_failed. unfold create_chains. simpl.
      rewrite !elem_of_cons, elem_of_nil in Hin.
      destruct Hin as [[= -> ->]|[[= -> ->]|[[= -> ->]|[]]]].
      - replace (Validator.required Validator.notEmpty
                   (Validator.trim <$> c_title body)) with false.
        + rewrite !elem_of_cons. by left.
        + destruct (c_title body) as [t|]; [|done]. simpl.
          by rewrite (Hblank t eq_refl).
      - replace (Validator.required Validator.notEmpty
                   (Validator.trim <$> c_description body)) with false.
        + rewrite !elem_of_cons. do 1 right. by left.
        + destruct (c_description body) as [t|]; [|done]. simpl.
          by rewrite (Hblank t eq_refl).
      - replace (Validator.required Validator.notEmpty
                   (Validator.trim <$> c_location body)) with false.
        + rewrite !elem_of_cons. do 5 right. by left.
        + destruct (c_location body) as [t|]; [|done]. simpl.
          by rewrite (Hblank t eq_refl). }
    unfold create, authenticateUser, create_handler.
    destruct (Validator.validationResult _) as [|e errs];
      [by apply not_elem_of_nil in Herr|].
    by exists (e :: errs).
  - intros caller i body db name t -> Hin Hblank.
    assert (name ∈ Validator.validationResult
                     (update_chains env (update_sanitized body))) as Herr.
    { apply validationResult_failed. unfold update_chains. simpl.
      rewrite !elem_of_cons, elem_of_nil in Hin.
      destruct Hin as [[= -> Ht]|[[= -> Ht]|[[= -> Ht]|[]]]];
        rewrite <- Ht; simpl; rewrite Hblank; simpl; rewrite !elem_of_cons.
      - by left.
      - do 1 right. by left.
      - do 5 right. by left. }
    unfold update, authenticateUser, update_handler.
    destruct (Validator.validationResult _) as [|e errs];
      [by apply not_elem_of_nil in Herr|].
    by exists (e :: errs).
Qed.

Lemma blank_fields_are_rejected_witness :
  ∃ errors,
    create Sample.env (Some Sample.alice)
      {| c_title :=
           Some (String (Ascii.ascii_of_N 194)
                   (String (Ascii.ascii_of_N 160) ""));
         c_description := c_description Sample.desk;
         c_price := c_price Sample.desk;
         c_category_id := c_category_id Sample.desk;
         c_condition := c_condition Sample.desk;
         c_location := c_location Sample.desk;
         c_images := None; c_status := None |} Sample.empty_shop
    = ({| code := 400; json := validation_errors errors |},
       Sample.empty_shop)
    ∧ "title" ∈ errors.
Proof.
  apply (proj1 (blank_fields_are_rejected Sample.env (Some Sample.alice))
           Sample.alice _ Sample.empty_shop "title"
           (Some (String (Ascii.ascii_of_N 194)
                    (String (Ascii.ascii_of_N 160) "")))).
  - reflexivity.
  - apply elem_of_cons. by left.
  - intros t [= <-]. vm_compute. reflexivity.
Defined.
